(** * Parameter marshaling of [ansys.mapdl.core]: an embedding in Rocq

    The development follows [src/ansys/mapdl/core/parameters.py] and the
    [supress_logging] decorator of [src/ansys/mapdl/core/misc.py].

    - Text is a Rocq [string]: a sequence of code points below 256.  The
      [str] methods used by the code ([find], [rfind], [in], slices,
      [split], [splitlines], [upper]) are written out on that domain.
    - [float(...)] and [int(...)] on a token are written out as parsers;
      a float is a [spec_float] of binary64, rounded to nearest even from
      the decimal literal.
    - A Python dict is a [gmap]; an exception is a value of [exception];
      code that talks to the MAPDL session lives in a state-and-exception
      monad over a record of the client-side objects. *)

From Stdlib Require Import ZArith Lia List Ascii String SpecFloat Bool.
From stdpp Require Import base option list gmap strings pretty.

Local Open Scope string_scope.
Local Open Scope list_scope.
Local Open Scope Z_scope.

(** ** Python [str] primitives *)

Module PyStr.

Definition chars (s : string) : list ascii := list_ascii_of_string s.
Definition of_chars (l : list ascii) : string := string_of_list_ascii l.

Definition len (s : string) : Z := Z.of_nat (String.length s).

Fixpoint drop_chars (n : nat) (s : string) : string :=
  match n, s with
  | O, _ => s
  | S n', String _ s' => drop_chars n' s'
  | S _, EmptyString => EmptyString
  end.

Fixpoint take_chars (n : nat) (s : string) : string :=
  match n, s with
  | S n', String c s' => String c (take_chars n' s')
  | _, _ => EmptyString
  end.

(** [s[st:]], with Python's treatment of a negative start. *)
Definition slice_from (s : string) (st : Z) : string :=
  if st <? 0 then drop_chars (Z.to_nat (Z.max 0 (len s + st))) s
  else drop_chars (Z.to_nat st) s.

(** [s[:en]], with Python's treatment of a negative stop. *)
Definition slice_to (s : string) (en : Z) : string :=
  if en <? 0 then take_chars (Z.to_nat (Z.max 0 (len s + en))) s
  else take_chars (Z.to_nat en) s.

Fixpoint find_from (sub s : string) (pos : Z) : Z :=
  if String.prefix sub s then pos
  else match s with
       | EmptyString => -1
       | String _ s' => find_from sub s' (pos + 1)
       end.

(** [s.find(sub)]: index of the first occurrence, [-1] when there is none. *)
Definition find (s sub : string) : Z := find_from sub s 0.

Fixpoint rfind_from (sub s : string) (pos : Z) : Z :=
  match s with
  | EmptyString => if String.prefix sub s then pos else -1
  | String _ s' =>
      let r := rfind_from sub s' (pos + 1) in
      if 0 <=? r then r else if String.prefix sub s then pos else -1
  end.

(** [s.rfind(sub)]: index of the last occurrence, [-1] when there is none. *)
Definition rfind (s sub : string) : Z := rfind_from sub s 0.

(** [sub in s] *)
Definition contains (sub s : string) : bool := 0 <=? find s sub.

Definition code (c : ascii) : nat := nat_of_ascii c.

(** [str.isspace] on one code point below 256. *)
Definition is_space (c : ascii) : bool :=
  let n := code c in
  ((9 <=? n) && (n <=? 13) || (28 <=? n) && (n <=? 32)
   || (n =? 133) || (n =? 160))%nat.

(** The line boundaries of [str.splitlines] below 256. *)
Definition is_linebreak (c : ascii) : bool :=
  let n := code c in
  ((10 <=? n) && (n <=? 13) || (28 <=? n) && (n <=? 30) || (n =? 133))%nat.

Fixpoint split_from (l cur : list ascii) : list string :=
  match l with
  | [] => match cur with [] => [] | _ => [of_chars (rev cur)] end
  | c :: l' =>
      if is_space c
      then match cur with
           | [] => split_from l' []
           | _ => of_chars (rev cur) :: split_from l' []
           end
      else split_from l' (c :: cur)
  end.

(** [s.split()] *)
Definition split (s : string) : list string := split_from (chars s) [].

Fixpoint splitlines_from (l cur : list ascii) : list string :=
  match l with
  | [] => match cur with [] => [] | _ => [of_chars (rev cur)] end
  | c :: l' =>
      if is_linebreak c
      then of_chars (rev cur) ::
           match l' with
           | d :: l'' =>
               if ((code c =? 13) && (code d =? 10))%nat
               then splitlines_from l'' []
               else splitlines_from l' []
           | [] => splitlines_from l' []
           end
      else splitlines_from l' (c :: cur)
  end.

(** [s.splitlines()] *)
Definition splitlines (s : string) : list string :=
  splitlines_from (chars s) [].

Definition upper_char (c : ascii) : ascii :=
  let n := code c in
  if ((97 <=? n) && (n <=? 122))%nat then ascii_of_nat (n - 32) else c.

(** [s.upper()], on ASCII text. *)
Definition upper (s : string) : string := of_chars (map upper_char (chars s)).

Definition lower_char (c : ascii) : ascii :=
  let n := code c in
  if ((65 <=? n) && (n <=? 90))%nat then ascii_of_nat (n + 32) else c.

Definition is_digit (c : ascii) : bool :=
  let n := code c in ((48 <=? n) && (n <=? 57))%nat.

Definition digit_value (c : ascii) : Z := Z.of_nat (code c - 48).

Definition digits_value (l : list ascii) : Z :=
  fold_left (fun acc c => 10 * acc + digit_value c) l 0.

End PyStr.

(** ** The builtins [int] and [float] on a token *)

Module PyNum.
Import PyStr.

Fixpoint span_digits (l : list ascii) : list ascii * list ascii :=
  match l with
  | c :: l' =>
      if is_digit c
      then let '(ds, r) := span_digits l' in (c :: ds, r)
      else ([], l)
  | [] => ([], [])
  end.

Definition split_sign (l : list ascii) : bool * list ascii :=
  match l with
  | "-"%char :: r => (true, r)
  | "+"%char :: r => (false, r)
  | _ => (false, l)
  end.

(** Underscores in a numeric literal: allowed only between two digits;
    [None] when one is misplaced, else the text without them. *)
Fixpoint strip_underscores (prev : option ascii) (l : list ascii)
  : option (list ascii) :=
  match l with
  | [] => match prev with
          | Some "_"%char => None
          | _ => Some []
          end
  | c :: l' =>
      if Ascii.eqb c "_"
      then match prev with
           | Some p => if is_digit p then strip_underscores (Some c) l'
                       else None
           | None => None
           end
      else match prev with
           | Some "_"%char =>
               if is_digit c
               then option_map (cons c) (strip_underscores (Some c) l')
               else None
           | _ => option_map (cons c) (strip_underscores (Some c) l')
           end
  end.

(** [int(tok)] in base 10; [None] stands for [ValueError].  The cap that
    recent CPython versions put on the number of digits is left out. *)
Definition py_int (tok : string) : option Z :=
  let '(neg, r) := split_sign (chars tok) in
  match strip_underscores None r with
  | Some ds =>
      match ds with
      | [] => None
      | _ => if forallb is_digit ds
             then Some (if neg then - digits_value ds else digits_value ds)
             else None
      end
  | None => None
  end.

Definition prec : Z := 53.
Definition emax : Z := 1024.

(** The binary64 nearest to [m * 10^e10] (ties to even), signed by [neg]. *)
Definition decimal_to_float (neg : bool) (m e10 : Z) : spec_float :=
  match m with
  | Z0 => S754_zero neg
  | Zpos p =>
      if 0 <=? e10
      then binary_normalize prec emax
             (if neg then - (m * 10 ^ e10) else m * 10 ^ e10) 0 neg
      else
        let d := 10 ^ (- e10) in
        let s := Zdigits2 d + 55 in
        let '(q, r) := Z.div_eucl (Z.shiftl m s) d in
        binary_round_aux prec emax neg q (- s) (new_location d r)
  | Zneg _ => S754_nan
  end.

Definition lower_chars (l : list ascii) : string :=
  of_chars (map lower_char l).

Definition parse_inf_or_nan (l : list ascii) : option spec_float :=
  let '(neg, r) := split_sign l in
  let w := lower_chars r in
  if String.eqb w "inf" || String.eqb w "infinity"
  then Some (S754_infinity neg)
  else if String.eqb w "nan" then Some S754_nan
  else None.

Definition parse_exponent (l : list ascii) : Z * list ascii :=
  match l with
  | c :: r =>
      if Ascii.eqb c "e" || Ascii.eqb c "E"
      then let '(eneg, r') := split_sign r in
           let '(ed, r'') := span_digits r' in
           match ed with
           | [] => (0, l)
           | _ => (if eneg then - digits_value ed else digits_value ed, r'')
           end
      else (0, l)
  | [] => (0, [])
  end.

Definition parse_float (l : list ascii) : option spec_float :=
  let '(neg, r) := split_sign l in
  let '(ip, r1) := span_digits r in
  let '(fp, r2) :=
    match r1 with
    | "."%char :: r' => span_digits r'
    | _ => ([], r1)
    end in
  match ip ++ fp with
  | [] => parse_inf_or_nan l
  | ds =>
      let '(ex, r3) := parse_exponent r2 in
      match r3 with
      | [] => Some (decimal_to_float neg (digits_value ds)
                      (ex - Z.of_nat (length fp)))
      | _ => None
      end
  end.

(** [float(tok)]; [None] stands for [ValueError]. *)
Definition py_float (tok : string) : option spec_float :=
  if existsb (Ascii.eqb "_") (chars tok)
  then match strip_underscores None (chars tok) with
       | Some l => parse_float l
       | None => None
       end
  else parse_float (chars tok).

End PyNum.

(** ** Exceptions and results *)

Inductive exception :=
| TypeError
| ValueError
| IndexError
| KeyError
| RuntimeError
| OtherError (name : string).

Definition result (A : Type) : Type := exception + A.

Definition is_ValueError (e : exception) : bool :=
match e with ValueError => true | _ => false end.

(** ** [interp_star_status]: the parser of a [*STATUS] listing *)

Module Listing.
Import PyStr PyNum.

Inductive scalar_value :=
| VFloat (f : spec_float)
| VStr (s : string).

(** One entry of the returned dict: [{"type": t, "value": v}] or
    [{"type": t, "shape": (i, j, k)}]. *)
Inductive param_info :=
| InfoValue (type : string) (value : scalar_value)
| InfoShape (type : string) (shape : Z * Z * Z).

Definition info_type (i : param_info) : string :=
  match i with InfoValue t _ | InfoShape t _ => t end.

Definition header : string := "NAME                              VALUE".

(** The body of the [for] loop, for one line. *)
Definition interp_line (parameters : gmap string param_info) (line : string)
  : result (gmap string param_info) :=
  match split line with
  | [] => inr parameters
  | [name; v] =>
      if String.eqb (slice_from v (-9)) "CHARACTER"
      then inr (<[name := InfoValue "CHARACTER" (VStr (slice_to v (-9)))]>
                  parameters)
      else inr parameters
  | [name; v; t] =>
      if String.eqb t "SCALAR"
      then match py_float v with
           | Some f => inr (<[name := InfoValue t (VFloat f)]> parameters)
           | None => inl ValueError
           end
      else inr (<[name := InfoValue t (VStr v)]> parameters)
  | [name; t; a; b; c] =>
      match py_int a, py_int b, py_int c with
      | Some i, Some j, Some k =>
          inr (<[name := InfoShape t (i, j, k)]> parameters)
      | _, _, _ => inl ValueError
      end
  | _ => inr parameters
  end.

Fixpoint interp_lines (lines : list string)
  (parameters : gmap string param_info) : result (gmap string param_info) :=
  match lines with
  | [] => inr parameters
  | line :: rest =>
      match interp_line parameters line with
      | inr parameters' => interp_lines rest parameters'
      | inl e => inl e
      end
  end.

Definition records (status : string) : list string :=
  let st := find status header in
  splitlines (slice_from status (st + 80)).

Definition interp_star_status (status : string)
  : result (gmap string param_info) :=
  interp_lines (records status) ∅.

(** The lines on which a conversion fails: three tokens ending in
    [SCALAR] whose value is no float literal, or five tokens one of whose
    dimensions is no integer literal. *)
Definition rejected {A} (o : option A) : bool :=
  match o with None => true | Some _ => false end.

Definition line_raises (line : string) : bool :=
  match split line with
  | [_; v; t] => String.eqb t "SCALAR" && rejected (py_float v)
  | [_; _; a; b; c] =>
      rejected (py_int a) || rejected (py_int b) || rejected (py_int c)
  | _ => false
  end.

(** A line counts when it has two, three or five tokens. *)
Definition counted (line : string) : bool :=
  let n := length (split line) in ((n =? 2) || (n =? 3) || (n =? 5))%nat.

End Listing.

(** ** NumPy arrays *)

Module Np.

Inductive np_dtype :=
| dt_bool | dt_int | dt_uint | dt_float | dt_complex
| dt_str | dt_object | dt_datetime.

(** [np.issubdtype(d, np.number)] *)
Definition issubdtype_number (d : np_dtype) : bool :=
  match d with
  | dt_int | dt_uint | dt_float | dt_complex => true
  | _ => false
  end.

(** An array: its dtype, its shape and its items in C order. *)
Record ndarray (A : Type) := NdArray {
  dtype : np_dtype;
  shape : list nat;
  items : list A
}.
Arguments NdArray {A} _ _ _.
Arguments dtype {A} _.
Arguments shape {A} _.
Arguments items {A} _.

Definition product (l : list nat) : nat := fold_right Nat.mul 1%nat l.
Definition productZ (l : list Z) : Z := fold_right Z.mul 1 l.

Definition ndim {A} (a : ndarray A) : nat := length (shape a).
Definition arr_size {A} (a : ndarray A) : nat := product (shape a).

Definition well_formed {A} (a : ndarray A) : Prop :=
  length (items a) = arr_size a.

(** [a.reshape(shape)]: at most one dimension may be [-1] and is then
    inferred; a size that does not fit is a [ValueError]. *)
Definition reshape {A} (a : ndarray A) (new_shape : list Z)
  : result (ndarray A) :=
  let n := Z.of_nat (length (items a)) in
  if existsb (fun d => d <? -1) new_shape then inl ValueError
  else
    let known := filter (fun d => negb (d =? -1)) new_shape in
    match (length new_shape - length known)%nat with
    | O =>
        if productZ new_shape =? n
        then inr (NdArray (dtype a) (map Z.to_nat new_shape) (items a))
        else inl ValueError
    | S O =>
        let p := productZ known in
        if (p =? 0) || negb (n mod p =? 0) then inl ValueError
        else inr (NdArray (dtype a)
                    (map (fun d => Z.to_nat (if d =? -1 then n / p else d))
                       new_shape)
                    (items a))
    | _ => inl ValueError
    end.

(** [a.squeeze(axis=2)] *)
Definition squeeze2 {A} (a : ndarray A) : result (ndarray A) :=
  match shape a with
  | i :: j :: 1%nat :: rest => inr (NdArray (dtype a) (i :: j :: rest) (items a))
  | _ => inl ValueError
  end.

(** [a.ravel("F")] of an array seen with dimensions [idim, jdim, kdim]:
    the first index runs fastest. *)
Definition ravel_F {A} (idim jdim kdim : nat) (its : list A) : list A :=
  flat_map (fun k =>
    flat_map (fun j =>
      flat_map (fun i =>
        match nth_error its ((i * jdim + j) * kdim + k) with
        | Some x => [x]
        | None => []
        end) (seq 0 idim)) (seq 0 jdim)) (seq 0 kdim).

End Np.

(** ** Values and the calls made on the session object *)

Section Values.
Import Np.

(** The element type of the arrays handed in is NumPy's business. *)
Variable scalar : Type.

(** Values handed to [__getitem__] and [__setitem__]. *)
#[warnings="-register-all"]
Inductive pyvalue :=
| PyNone
| PyBool (b : bool)
| PyInt (z : Z)
| PyFloat (f : spec_float)
| PyStr (s : string)
| PyTuple (vs : list pyvalue)
| PyList (vs : list pyvalue)
| PyNdarray (a : ndarray scalar).

(** The calls on the session object that the store makes. *)
Inductive command :=
| Starstatus (par : string)
| Starset (par : string) (value : option pyvalue)
| Mwrite (parr : string) (label : string)
| Run (cmd : string)
| Dim (par : string) (imax jmax kmax : nat)
| Vread (cmd : string)
| Upload (fname : string).

(** A call made directly, or the calls stored inside one
    [with self._mapdl.non_interactive:] block, sent when it exits. *)
Inductive request :=
| Direct (c : command)
| NonInteractive (cs : list command).

End Values.

Arguments PyNone {scalar}.
Arguments PyBool {scalar} b.
Arguments PyInt {scalar} z.
Arguments PyFloat {scalar} f.
Arguments PyStr {scalar} s.
Arguments PyTuple {scalar} vs.
Arguments PyList {scalar} vs.
Arguments PyNdarray {scalar} a.
Arguments Starstatus {scalar} par.
Arguments Starset {scalar} par value.
Arguments Mwrite {scalar} parr label.
Arguments Run {scalar} cmd.
Arguments Dim {scalar} par imax jmax kmax.
Arguments Vread {scalar} cmd.
Arguments Upload {scalar} fname.
Arguments Direct {scalar} c.
Arguments NonInteractive {scalar} cs.

(** What the store takes from outside the two files at hand.  The MAPDL
    session is external: [Remote] is its state and [respond] what it does
    with one request, which may be to raise.  NumPy scalars and the library
    calls made on them, the path functions of [os] and [tempfile], and the
    name check of the session object are external too. *)
Class Externals := {
  Remote : Type;
  scalar : Type;
  respond : request scalar -> Remote -> Remote * result string;
  format_scalar : scalar -> string;
  as_double : scalar -> spec_float;
  np_array : pyvalue scalar -> result (Np.ndarray scalar);
  np_fromstring : string -> result (list spec_float);
  path_join : string -> string -> string;
  gettempdir : string;
  _check_parameter_name : pyvalue scalar -> option exception
}.

(** ** The parameter store *)

Section Store.
Import PyStr PyNum Listing Np.
Context `{E : Externals}.

(** The session object seen from the client. *)
Record Mapdl := {
  session : Remote;
  exchanges : list (request scalar * result string);
  last_response : string;
  log_level : string;
  mute : option bool;
  _local : bool;
  directory : string
}.

(** An instance of the class [_full_parameter_output]. *)
Record _full_parameter_output := {
  saved_leading : option bool;
  saved_trailing : option bool
}.

(** The store.  [scope_objects] holds the instances of
    [_full_parameter_output] whose parent is this store, by identity;
    [full_parameters_output] is the one made by [__init__].  A flag is
    [Some b] for a Python bool and [None] for Python's [None].
    [write_array_calls] is the log of the calls of [write_array], the
    writer of [ansys.mapdl.reader]: the file name and the flat array of
    doubles handed to it, in the order of the calls.  The text that the
    writer makes of the doubles is its own business and is not modelled. *)
Record Parameters := {
  _mapdl : Mapdl;
  show_leading_underscore_parameters : option bool;
  show_trailing_underscore_parameters : option bool;
  scope_objects : gmap nat _full_parameter_output;
  full_parameters_output : nat;
  write_array_calls : list (string * list spec_float)
}.

Definition new_scope : _full_parameter_output :=
  {| saved_leading := None; saved_trailing := None |}.

(** [Parameters.__init__] *)
Definition __init__ (mapdl : Mapdl) : Parameters :=
  {| _mapdl := mapdl;
     show_leading_underscore_parameters := Some false;
     show_trailing_underscore_parameters := Some false;
     scope_objects := {[ 0%nat := new_scope ]};
     full_parameters_output := 0%nat;
     write_array_calls := [] |}.

Definition flags (p : Parameters) : option bool * option bool :=
  (show_leading_underscore_parameters p,
   show_trailing_underscore_parameters p).

Definition set_mapdl (m : Mapdl) (p : Parameters) : Parameters :=
  {| _mapdl := m;
     show_leading_underscore_parameters :=
       show_leading_underscore_parameters p;
     show_trailing_underscore_parameters :=
       show_trailing_underscore_parameters p;
     scope_objects := scope_objects p;
     full_parameters_output := full_parameters_output p;
     write_array_calls := write_array_calls p |}.

Definition set_flags (l t : option bool) (p : Parameters) : Parameters :=
  {| _mapdl := _mapdl p;
     show_leading_underscore_parameters := l;
     show_trailing_underscore_parameters := t;
     scope_objects := scope_objects p;
     full_parameters_output := full_parameters_output p;
     write_array_calls := write_array_calls p |}.

Definition set_scope (c : nat) (o : _full_parameter_output)
  (p : Parameters) : Parameters :=
  {| _mapdl := _mapdl p;
     show_leading_underscore_parameters :=
       show_leading_underscore_parameters p;
     show_trailing_underscore_parameters :=
       show_trailing_underscore_parameters p;
     scope_objects := <[c := o]> (scope_objects p);
     full_parameters_output := full_parameters_output p;
     write_array_calls := write_array_calls p |}.

(** [write_array(filename, flat)]: the call is logged. *)
Definition write_array (f : string * list spec_float) (p : Parameters)
  : Parameters :=
  {| _mapdl := _mapdl p;
     show_leading_underscore_parameters :=
       show_leading_underscore_parameters p;
     show_trailing_underscore_parameters :=
       show_trailing_underscore_parameters p;
     scope_objects := scope_objects p;
     full_parameters_output := full_parameters_output p;
     write_array_calls := write_array_calls p ++ [f] |}.

Definition get_scope (c : nat) (p : Parameters) : _full_parameter_output :=
  default new_scope (scope_objects p !! c).

(** *** The monad of store operations: state and exceptions *)

Definition M (A : Type) : Type := Parameters -> Parameters * result A.

Definition ret {A} (a : A) : M A := fun p => (p, inr a).
Definition raise {A} (e : exception) : M A := fun p => (p, inl e).

Definition bind {A B} (m : M A) (k : A -> M B) : M B :=
  fun p =>
    match m p with
    | (p', inr a) => k a p'
    | (p', inl e) => (p', inl e)
    end.

Definition lift {A} (r : result A) : M A := fun p => (p, r).

Definition get {A} (f : Parameters -> A) : M A := fun p => (p, inr (f p)).
Definition modify (f : Parameters -> Parameters) : M unit :=
  fun p => (f p, inr tt).

(** [try: m  except ValueError: handler] *)
Definition try_except_ValueError {A} (m handler : M A) : M A :=
  fun p =>
    match m p with
    | (p', inl e) => if is_ValueError e then handler p' else (p', inl e)
    | r => r
    end.

(** [with cm: body], for a context manager whose [__exit__] returns
    [None]: [__exit__] runs on every exit of the body and an exception of
    the body is raised again after it. *)
Definition with_ {A} (enter exit : M unit) (body : M A) : M A :=
  fun p =>
    match enter p with
    | (p1, inl e) => (p1, inl e)
    | (p1, inr _) =>
        let '(p2, r) := body p1 in
        match exit p2 with
        | (p3, inl e) => (p3, inl e)
        | (p3, inr _) => (p3, r)
        end
    end.


Notation "x <- m ;; k" := (bind m (fun x => k))
  (at level 100, m at next level, right associativity).
Notation "m ;;; k" := (bind m (fun _ => k))
  (at level 100, right associativity).

(** *** Calls on the session object *)

Definition record_exchange (r : request scalar) (s' : Remote) (reply : result string)
  (m : Mapdl) : Mapdl :=
  {| session := s';
     exchanges := exchanges m ++ [(r, reply)];
     last_response := match reply with
                      | inr text => text
                      | inl _ => last_response m
                      end;
     log_level := log_level m;
     mute := mute m;
     _local := _local m;
     directory := directory m |}.

(** One request to the session: the reply is logged, a text reply becomes
    [last_response], an exception of the session is raised in the caller. *)
Definition send (r : request scalar) : M string :=
  fun p =>
    let '(s', reply) := respond r (session (_mapdl p)) in
    (set_mapdl (record_exchange r s' reply (_mapdl p)) p, reply).

Definition with_log_level (level : string) (m : Mapdl) : Mapdl :=
  {| session := session m;
     exchanges := exchanges m;
     last_response := last_response m;
     log_level := level;
     mute := mute m;
     _local := _local m;
     directory := directory m |}.

Definition with_mute (b : option bool) (m : Mapdl) : Mapdl :=
  {| session := session m;
     exchanges := exchanges m;
     last_response := last_response m;
     log_level := log_level m;
     mute := b;
     _local := _local m;
     directory := directory m |}.

(** Modelled from the spec: [set_log_level] of the session object, which is
    defined outside the two files at hand; the spec lists [setLogLevel(level)]
    next to [currentLogLevel] as the pair the logging wrapper consumes, so it
    is the setter of the level that [_log.level] reads. *)
Definition _set_log_level (level : string) : M unit :=
  modify (fun p => set_mapdl (with_log_level level (_mapdl p)) p).

Definition current_log_level (p : Parameters) : string := log_level (_mapdl p).

Definition set_mute (b : option bool) : M unit :=
  modify (fun p => set_mapdl (with_mute b (_mapdl p)) p).

(** *** [supress_logging] (misc.py) *)

Definition supress_logging {A} (func : M A) : M A :=
  prior_log_level <- get current_log_level ;;
  (if negb (String.eqb prior_log_level "CRITICAL")
   then _set_log_level "CRITICAL" else ret tt) ;;;
  out <- func ;;
  (if negb (String.eqb prior_log_level "CRITICAL")
   then _set_log_level prior_log_level else ret tt) ;;;
  ret out.

(** *** [_full_parameter_output]: the full-visibility scope *)

Definition __enter__ (c : nat) : M unit :=
  fun p =>
    let o := {| saved_leading := show_leading_underscore_parameters p;
                saved_trailing := show_trailing_underscore_parameters p |} in
    (set_flags (Some true) (Some true) (set_scope c o p), inr tt).

Definition __exit__ (c : nat) : M unit :=
  fun p =>
    let o := get_scope c p in
    (set_flags (saved_leading o) (saved_trailing o) p, inr tt).

(** [with scope_object: body] *)
Definition with_scope {A} (c : nat) (body : M A) : M A :=
  with_ (__enter__ c) (__exit__ c) body.

(** *** [_parm]: the current listing *)

Definition truthy (flag : option bool) : bool :=
  match flag with Some true => true | _ => false end.

Definition starstatus (par : string) : M string := send (Direct (Starstatus par)).

Definition _parm : M (gmap string param_info) :=
  supress_logging (
    text <- starstatus "" ;;
    params <- lift (interp_star_status text) ;;
    leading <- get show_leading_underscore_parameters ;;
    params <- (if truthy leading
               then text' <- starstatus "_PRM" ;;
                    _params <- lift (interp_star_status text') ;;
                    ret (_params ∪ params)
               else ret params) ;;
    trailing <- get show_trailing_underscore_parameters ;;
    params <- (if truthy trailing
               then text' <- starstatus "PRM_" ;;
                    params_ <- lift (interp_star_status text') ;;
                    ret (params_ ∪ params)
               else ret params) ;;
    ret params).

(** *** [_get_parameter_array]: reading an array back *)

Definition format_numbers : list nat := [20; 30; 40; 64; 100]%nat.

(** [f"(1F{each_format_number}.12)"] *)
Definition format_str (each_format_number : nat) : string :=
  "(1F" +:+ pretty each_format_number +:+ ".12)".

(** [st = last_response.rfind(format_str) + len(format_str) + 1] *)
Definition start_after (response fmt : string) : Z :=
  rfind response fmt + len fmt + 1.

(** [last_response[st:]] *)
Definition after_tag (response fmt : string) : string :=
  slice_from response (start_after response fmt).

(** ["**" in last_response[st:]] *)
Definition overflows (response fmt : string) : bool :=
  contains "**" (after_tag response fmt).

Definition mwrite_request (parm_name : string) (n : nat) : request scalar :=
  NonInteractive [Mwrite (upper parm_name) "kji"; Run (format_str n)].

(** The [for each_format_number in [...]] loop with its [break]: the
    accepted number and [st], or [None] when the loop ran to its end. *)
Fixpoint try_formats (parm_name : string) (numbers : list nat)
  : M (option (nat * Z)) :=
  match numbers with
  | [] => ret None
  | n :: rest =>
      _ <- send (mwrite_request parm_name n) ;;
      response <- get (fun p => last_response (_mapdl p)) ;;
      let st := start_after response (format_str n) in
      if negb (contains "**" (slice_from response st))
      then ret (Some (n, st))
      else try_formats parm_name rest
  end.

(** [np.fromstring(text, sep="\n").reshape(shape)], then the squeeze of a
    trailing axis of length one. *)
Definition parse_array (text : string) (shape : list Z)
  : result (ndarray spec_float) :=
  match np_fromstring text with
  | inl e => inl e
  | inr flat =>
      match reshape (NdArray dt_float [length flat] flat) shape with
      | inl e => inl e
      | inr arr_flat =>
          if (length shape =? 3)%nat && (nth 2 shape 0 =? 1)
          then squeeze2 arr_flat
          else inr arr_flat
      end
  end.

Definition get_parameter_array_body (parm_name : string) (shape : list Z)
  : M (ndarray spec_float) :=
  escaped <- try_formats parm_name format_numbers ;;
  match escaped with
  | None => raise RuntimeError
  | Some (_, st) =>
      response <- get (fun p => last_response (_mapdl p)) ;;
      lift (parse_array (slice_from response st) shape)
  end.

Definition _get_parameter_array (parm_name : string) (shape : list Z)
  : M (ndarray spec_float) :=
  supress_logging (get_parameter_array_body parm_name shape).

(** *** [__getitem__] *)

Inductive fetched :=
| FetchedArray (a : ndarray spec_float)
| FetchedValue (v : scalar_value).

(** [parm["shape"]] *)
Definition parm_shape (parm : param_info) : result (list Z) :=
  match parm with
  | InfoShape _ (i, j, k) => inr [i; j; k]
  | InfoValue _ _ => inl KeyError
  end.

(** [parm["value"]] *)
Definition parm_value (parm : param_info) : result scalar_value :=
  match parm with
  | InfoValue _ v => inr v
  | InfoShape _ _ => inl KeyError
  end.

(** [self._get_parameter_array(key, parm["shape"])] *)
Definition fetch_array (key : string) (parm : param_info) : M fetched :=
  shape <- lift (parm_shape parm) ;;
  a <- _get_parameter_array key shape ;;
  ret (FetchedArray a).

Definition is_array_or_table (parm : param_info) : bool :=
  String.eqb (info_type parm) "ARRAY" || String.eqb (info_type parm) "TABLE".

(** The part of [__getitem__] after the listing. *)
Definition getitem_lookup (key : string)
  (parameters : gmap string param_info) : M fetched :=
  match parameters !! key with
  | None => raise IndexError
  | Some parm =>
      if is_array_or_table parm
      then try_except_ValueError (fetch_array key parm) (fetch_array key parm)
      else v <- lift (parm_value parm) ;; ret (FetchedValue v)
  end.

Definition __getitem__ (key : pyvalue scalar) : M fetched :=
  match key with
  | PyStr key =>
      let key := upper key in
      c <- get full_parameters_output ;;
      parameters <- with_scope c _parm ;;
      getitem_lookup key parameters
  | _ => raise TypeError
  end.

(** *** [__setitem__] and the two ways of writing an array *)

Definition has_attr (b : option bool) : bool :=
  match b with Some _ => true | None => false end.

(** The assignments of the three nested loops, in the order issued;
    [None] when an index falls outside the items, which does not happen on
    an array that has as many items as its shape asks for. *)
Definition chain_commands (name : string) (its : list scalar)
  (idim jdim kdim : nat) : option (list (command scalar)) :=
  mapM (fun '(i, j, k) =>
          match nth_error its ((i * jdim + j) * kdim + k) with
          | Some x =>
              let index := pretty (i + 1)%nat +:+ "," +:+ pretty (j + 1)%nat
                           +:+ "," +:+ pretty (k + 1)%nat in
              Some (Run (name +:+ "(" +:+ index +:+ ")=" +:+ format_scalar x))
          | None => None
          end)
       (i ← seq 0 idim; j ← seq 0 jdim; k ← seq 0 kdim; [(i, j, k)]).

Definition _set_array_chain (name : string) (arr : ndarray scalar)
  (idim jdim kdim : nat) : M unit :=
  old_mute <- get (fun p => mute (_mapdl p)) ;;
  (if has_attr old_mute then set_mute (Some true) else ret tt) ;;;
  cmds <- match chain_commands name (items arr) idim jdim kdim with
          | Some cs => ret cs
          | None => raise IndexError
          end ;;
  _ <- send (NonInteractive (Dim name idim jdim kdim :: cmds)) ;;
  (if has_attr old_mute then set_mute old_mute else ret tt).

Definition dims3 (shape : list nat) : nat * nat * nat :=
  (nth 0 shape 1, nth 1 shape 1, nth 2 shape 1)%nat.

(** The array is converted to doubles and [write_array] is called with the
    path and [arr.ravel("F")]; a session that does not share the client's
    disk is then sent the upload of that path. *)
Definition _write_numpy_array (filename : string) (arr : ndarray scalar)
  : M unit :=
  local <- get (fun p => _local (_mapdl p)) ;;
  dir <- get (fun p => directory (_mapdl p)) ;;
  let filename :=
    if local then path_join dir filename else path_join gettempdir filename in
  let '(i, j, k) := dims3 (shape arr) in
  modify (write_array (filename, ravel_F i j k (map as_double (items arr)))) ;;;
  if negb local
  then _ <- send (Direct (Upload filename)) ;; ret tt
  else ret tt.

Definition vread_cmd (name filename : string) (idim jdim kdim : nat) : string :=
  name +:+ "(1, 1)," +:+ filename +:+ ",,,IJK," +:+ pretty idim +:+ ","
       +:+ pretty jdim +:+ "," +:+ pretty kdim.

Definition set_parameter_array_body (name arr : pyvalue scalar) : M unit :=
  arr <- lift (np_array arr) ;;
  if negb (issubdtype_number (dtype arr)) then raise TypeError
  else if (3 <? ndim arr)%nat then raise ValueError
  else
    match name with
    | PyStr name =>
        let name := upper name in
        match shape arr with
        | [] => raise IndexError
        | idim :: _ =>
            let jdim := if (2 <=? ndim arr)%nat then nth 1 (shape arr) 1%nat
                        else 1%nat in
            let kdim := if (ndim arr =? 3)%nat then nth 2 (shape arr) 1%nat
                        else 1%nat in
            if (arr_size arr <? 1000)%nat
            then _set_array_chain name arr idim jdim kdim
            else
              let filename := "_tmp.dat" in
              _write_numpy_array filename arr ;;;
              let cmd := vread_cmd name filename idim jdim kdim in
              _ <- send (NonInteractive
                           [Dim name idim jdim kdim; Vread cmd;
                            Run "(1F20.12)"]) ;;
              ret tt
        end
    | _ => raise TypeError
    end.

Definition _set_parameter_array (name arr : pyvalue scalar) : M unit :=
  supress_logging (set_parameter_array_body name arr).

Definition set_parameter_body (name value : pyvalue scalar) : M unit :=
  match value with
  | PyStr _ | PyInt _ | PyFloat _ | PyBool _ =>
      match name with
      | PyStr name =>
          if 32 <? len name then raise ValueError
          else
            parm <- _parm ;;
            (match parm !! name with
             | Some info =>
                 if String.eqb (info_type info) "ARRAY"
                 then _ <- send (Direct (Starset name None)) ;; ret tt
                 else ret tt
             | None => ret tt
             end) ;;;
            match value with
            | PyStr v =>
                if contains " " v then raise ValueError
                else _ <- send (Direct (Starset name
                                          (Some (PyStr ("'" +:+ v +:+ "'"))))) ;;
                     ret tt
            | _ => _ <- send (Direct (Starset name (Some value))) ;; ret tt
            end
      | _ => raise TypeError
      end
  | _ => raise TypeError
  end.

Definition _set_parameter (name value : pyvalue scalar) : M unit :=
  supress_logging (set_parameter_body name value).

Definition __setitem__ (key value : pyvalue scalar) : M unit :=
  match _check_parameter_name key with
  | Some e => raise e
  | None =>
      match value with
      | PyNdarray _ | PyList _ => _set_parameter_array key value
      | _ => _set_parameter key value
      end
  end.

(** The requests sent so far, oldest first. *)
Definition requests (p : Parameters) : list (request scalar) :=
  map fst (exchanges (_mapdl p)).


(** Scopes entered one inside the other, outermost first. *)
Definition nested_scopes {A} (cs : list nat) (body : M A) : M A :=
  fold_right with_scope body cs.

(** The store with the log level of its session set to [CRITICAL]. *)
Definition silenced (p : Parameters) : Parameters :=
  set_mapdl (with_log_level "CRITICAL" (_mapdl p)) p.

(** A computation that leaves the two flags and the scope objects alone. *)
Definition keeps_scope {A} (m : M A) : Prop :=
  forall p, flags (m p).1 = flags p
            /\ scope_objects (m p).1 = scope_objects p.

(** What was exchanged with the session between [p] and a later [p']. *)
Definition exchanges_since (p p' : Parameters)
  : list (request scalar * result string) :=
  skipn (length (exchanges (_mapdl p))) (exchanges (_mapdl p')).

(** One dump request of a fetch with the reply it got. *)
Definition probe (parm_name : string) (x : nat * result string)
  : request scalar * result string :=
  (mwrite_request parm_name x.1, x.2).

(** The reply to the dump at width [x.1] is a text that shows the marker
    after the format tag. *)
Definition overflowed (x : nat * result string) : Prop :=
  exists text, x.2 = inr text /\ overflows text (format_str x.1) = true.

(** The store as [supress_logging] hands it to the wrapped function. *)
Definition quieted (p : Parameters) : Parameters :=
  if String.eqb (current_log_level p) "CRITICAL" then p else silenced p.

(** The first request of a fetch of [key]: the dump at width 20. *)
Definition is_first_probe (key : string) (r : request scalar) : bool :=
  match r with
  | NonInteractive [Mwrite n l; Run f] =>
      String.eqb n (upper key) && String.eqb l "kji"
      && String.eqb f (format_str 20)
  | _ => false
  end.

(** How many fetches of [key] were started in a run of exchanges. *)
Definition fetch_attempts (key : string)
  (xs : list (request scalar * result string)) : nat :=
  length (filter (fun x => is_first_probe key x.1 = true) xs).

(** Nothing was sent to the session and the file writer was not called
    between [p] and [p']. *)
Definition no_traffic (p p' : Parameters) : Prop :=
  exchanges (_mapdl p') = exchanges (_mapdl p)
  /\ write_array_calls p' = write_array_calls p.

(** The four ways in which the arguments of an array write can be wrong. *)
Definition non_numeric_buffer (arr : pyvalue scalar) : Prop :=
  exists a, np_array arr = inr a /\ issubdtype_number (dtype a) = false.

Definition rank_above_3 (arr : pyvalue scalar) : Prop :=
  exists a, np_array arr = inr a /\ (3 < ndim a)%nat.

Definition non_string (name : pyvalue scalar) : Prop :=
  forall s, name <> PyStr s.

Definition longer_than_32 (name : pyvalue scalar) : Prop :=
  exists s, name = PyStr s /\ 32 < len s.

(** [isinstance(value, (np.ndarray, list))] *)
Definition array_like (value : pyvalue scalar) : Prop :=
  match value with PyNdarray _ | PyList _ => True | _ => False end.

(** [isinstance(value, (str, int, float))] *)
Definition scalar_like (value : pyvalue scalar) : Prop :=
  match value with
  | PyStr _ | PyInt _ | PyFloat _ | PyBool _ => True
  | _ => False
  end.

(** A computation all of whose requests satisfy [P]. *)
Definition sends_only (P : request scalar -> Prop) {A} (m : M A) : Prop :=
  forall p, exists d,
    exchanges (_mapdl (m p).1) = exchanges (_mapdl p) ++ d
    /\ Forall (fun x => P x.1) d.

(** The requests of an array write: the upload of the scratch file and the
    blocks that open with the declaration of the dimensions. *)
Definition array_write_request (r : request scalar) : Prop :=
  match r with
  | Direct (Upload _) => True
  | NonInteractive (Dim _ _ _ _ :: _) => True
  | _ => False
  end.

(** Modelled from the spec: what the name check [_check_parameter_name] of
    the session object (defined outside the two files at hand) does with a
    name that is too long: names longer than 32 characters are rejected by
    [set] without any remote call being attempted. *)
Definition rejects_long_names : Prop :=
  forall s : string, 32 < len s -> _check_parameter_name (PyStr s) <> None.

(** A computation that leaves the log level at [CRITICAL] when it starts
    there, as the body of a [supress_logging] call does. *)
Definition stays_critical {A} (m : M A) : Prop :=
  forall p, current_log_level p = "CRITICAL" ->
            current_log_level (m p).1 = "CRITICAL".

(** The listing requests that [_parm] makes under given flags. *)
Definition listing_requests (leading trailing : option bool)
  : list (request scalar) :=
  Direct (Starstatus "")
  :: (if truthy leading then [Direct (Starstatus "_PRM")] else [])
  ++ (if truthy trailing then [Direct (Starstatus "PRM_")] else []).

(** [f"{i + 1},{j + 1},{k + 1}"] and the assignment it goes into. *)
Definition assignment (name : string) (i j k : nat) (x : scalar)
  : command scalar :=
  Run (name +:+ "(" +:+ (pretty (i + 1)%nat +:+ "," +:+ pretty (j + 1)%nat
                         +:+ "," +:+ pretty (k + 1)%nat)
       +:+ ")=" +:+ format_scalar x).

(** How a decorated call leaves the log level: at the prior level when it
    returns, at [CRITICAL] when it raises. *)
Definition restores_level_on_return {A} (m : M A) : Prop :=
  forall p, current_log_level (m p).1
            = match (m p).2 with
              | inr _ => current_log_level p
              | inl _ => "CRITICAL"
              end.

(** [params.update(d)] for each dict of a list, in order. *)
Definition merged (dicts : list (gmap string param_info))
  : gmap string param_info :=
  foldl (fun params d => d ∪ params) ∅ dicts.

(** [name in parm and parm[name]["type"] == "ARRAY"] *)
Definition listed_as_array (parm : gmap string param_info) (name : string)
  : bool :=
  match parm !! name with
  | Some info => String.eqb (info_type info) "ARRAY"
  | None => false
  end.

(** The value that a scalar write hands to [starset]: a string goes
    between single quotes. *)
Definition assigned (value : pyvalue scalar) : pyvalue scalar :=
  match value with
  | PyStr v => PyStr ("'" +:+ v +:+ "'")
  | _ => value
  end.

(** [isinstance(value, str) and " " in value] *)
Definition has_space (value : pyvalue scalar) : bool :=
  match value with
  | PyStr v => contains " " v
  | _ => false
  end.

(** The requests of a scalar write after its listing. *)
Definition scalar_write_requests (parm : gmap string param_info)
  (name : string) (value : pyvalue scalar) : list (request scalar) :=
  (if listed_as_array parm name then [Direct (Starset name None)] else [])
  ++ [Direct (Starset name (Some (assigned value)))].

(** *** The escalation of the widths, in the words of the specification

    These definitions are written from the description of the format
    negotiation and not from the code; the store's own [mwrite_request],
    [format_str], [after_tag], [overflows] and [parse_array] are compared
    with them. *)

(** The format tag of a field width: [(1F<n>.12)]. *)
Definition width_tag (n : nat) : string := "(1F" +:+ pretty n +:+ ".12)".

(** The request of the dump at a width: one block, the dump of the
    upper-cased name with the label [kji], then the format tag. *)
Definition dump_request (parm_name : string) (n : nat) : request scalar :=
  NonInteractive [Mwrite (upper parm_name) "kji"; Run (width_tag n)].

(** The text of a response that follows the last occurrence of the tag of
    a width, from one character after the end of the tag on. *)
Definition post_tag (response : string) (n : nat) : string :=
  slice_from response
    (rfind response (width_tag n) + len (width_tag n) + 1).

(** The overflow marker shows in the text after the tag. *)
Definition marker_after_tag (response : string) (n : nat) : bool :=
  contains "**" (post_tag response n).

(** The reply to the dump at width [x.1] is a text, and the marker shows
    in it after the tag. *)
Definition still_marked (x : nat * result string) : Prop :=
  exists text, x.2 = inr text /\ marker_after_tag text x.1 = true.

(** What is made of the accepted text: the numbers that NumPy reads in it,
    reshaped to the listed shape, without the last axis when the shape has
    three dimensions and the third is 1. *)
Definition parsed_as (text : string) (shape : list Z)
  : result (ndarray spec_float) :=
  match np_fromstring text with
  | inl e => inl e
  | inr flat =>
      match reshape (NdArray dt_float [length flat] flat) shape with
      | inl e => inl e
      | inr a =>
          match shape with
          | [_; _; 1] => squeeze2 a
          | _ => inr a
          end
      end
  end.

End Store.

(** ** A scripted session, for running the store on concrete inputs *)

Module Scripted.
Import PyStr PyNum Listing Np.

Definition nl : string := String "010"%char "".

(** The session answers the requests with the replies of a script, in
    order, and with the empty text once the script is used up. *)
Definition reply_next (r : request Z) (script : list (result string))
  : list (result string) * result string :=
  match script with
  | reply :: rest => (rest, reply)
  | [] => ([], inr "")
  end.

Definition to_double (z : Z) : spec_float := binary_normalize prec emax z 0 false.

(** The sample session's arrays hold ints.  [array_of] is [np.array] on
    what has such an array: an array, an int, a bool, a string, [None], and
    lists or tuples of them, nested to any depth.  [nest] gives the shape
    and the leaves of a nested sequence, [None] when the sequence is
    ragged. *)
Definition same_shape (sh : list nat)
  (r : option (list nat * list (pyvalue Z))) : bool :=
  match r with
  | Some (sh', _) => bool_decide (sh = sh')
  | None => false
  end.

Definition leaves_of (r : option (list nat * list (pyvalue Z)))
  : list (pyvalue Z) :=
  match r with
  | Some (_, xs) => xs
  | None => []
  end.

Definition stack (rs : list (option (list nat * list (pyvalue Z))))
  : option (list nat * list (pyvalue Z)) :=
  match rs with
  | [] => Some ([0%nat], [])
  | None :: _ => None
  | Some (sh, _) :: rest =>
      if forallb (same_shape sh) rest
      then Some (length rs :: sh, concat (map leaves_of rs))
      else None
  end.

Fixpoint nest (v : pyvalue Z) : option (list nat * list (pyvalue Z)) :=
  match v with
  | PyList vs | PyTuple vs => stack (map nest vs)
  | _ => Some ([], [v])
  end.

(** The dtype that NumPy finds for the leaves: bool, int and string
    promote in that order, [None] makes an object array, and no leaf at
    all gives the default float.  A float or an array among the leaves is
    outside this sample. *)
Definition leaf_dtype (v : pyvalue Z) : option np_dtype :=
  match v with
  | PyBool _ => Some dt_bool
  | PyInt _ => Some dt_int
  | PyStr _ => Some dt_str
  | PyNone => Some dt_object
  | _ => None
  end.

Definition promote (a b : np_dtype) : np_dtype :=
  match a, b with
  | dt_object, _ | _, dt_object => dt_object
  | dt_str, _ | _, dt_str => dt_str
  | dt_int, _ | _, dt_int => dt_int
  | _, _ => a
  end.

Fixpoint leaves_dtype (vs : list (pyvalue Z)) : option np_dtype :=
  match vs with
  | [] => Some dt_float
  | [v] => leaf_dtype v
  | v :: rest =>
      match leaf_dtype v, leaves_dtype rest with
      | Some a, Some b => Some (promote a b)
      | _, _ => None
      end
  end.

(** The item of a leaf: the int itself, 1 for [True], 0 for anything
    else.  The items of an array that is not numeric are never looked
    at. *)
Definition leaf_item (v : pyvalue Z) : Z :=
  match v with
  | PyInt z => z
  | PyBool true => 1
  | _ => 0
  end.

(** [np.array(v)].  A ragged sequence gives a one-dimensional object
    array, as NumPy does before its version 1.24.  A value with a float or
    an array inside a sequence has no array of ints: the sample answers
    [NotImplementedError] there, which is not NumPy's answer. *)
Definition array_of (v : pyvalue Z) : result (ndarray Z) :=
  match v with
  | PyNdarray a => inr a
  | _ =>
      match nest v with
      | None =>
          match v with
          | PyList vs | PyTuple vs =>
              inr (NdArray dt_object [length vs] (repeat 0 (length vs)))
          | _ => inl TypeError
          end
      | Some (sh, leaves) =>
          match leaves_dtype leaves with
          | Some d => inr (NdArray d sh (map leaf_item leaves))
          | None => inl (OtherError "NotImplementedError")
          end
      end
  end.

Fixpoint floats (toks : list string) : result (list spec_float) :=
  match toks with
  | [] => inr []
  | t :: rest =>
      match py_float t, floats rest with
      | Some f, inr fs => inr (f :: fs)
      | _, _ => inl ValueError
      end
  end.

Definition floats_of (text : string) : result (list spec_float) :=
  floats (split text).

Definition check_name (key : pyvalue Z) : option exception :=
  match key with
  | PyStr s => if 32 <? len s then Some ValueError else None
  | _ => Some (OtherError "AttributeError")
  end.

#[local] Instance externals : Externals := {|
  Remote := list (result string);
  scalar := Z;
  respond := reply_next;
  format_scalar := pretty;
  as_double := to_double;
  np_array := array_of;
  np_fromstring := floats_of;
  path_join := fun d f => d +:+ "/" +:+ f;
  gettempdir := "/tmp";
  _check_parameter_name := check_name
|}.

Definition mapdl (script : list (result string)) (level : string) : Mapdl :=
  {| session := script;
     exchanges := [];
     last_response := "";
     log_level := level;
     mute := Some false;
     _local := true;
     directory := "/work" |}.

(** A fresh store on a session that follows [script]. *)
Definition store (script : list (result string)) : Parameters :=
  __init__ (mapdl script "ERROR").

Definition header_line : string :=
  " NAME                              VALUE                        TYPE  DIMENSIONS"
  +:+ nl.

Definition listing (rows : list string) : string :=
  " PARAMETER STATUS-           (      3 PARAMETERS DEFINED)" +:+ nl
  +:+ header_line +:+ fold_right (fun r acc => r +:+ nl +:+ acc) "" rows.

(** The binary64 value 20.0: [5 * 2^50 * 2^-48]. *)
Definition float_20 : spec_float := S754_finite false 5629499534213120 (-48).

Definition sample_rows : list string :=
  ["PARM_FLOAT 20.0 SCALAR"; "PARM_STR stringCHARACTER"; "ARR ARRAY 3 1 1"].

(** [{PARM_FLOAT: scalar 20.0, PARM_STR: character "string",
     ARR: array of shape (3, 1, 1)}] *)
Definition sample_parameters : gmap string param_info :=
  {[ "PARM_FLOAT" := InfoValue "SCALAR" (VFloat float_20);
     "PARM_STR" := InfoValue "CHARACTER" (VStr "string");
     "ARR" := InfoShape "ARRAY" (3, 1, 1) ]}.

(** A listing with a scalar row whose value is not a number. *)
Definition bad_scalar_listing : string := listing ["X abc SCALAR"].

(** A listing with noise rows of one, four and six tokens. *)
Definition noisy_listing : string :=
  listing ["----"; "A 1.0 SCALAR"; "one two three four";
           "a b c d e f"; "B ARRAY 2 2 1"].

(** A store whose session lists one scalar, at every listing request. *)
Definition listed_store : Parameters :=
  store (repeat (inr (listing ["X 5.0 SCALAR"])) 3).

(** Replies to the dumps of a three-element array whose values overflow
    the widths 20 and 30; the prose before the tag of the third reply
    holds stars of its own. *)
Definition reply_20 : string :=
  " *MWRITE ARR" +:+ nl +:+ "(1F20.12)" +:+ nl
  +:+ "********************" +:+ nl +:+ "********************" +:+ nl
  +:+ "      2.500000000000" +:+ nl.

Definition reply_30 : string :=
  " *MWRITE ARR" +:+ nl +:+ "(1F30.12)" +:+ nl
  +:+ "******************************" +:+ nl
  +:+ "******************************" +:+ nl
  +:+ "                2.500000000000" +:+ nl.

Definition reply_40 : string :=
  " *** NOTE *** dump of ARR" +:+ nl +:+ "(1F40.12)" +:+ nl
  +:+ "    100000000000000000000000.000000000000" +:+ nl
  +:+ "   -100000000000000000000000.000000000000" +:+ nl
  +:+ "                          2.500000000000" +:+ nl.

Definition escalating_store : Parameters :=
  store [inr reply_20; inr reply_30; inr reply_40].

(** A store whose session lists [ARR] as an array of shape (3, 1, 1) and
    answers the first dump with text that is not all numbers. *)
Definition array_listing : string := listing [" ARR ARRAY 3 1 1"].

Definition garbled_reply : string :=
  "(1F20.12)" +:+ nl +:+ "      1.000000000000" +:+ nl +:+ "  <interrupted>"
  +:+ nl.

Definition clean_reply : string :=
  "(1F20.12)" +:+ nl +:+ "      1.000000000000" +:+ nl
  +:+ "      2.000000000000" +:+ nl +:+ "      3.000000000000" +:+ nl.

Definition retry_store : Parameters :=
  store [inr array_listing; inr array_listing; inr array_listing;
         inr garbled_reply; inr clean_reply].

Definition array_info : param_info := InfoShape "ARRAY" (3, 1, 1).

Definition array_parameters : gmap string param_info :=
  {[ "ARR" := array_info ]}.

(** The store of [retry_store] after the listing of a lookup. *)
Definition retry_listed : Parameters :=
  (with_scope (full_parameters_output retry_store) _parm retry_store).1.

(** A name of 33 characters. *)
Definition long_name : string := "AAAAAAAAAAAAAAAAAAAAAAAAAAAAAAAAA".

Definition two_ints : pyvalue Z := PyList [PyInt 1; PyInt 2].

(** A store whose session lists [ARR] as an array at every request. *)
Definition array_store : Parameters := store (repeat (inr array_listing) 6).

End Scripted.

(** ** The entries of a listing, line by line *)

Module Entries.
Import PyStr PyNum Listing.

(** What a line adds to the dict: nothing, or an entry under its first
    token.  A line that raises adds nothing. *)
Definition line_entry (line : string) : option (string * param_info) :=
  match split line with
  | [name; v] =>
      if String.eqb (slice_from v (-9)) "CHARACTER"
      then Some (name, InfoValue "CHARACTER" (VStr (slice_to v (-9))))
      else None
  | [name; v; t] =>
      if String.eqb t "SCALAR"
      then match py_float v with
           | Some f => Some (name, InfoValue t (VFloat f))
           | None => None
           end
      else Some (name, InfoValue t (VStr v))
  | [name; t; a; b; c] =>
      match py_int a, py_int b, py_int c with
      | Some i, Some j, Some k => Some (name, InfoShape t (i, j, k))
      | _, _, _ => None
      end
  | _ => None
  end.

(** The name a line is listed under, when it adds an entry. *)
Definition line_name (line : string) : option string :=
  option_map fst (line_entry line).

(** The dict after a line that does not raise. *)
Definition add_entry (parameters : gmap string param_info) (line : string)
  : gmap string param_info :=
  match line_entry line with
  | Some (name, info) => <[name := info]> parameters
  | None => parameters
  end.

End Entries.

(** ** [__repr__]: the body of the loop over the items of the listing *)

Section Repr.
Import PyStr PyNum Listing.

(** [str(x)] of a float is Python's business. *)
Variable str_float : spec_float -> string.

(** The double quote. *)
Definition dquote : string := String "034"%char "".

(** [str(shape)] of a tuple of three ints. *)
Definition str_shape (shape : Z * Z * Z) : string :=
  let '(i, j, k) := shape in
  "(" +:+ pretty i +:+ ", " +:+ pretty j +:+ ", " +:+ pretty k +:+ ")".

(** ["%-32s" % key]: the key, padded with spaces on the right to 32
    characters, never cut. *)
Definition ljust32 (key : string) : string :=
  key +:+ of_chars (repeat " "%char (32 - String.length key)).

(** What one item of the dict does in the loop: raise, go on with no line
    ([continue]), or add a line. *)
Definition repr_item (item : string * param_info) : result (option string) :=
  let '(key, info) := item in
  let line value_str := inr (Some (ljust32 key +:+ " : " +:+ value_str)) in
  if String.eqb (info_type info) "ARRAY"
  then match info with
       | InfoShape _ shape => line ("ARRAY DIM " +:+ str_shape shape)
       | InfoValue _ _ => inl KeyError
       end
  else if String.eqb (info_type info) "TABLE"
  then match info with
       | InfoShape _ shape => line ("TABLE DIM " +:+ str_shape shape)
       | InfoValue _ _ => inl KeyError
       end
  else if String.eqb (info_type info) "CHARACTER"
  then match info with
       | InfoValue _ (VStr v) => line (dquote +:+ v +:+ dquote)
       | InfoValue _ (VFloat f) => line (dquote +:+ str_float f +:+ dquote)
       | InfoShape _ _ => inl KeyError
       end
  else match info with
       | InfoValue _ (VStr v) => line v
       | InfoValue _ (VFloat f) => line (str_float f)
       | InfoShape _ _ => inr None
       end.

(** The lines that the loop appends, for the items in the order the dict
    yields them. *)
Fixpoint repr_items (items : list (string * param_info))
  : result (list string) :=
  match items with
  | [] => inr []
  | item :: rest =>
      match repr_item item with
      | inl e => inl e
      | inr line =>
          match repr_items rest with
          | inl e => inl e
          | inr lines =>
              inr (match line with Some l => l :: lines | None => lines end)
          end
      end
  end.

(** The lines of [__repr__], before they are joined with newlines. *)
Definition repr_lines (items : list (string * param_info))
  : result (list string) :=
  match repr_items items with
  | inl e => inl e
  | inr lines => inr ("MAPDL Parameters" :: "----------------" :: lines)
  end.

(** The items on which the loop raises: an [ARRAY] or [TABLE] entry with
    no shape, a [CHARACTER] entry with no value. *)
Definition repr_raises (item : string * param_info) : bool :=
  match item.2 with
  | InfoValue t _ => String.eqb t "ARRAY" || String.eqb t "TABLE"
  | InfoShape t _ => String.eqb t "CHARACTER"
  end.

(** The items that get a line. *)
Definition repr_shown (item : string * param_info) : bool :=
  match item.2 with
  | InfoValue _ _ => true
  | InfoShape t _ => String.eqb t "ARRAY" || String.eqb t "TABLE"
  end.

(** The text that the line of a shown item has after the colon: the type
    and the dimensions of an array or a table, as in [ARRAY DIM (3, 1, 1)];
    the value of a [CHARACTER] entry between double quotes; the value
    itself for any other type. *)
Definition value_text (info : param_info) : string :=
  match info with
  | InfoShape t (i, j, k) =>
      t +:+ " DIM (" +:+ pretty i +:+ ", " +:+ pretty j +:+ ", "
        +:+ pretty k +:+ ")"
  | InfoValue t v =>
      let text := match v with VStr w => w | VFloat f => str_float f end in
      if String.eqb t "CHARACTER"
      then String "034"%char (text +:+ String "034"%char "")
      else text
  end.

End Repr.

(** ** Helpers of misc.py *)

Module Misc.
Import PyStr PyNum.

Definition rbind {A B} (r : result A) (k : A -> result B) : result B :=
  match r with
  | inl e => inl e
  | inr a => k a
  end.

(** The number of elements of [range(start, stop, step)]. *)
Definition range_count (start stop step : Z) : Z :=
  if 0 <? step then Z.max 0 ((stop - start + step - 1) / step)
  else Z.max 0 ((start - stop - step - 1) / (- step)).

(** [range(start, stop, step)] as the list it runs through; a step of
    zero is a [ValueError]. *)
Definition py_range (start stop step : Z) : result (list Z) :=
  if step =? 0 then inl ValueError
  else inr (map (fun k => start + Z.of_nat k * step)
              (seq 0 (Z.to_nat (range_count start stop step)))).

(** A slice bound brought into [0 .. len]. *)
Definition clamp (len i : Z) : nat :=
  Z.to_nat (if i <? 0 then Z.max 0 (len + i) else Z.min i len).

(** [l[lo:hi]] *)
Definition py_slice {A} (l : list A) (lo hi : Z) : list A :=
  let n := Z.of_nat (length l) in
  firstn (clamp n hi - clamp n lo) (skipn (clamp n lo) l).

(** [chunks(l, n)]: what the generator yields, or the exception that its
    first step raises. *)
Definition chunks {A} (l : list A) (n : Z) : result (list (list A)) :=
  rbind (py_range 0 (Z.of_nat (length l)) n)
    (fun r => inr (map (fun i => py_slice l i (i + n)) r)).

(** [isinstance(port, int)], with the value: a bool is an int. *)
Definition int_of {scalar} (v : pyvalue scalar) : option Z :=
  match v with
  | PyInt z => Some z
  | PyBool b => Some (if b then 1 else 0)
  | _ => None
  end.

Definition check_valid_port {scalar} (port : pyvalue scalar)
  (lower_bound high_bound : Z) : result unit :=
  match int_of port with
  | None => inl ValueError
  | Some z =>
      if (lower_bound <? z) && (z <? high_bound) then inr tt
      else inl ValueError
  end.

(** [s.lower()], on ASCII text. *)
Definition lower (s : string) : string := lower_chars (chars s).

(** [s.isascii()] *)
Definition is_ascii (s : string) : bool :=
  forallb (fun c => (code c <? 128)%nat) (chars s).

Definition check_valid_start_instance {scalar} (start_instance : pyvalue scalar)
  : result bool :=
  match start_instance with
  | PyBool b => inr b
  | PyStr s =>
      if negb (String.eqb (lower s) "true" || String.eqb (lower s) "false")
      then inl ValueError
      else inr (String.eqb (lower s) "true")
  | _ => inl ValueError
  end.

Section LastCreated.

(** The creation time of a file is the file system's business, and so is
    the type of the times with its equality and order. *)
Variable time : Type.
Variable time_eqb time_ltb : time -> time -> bool.
Variable creation_time : string -> result time.

(** [[creation_time(filename) for filename in filenames]] *)
Fixpoint creation_times (filenames : list string) : result (list time) :=
  match filenames with
  | [] => inr []
  | f :: rest =>
      rbind (creation_time f) (fun t =>
      rbind (creation_times rest) (fun ts => inr (t :: ts)))
  end.

Fixpoint argmax_from (best : time) (best_i i : nat) (ts : list time) : nat :=
  match ts with
  | [] => best_i
  | t :: rest =>
      if time_ltb best t then argmax_from t i (S i) rest
      else argmax_from best best_i (S i) rest
  end.

(** [np.argmax(ts)]: the index of the first greatest element; the empty
    sequence is a [ValueError]. *)
Definition argmax (ts : list time) : result nat :=
  match ts with
  | [] => inl ValueError
  | t :: rest => inr (argmax_from t 0 1 rest)
  end.

(** [set(ts)], as a list without repeats. *)
Definition distinct (ts : list time) : list time :=
  fold_right (fun t acc => if existsb (time_eqb t) acc then acc else t :: acc)
    [] ts.

Definition last_created (filenames : list string) : result string :=
  rbind (creation_times filenames) (fun ctimes =>
  rbind (argmax ctimes) (fun idx =>
  if (0 <? length (distinct ctimes))%nat
  then match last filenames with
       | Some f => inr f
       | None => inl IndexError
       end
  else match nth_error filenames idx with
       | Some f => inr f
       | None => inl IndexError
       end)).

End LastCreated.

End Misc.

(** ** Sample inputs *)

Module Samples.
Import PyStr PyNum Listing Np Scripted.

(** A listing that shows [X] twice, first as a scalar and then as an
    array. *)
Definition relisted : string :=
  listing ["X 1.0 SCALAR"; "Y 2.0 SCALAR"; "X ARRAY 3 1 1"].

(** Items as [__repr__] can meet them: a scalar, a string, an array, and
    a row of an unknown type that has a shape and no value. *)
Definition shown_items : list (string * param_info) :=
  [("PARM_FLOAT", InfoValue "SCALAR" (VFloat float_20));
   ("PARM_STR", InfoValue "CHARACTER" (VStr "string"));
   ("ARR", InfoShape "ARRAY" (3, 1, 1));
   ("ODD", InfoShape "STRING" (1, 1, 1))].

(** [str] of the one float of [shown_items]. *)
Definition str_float_20 (f : spec_float) : string := "20.0".

(** Two files, the first of which is the newer one. *)
Definition sample_creation_time (filename : string) : result Z :=
  if String.eqb filename "new.rst" then inr 200 else inr 100.

(** A 2 x 3 array of ints. *)
Definition grid : ndarray Z := NdArray dt_int [2; 3]%nat [1; 2; 3; 4; 5; 6].

End Samples.

(** * Facts *)

(** ** The listing parser *)

Section ListingFacts.
Import PyStr PyNum Listing.

Implicit Types (line : string) (parameters : gmap string param_info).

Lemma interp_line_skips line parameters :
  length (split line) <> 2%nat -> length (split line) <> 3%nat ->
  length (split line) <> 5%nat ->
  interp_line parameters line = inr parameters.
Proof.
  unfold interp_line. intros H2 H3 H5.
  destruct (split line) as [|a [|b [|c [|d [|e [|f r]]]]]]; simpl in *;
    congruence.
Qed.

Lemma line_raises_counts line :
  line_raises line = true ->
  length (split line) = 3%nat \/ length (split line) = 5%nat.
Proof.
  unfold line_raises.
  destruct (split line) as [|a [|b [|c [|d [|e [|f r]]]]]]; simpl;
    intros; auto; discriminate.
Qed.

Lemma interp_line_raises line parameters e :
  interp_line parameters line = inl e <->
  e = ValueError /\ line_raises line = true.
Proof.
  unfold interp_line, line_raises, rejected.
  destruct (split line) as [|a [|b [|c [|d [|e' [|f r]]]]]]; simpl;
    repeat case_match; simpl;
    (split; [intros Hl; try discriminate; inversion Hl; auto
            | intros [-> Hl]; try discriminate; auto]).
Qed.

Lemma interp_line_total line parameters :
  line_raises line = false ->
  exists parameters', interp_line parameters line = inr parameters'.
Proof.
  intros Hno. destruct (interp_line parameters line) as [e|m] eqn:Heq; eauto.
  apply interp_line_raises in Heq as [_ ?]. congruence.
Qed.

Lemma interp_lines_raises lines parameters e :
  interp_lines lines parameters = inl e <->
  e = ValueError /\ Exists (fun l => line_raises l = true) lines.
Proof.
  revert parameters. induction lines as [|l ls IH]; intros parameters; simpl.
  - split; [discriminate | intros [_ H]; inversion H].
  - destruct (interp_line parameters l) as [e'|m] eqn:Hl.
    + apply interp_line_raises in Hl as [-> Hr]. split.
      * intros [= <-]. split; [reflexivity | by left].
      * by intros [-> _].
    + rewrite IH. split; intros [-> H]; split; try reflexivity.
      * by right.
      * inversion H as [? ? Hr | ]; subst; [| assumption].
        assert (interp_line parameters l = inl ValueError) as Hc
          by (apply interp_line_raises; auto).
        congruence.
Qed.

Lemma interp_lines_filter lines parameters :
  interp_lines (filter (fun l => counted l = true) lines) parameters
  = interp_lines lines parameters.
Proof.
  revert parameters. induction lines as [|l ls IH]; intros parameters;
    [reflexivity|].
  rewrite filter_cons. destruct (decide (counted l = true)) as [Hc|Hc].
  - simpl. destruct (interp_line parameters l); [reflexivity | apply IH].
  - simpl. rewrite interp_line_skips; [apply IH | | |];
      intros Hn; apply Hc; unfold counted; rewrite Hn; reflexivity.
Qed.

(** C4, as amended.  [interp_star_status] skips every line whose token
    count is other than 2, 3 or 5: such a line leaves the dict as it is,
    never raises, and the result is the same with those lines taken out.
    The parser does raise, and then a [ValueError]: exactly when some line
    has three tokens ending in [SCALAR] with a value [float] rejects, or
    five tokens with a dimension [int] rejects. *)
Theorem interp_star_status_skips_and_raises status :
  (forall line parameters,
      length (split line) <> 2%nat -> length (split line) <> 3%nat ->
      length (split line) <> 5%nat ->
      interp_line parameters line = inr parameters
      /\ line_raises line = false)
  /\ interp_star_status status
     = interp_lines (filter (fun l => counted l = true) (records status)) ∅
  /\ (forall e, interp_star_status status = inl e <->
        e = ValueError
        /\ Exists (fun l => line_raises l = true) (records status)).
Proof.
  split; [| split].
  - intros line parameters H2 H3 H5. split.
    + by apply interp_line_skips.
    + destruct (line_raises line) eqn:Hr; [| reflexivity].
      apply line_raises_counts in Hr as [?|?]; congruence.
  - unfold interp_star_status. by rewrite interp_lines_filter.
  - intros e. apply interp_lines_raises.
Qed.

(** C8.  A listing whose records after the header are the three lines
    [PARM_FLOAT 20.0 SCALAR], [PARM_STR stringCHARACTER] and
    [ARR ARRAY 3 1 1] is parsed to exactly the dict with a scalar 20.0, the
    character value [string] and an array of shape (3, 1, 1). *)
Theorem interp_star_status_sample status :
  records status = Scripted.sample_rows ->
  interp_star_status status = inr Scripted.sample_parameters.
Proof.
  intros H. unfold interp_star_status. rewrite H. vm_compute. reflexivity.
Qed.

End ListingFacts.

Lemma float_20_is_twenty : 5629499534213120 = 20 * 2 ^ 48.
Proof. reflexivity. Qed.

Lemma interp_star_status_skips_and_raises_witness :
  Listing.interp_line ∅ "one two three four" = inr ∅
  /\ Listing.line_raises "one two three four" = false.
Proof.
  apply (proj1 (interp_star_status_skips_and_raises Scripted.noisy_listing));
    vm_compute; discriminate.
Defined.

(** A listing with the scalar row [X abc SCALAR]: the parser raises. *)
Lemma interp_star_status_raises_on_bad_scalar :
  Listing.records Scripted.bad_scalar_listing = ["X abc SCALAR"]
  /\ Listing.interp_star_status Scripted.bad_scalar_listing = inl ValueError.
Proof. vm_compute. split; reflexivity. Qed.

Lemma interp_star_status_sample_witness :
  Listing.interp_star_status (Scripted.listing Scripted.sample_rows)
  = inr Scripted.sample_parameters.
Proof. apply interp_star_status_sample. vm_compute. reflexivity. Defined.

(** ** The store: logging wrapper and visibility scope *)

Section ScopeFacts.
Import PyStr PyNum Listing Np.
Context `{E : Externals}.

Lemma keeps_ret {A} (a : A) : keeps_scope (ret a).
Proof. by intros p. Qed.

Lemma keeps_raise {A} e : keeps_scope (raise (A := A) e).
Proof. by intros p. Qed.

Lemma keeps_lift {A} (r : result A) : keeps_scope (lift r).
Proof. by intros p. Qed.

Lemma keeps_get {A} (f : Parameters -> A) : keeps_scope (get f).
Proof. by intros p. Qed.

Lemma keeps_bind {A B} (m : M A) (k : A -> M B) :
  keeps_scope m -> (forall a, keeps_scope (k a)) -> keeps_scope (bind m k).
Proof.
  intros Hm Hk p. unfold bind. specialize (Hm p).
  destruct (m p) as [p' [e|a]]; simpl in *; [assumption|].
  destruct (Hk a p') as [Hf Hs]. destruct Hm as [Hf' Hs']. split; congruence.
Qed.

Lemma keeps_try_except {A} (m h : M A) :
  keeps_scope m -> keeps_scope h -> keeps_scope (try_except_ValueError m h).
Proof.
  intros Hm Hh p. unfold try_except_ValueError. specialize (Hm p).
  destruct (m p) as [p' [e|a]]; simpl in *; [|assumption].
  destruct (is_ValueError e); simpl; [|assumption].
  destruct (Hh p') as [Hf Hs]. destruct Hm as [Hf' Hs']. split; congruence.
Qed.

Lemma keeps_send r : keeps_scope (send r).
Proof. intros p. unfold send. by destruct (respond r _). Qed.

Lemma keeps_set_log_level level : keeps_scope (_set_log_level level).
Proof. by intros p. Qed.

Lemma keeps_set_mute b : keeps_scope (set_mute b).
Proof. by intros p. Qed.

Lemma keeps_write_array f : keeps_scope (modify (write_array f)).
Proof. by intros p. Qed.

Ltac keeps :=
  repeat match goal with
    | |- keeps_scope (ret _) => apply keeps_ret
    | |- keeps_scope (raise _) => apply keeps_raise
    | |- keeps_scope (lift _) => apply keeps_lift
    | |- keeps_scope (get _) => apply keeps_get
    | |- keeps_scope (send _) => apply keeps_send
    | |- keeps_scope (_set_log_level _) => apply keeps_set_log_level
    | |- keeps_scope (set_mute _) => apply keeps_set_mute
    | |- keeps_scope (modify (write_array _)) => apply keeps_write_array
    | |- keeps_scope (bind _ _) => apply keeps_bind; [| intros ?]
    | |- keeps_scope (try_except_ValueError _ _) => apply keeps_try_except
    | |- keeps_scope (if ?b then _ else _) => destruct b
    | |- keeps_scope (match ?x with _ => _ end) => destruct x
    | |- keeps_scope _ => assumption
    end.

Lemma keeps_supress_logging {A} (func : M A) :
  keeps_scope func -> keeps_scope (supress_logging func).
Proof. intros H. unfold supress_logging. keeps. Qed.

Lemma keeps_parm : keeps_scope _parm.
Proof.
  unfold _parm, starstatus. apply keeps_supress_logging. keeps.
Qed.

Lemma keeps_try_formats parm_name numbers :
  keeps_scope (try_formats parm_name numbers).
Proof. induction numbers as [|n ns IH]; simpl; keeps. Qed.

Lemma keeps_get_parameter_array parm_name shape :
  keeps_scope (_get_parameter_array parm_name shape).
Proof.
  unfold _get_parameter_array, get_parameter_array_body.
  pose proof keeps_try_formats.
  apply keeps_supress_logging. keeps; auto.
Qed.

Lemma keeps_getitem_lookup key parameters :
  keeps_scope (getitem_lookup key parameters).
Proof.
  pose proof keeps_get_parameter_array.
  unfold getitem_lookup, fetch_array.
  destruct (parameters !! key); [| keeps].
  destruct (is_array_or_table _); keeps; auto.
Qed.

Lemma with_scope_run {A} c (body : M A) p :
  with_scope c body p
  = let '(p2, r) := body (__enter__ c p).1 in ((__exit__ c p2).1, r).
Proof.
  unfold with_scope, with_. simpl. by destruct (body _).
Qed.

(** One scope around a body that leaves flags and scope objects alone:
    the flags come back, the scope object holds the snapshot. *)
Lemma with_scope_restores {A} c (body : M A) p :
  keeps_scope body ->
  flags (with_scope c body p).1 = flags p
  /\ scope_objects (with_scope c body p).1
     = <[c := {| saved_leading := show_leading_underscore_parameters p;
                 saved_trailing := show_trailing_underscore_parameters p |}]>
         (scope_objects p).
Proof.
  intros Hb. rewrite with_scope_run.
  destruct (Hb (__enter__ c p).1) as [Hf Hs].
  destruct (body _) as [p2 r]. simpl in *.
  unfold get_scope. rewrite Hs. simpl. rewrite lookup_insert_eq. simpl.
  split; reflexivity.
Qed.

(** C10.  Around a call whose prior log level is not [CRITICAL],
    [supress_logging] sets the level to [CRITICAL] and runs the function;
    when the function returns, the prior level is set again before the
    result is returned; when it raises, nothing more is done, so the store
    is left as the function left it, with the level [CRITICAL] unless the
    function changed it itself. *)
Theorem supress_logging_restores_only_on_return
  {A} (func : M A) (p : Parameters) :
  current_log_level p <> "CRITICAL" ->
  (forall p' out, func (silenced p) = (p', inr out) ->
     supress_logging func p
     = (set_mapdl (with_log_level (current_log_level p) (_mapdl p')) p',
        inr out)
     /\ current_log_level (supress_logging func p).1 = current_log_level p)
  /\ (forall p' e, func (silenced p) = (p', inl e) ->
        supress_logging func p = (p', inl e)
        /\ (current_log_level p' = current_log_level (silenced p) ->
            current_log_level (supress_logging func p).1 = "CRITICAL")).
Proof.
  intros Hprior.
  assert (String.eqb (current_log_level p) "CRITICAL" = false) as Hb
    by (by apply String.eqb_neq).
  assert (supress_logging func p
          = match func (silenced p) with
            | (p', inr out) =>
                (set_mapdl (with_log_level (current_log_level p) (_mapdl p'))
                   p', inr out)
            | (p', inl e) => (p', inl e)
            end) as Hrun.
  { unfold supress_logging, bind, get, _set_log_level, modify, ret.
    rewrite Hb. simpl. fold (silenced p).
    destruct (func (silenced p)) as [p' [e|out]]; reflexivity. }
  split; intros p' x Hf; rewrite Hrun, Hf; split; try reflexivity.
  simpl. intros ->. reflexivity.
Qed.

(** C3.  A lookup through [__getitem__] leaves both visibility flags at the
    values they had before it, whatever its outcome: a value, the
    [IndexError] of an unknown name, or any other exception. *)
Theorem getitem_restores_flags (key : pyvalue scalar) (p : Parameters) :
  flags (__getitem__ key p).1 = flags p.
Proof.
  destruct key; try reflexivity.
  unfold __getitem__, bind, get.
  destruct (with_scope_restores (full_parameters_output p) _parm p keeps_parm)
    as [Hf _].
  destruct (with_scope _ _parm p) as [p1 [e|parameters]]; simpl in *;
    [assumption|].
  destruct (keeps_getitem_lookup (upper s) parameters p1) as [Hl _].
  congruence.
Qed.

Lemma exit_keeps_scope_objects c p :
  scope_objects (__exit__ c p).1 = scope_objects p.
Proof. reflexivity. Qed.

(** Scopes on distinct objects, one inside the other: the flags come back
    and the objects outside the nest are untouched. *)
Lemma nested_distinct {A} (body : M A) cs :
  keeps_scope body -> NoDup cs -> forall p,
  flags (nested_scopes cs body p).1 = flags p
  /\ forall c, c ∉ cs ->
       scope_objects (nested_scopes cs body p).1 !! c = scope_objects p !! c.
Proof.
  intros Hb. induction cs as [|c cs IH]; intros Hnd p.
  - destruct (Hb p) as [Hf Hs]. simpl. split; [assumption|].
    intros c _. by rewrite Hs.
  - apply NoDup_cons in Hnd as [Hc Hnd]. simpl nested_scopes.
    rewrite with_scope_run.
    destruct (IH Hnd (__enter__ c p).1) as [Hf Hs].
    pose proof (Hs c Hc) as Hsc.
    destruct (nested_scopes cs body (__enter__ c p).1) as [p2 r].
    simpl in *. rewrite lookup_insert_eq in Hsc.
    unfold get_scope. rewrite Hsc. simpl. split; [reflexivity|].
    intros d Hd. apply not_elem_of_cons in Hd as [Hdc Hd].
    rewrite (Hs d Hd). by rewrite lookup_insert_ne.
Qed.

(** Once the flags are both [True], a nest that ends in a scope on [c]
    leaves [(True, True)] as the snapshot held by [c]. *)
Lemma snapshot_overwritten {A} (body : M A) c cs :
  keeps_scope body -> forall p,
  flags p = (Some true, Some true) ->
  get_scope c (nested_scopes cs (with_scope c body) p).1
  = {| saved_leading := Some true; saved_trailing := Some true |}.
Proof.
  intros Hb. induction cs as [|d cs IH]; intros p Hp.
  - simpl. destruct (with_scope_restores c body p Hb) as [_ Hs].
    unfold get_scope. rewrite Hs, lookup_insert_eq. simpl.
    unfold flags in Hp. by injection Hp as -> ->.
  - simpl nested_scopes. rewrite with_scope_run.
    specialize (IH (__enter__ d p).1 eq_refl).
    destruct (nested_scopes cs (with_scope c body) (__enter__ d p).1)
      as [p2 r].
    simpl in *. exact IH.
Qed.

(** C9, as amended.  Around a body that leaves the flags alone: scopes
    nested on distinct scope objects restore the flags that held before the
    outermost entry; a nest that enters the object of its outermost scope
    again (as any nest on the one [full_parameters_output] of a store does)
    ends with both flags [True]. *)
Theorem nested_scopes_flags {A} (body : M A) (p : Parameters) :
  keeps_scope body ->
  (forall cs, NoDup cs -> flags (nested_scopes cs body p).1 = flags p)
  /\ (forall c cs,
        flags (with_scope c (nested_scopes cs (with_scope c body)) p).1
        = (Some true, Some true)).
Proof.
  intros Hb. split.
  - intros cs Hnd. by apply nested_distinct.
  - intros c cs. rewrite with_scope_run.
    pose proof (snapshot_overwritten body c cs Hb (__enter__ c p).1 eq_refl)
      as Hs.
    destruct (nested_scopes cs (with_scope c body) (__enter__ c p).1)
      as [p2 r].
    simpl in *. by rewrite Hs.
Qed.

End ScopeFacts.

Section ScopeRuns.
Import PyStr PyNum Listing Np Scripted.
Existing Instance externals.

Lemma supress_logging_restores_only_on_return_witness :
  (supress_logging (ret 7) (store [])
   = (store [], inr 7))
  /\ (supress_logging (A := Z) (raise ValueError) (store [])
      = (silenced (store []), inl ValueError)
      /\ current_log_level
           (supress_logging (A := Z) (raise ValueError) (store [])).1
         = "CRITICAL").
Proof.
  assert (current_log_level (store []) <> "CRITICAL") as H by discriminate.
  split.
  - apply (proj1 (supress_logging_restores_only_on_return (ret 7) (store []) H)
             (silenced (store [])) 7 eq_refl).
  - destruct (proj2 (supress_logging_restores_only_on_return
                       (A := Z) (raise ValueError) (store []) H)
                (silenced (store [])) ValueError eq_refl) as [H1 H2].
    split; [exact H1 | exact (H2 eq_refl)].
Defined.

(** The two exit paths of C3 on a listing with one scalar: the value is
    returned, an unknown name raises [IndexError]; the flags are as before
    on both. *)
Lemma getitem_value_path :
  (__getitem__ (PyStr "x") listed_store).2
  = inr (FetchedValue (VFloat (S754_finite false 5629499534213120 (-50))))
  /\ flags (__getitem__ (PyStr "x") listed_store).1 = flags listed_store.
Proof. split; vm_compute; reflexivity. Qed.

Lemma getitem_unknown_path :
  (__getitem__ (PyStr "y") listed_store).2 = inl IndexError
  /\ flags (__getitem__ (PyStr "y") listed_store).1 = flags listed_store.
Proof. split; vm_compute; reflexivity. Qed.

Lemma nested_scopes_flags_witness :
  flags (nested_scopes [0; 1]%nat (ret tt) (store [])).1 = flags (store [])
  /\ flags (with_scope 0 (nested_scopes [1%nat] (with_scope 0 (ret tt)))
              (store [])).1
     = (Some true, Some true).
Proof.
  destruct (nested_scopes_flags (ret tt) (store []) (keeps_ret tt))
    as [H1 H2].
  split; [apply H1; by apply (bool_decide_unpack _) | apply H2].
Defined.

(** The store's own scope object entered twice, one entry inside the
    other, around a listing: the flags were both [False] before the outer
    entry and are both [True] after the outer exit. *)
Lemma nested_shared_scope_not_restored :
  flags listed_store = (Some false, Some false)
  /\ flags (nested_scopes
              [full_parameters_output listed_store;
               full_parameters_output listed_store] _parm listed_store).1
     = (Some true, Some true)
  /\ flags (nested_scopes
              [full_parameters_output listed_store;
               full_parameters_output listed_store] _parm listed_store).1
     <> flags listed_store.
Proof. vm_compute. repeat split; discriminate. Qed.

End ScopeRuns.

(** ** Text after the format tag *)

Section TagFacts.
Import PyStr.

Lemma prefix_split sub s :
  String.prefix sub s = true ->
  s = (sub +:+ drop_chars (String.length sub) s).
Proof.
  revert s. induction sub as [|a sub IH]; intros s H; [reflexivity|].
  destruct s as [|b s]; simpl in H; [discriminate|].
  destruct (ascii_dec a b) as [->|]; [|discriminate].
  change (String b s
          = String b (sub +:+ drop_chars (String.length sub) s)).
  f_equal. by apply IH.
Qed.

Lemma take_drop_chars n s : s = (take_chars n s +:+ drop_chars n s).
Proof.
  revert s. induction n as [|n IH]; intros [|c s]; try reflexivity.
  change (String c s = String c (take_chars n s +:+ drop_chars n s)).
  f_equal. apply IH.
Qed.

Lemma drop_chars_add n m s :
  drop_chars (n + m) s = drop_chars m (drop_chars n s).
Proof.
  revert s. induction n as [|n IH]; intros s; [reflexivity|].
  destruct s as [|c s]; simpl; [by destruct m | apply IH].
Qed.

Lemma rfind_from_nil sub pos :
  rfind_from sub "" pos = if String.prefix sub "" then pos else -1.
Proof. reflexivity. Qed.

Lemma rfind_from_cons sub c s pos :
  rfind_from sub (String c s) pos
  = if 0 <=? rfind_from sub s (pos + 1) then rfind_from sub s (pos + 1)
    else if String.prefix sub (String c s) then pos else -1.
Proof. reflexivity. Qed.

Lemma rfind_from_spec sub s : forall pos, 0 <= pos ->
  (rfind_from sub s pos = -1
   /\ forall n, (n <= String.length s)%nat ->
        String.prefix sub (drop_chars n s) = false)
  \/ (exists n, (n <= String.length s)%nat
        /\ rfind_from sub s pos = pos + Z.of_nat n
        /\ String.prefix sub (drop_chars n s) = true
        /\ forall m, (n < m <= String.length s)%nat ->
             String.prefix sub (drop_chars m s) = false).
Proof.
  induction s as [|c s IH]; intros pos Hpos.
  - rewrite rfind_from_nil. destruct (String.prefix sub "") eqn:Hp.
    + right. exists 0%nat. cbn [drop_chars String.length].
      split; [lia|]. split; [lia|]. split; [exact Hp|]. intros m Hm. lia.
    + left. split; [reflexivity|]. intros [|n] _; exact Hp.
  - rewrite rfind_from_cons. cbn [String.length].
    destruct (IH (pos + 1) ltac:(lia))
      as [[Hr Hnone]|(n & Hn & Hr & Hp & Hlater)].
    + rewrite Hr. change (0 <=? -1) with false. cbv iota.
      destruct (String.prefix sub (String c s)) eqn:Hp.
      * right. exists 0%nat. cbn [drop_chars].
        split; [lia|]. split; [lia|]. split; [exact Hp|].
        intros [|m] Hm; [lia|]. cbn [drop_chars]. apply Hnone. lia.
      * left. split; [reflexivity|]. intros [|n] Hn; [exact Hp|].
        cbn [drop_chars]. apply Hnone. lia.
    + rewrite Hr.
      destruct (0 <=? pos + 1 + Z.of_nat n) eqn:Hle;
        [| apply Z.leb_gt in Hle; lia].
      right. exists (S n). cbn [drop_chars].
      split; [lia|]. split; [lia|]. split; [exact Hp|].
      intros [|m] Hm; [lia|]. cbn [drop_chars]. apply Hlater. lia.
Qed.

(** When the response holds the format tag, the text that is searched for
    the marker and parsed starts one character after the end of the last
    occurrence of the tag. *)
Lemma after_tag_follows_last_tag response fmt :
  0 <= rfind response fmt ->
  exists n,
    rfind response fmt = Z.of_nat n
    /\ response
       = (take_chars n response +:+ fmt
          +:+ drop_chars (n + String.length fmt) response)
    /\ after_tag response fmt
       = drop_chars (n + String.length fmt + 1) response
    /\ forall m, (n < m <= String.length response)%nat ->
         String.prefix fmt (drop_chars m response) = false.
Proof.
  intros Hfound. unfold rfind in *.
  destruct (rfind_from_spec fmt response 0 ltac:(lia))
    as [[Hr _]|(n & Hn & Hr & Hp & Hlater)]; [lia|].
  exists n. simpl in Hr. repeat split; try assumption.
  - rewrite (take_drop_chars n response) at 1. f_equal.
    rewrite drop_chars_add. by apply prefix_split.
  - unfold after_tag, start_after, slice_from, rfind, len. rewrite Hr.
    destruct (_ <? 0) eqn:Hneg; [apply Z.ltb_lt in Hneg; lia|].
    f_equal. lia.
Qed.

End TagFacts.

(** ** Reading an array back *)

Section FetchFacts.
Import PyStr PyNum Listing Np.
Context `{E : Externals}.

Lemma exchanges_since_app p p' d :
  exchanges (_mapdl p') = exchanges (_mapdl p) ++ d ->
  exchanges_since p p' = d.
Proof. unfold exchanges_since. intros ->. apply drop_app_length. Qed.

Lemma quieted_exchanges p :
  exchanges (_mapdl (quieted p)) = exchanges (_mapdl p)
  /\ session (_mapdl (quieted p)) = session (_mapdl p)
  /\ write_array_calls (quieted p) = write_array_calls p.
Proof. unfold quieted. by destruct (String.eqb _ _). Qed.

(** What [supress_logging] does is to run the function on the quieted
    store and, when it returns, to put the level back. *)
Lemma supress_logging_run {A} (func : M A) p :
  supress_logging func p
  = match func (quieted p) with
    | (p', inr out) =>
        (if String.eqb (current_log_level p) "CRITICAL" then p'
         else set_mapdl (with_log_level (current_log_level p) (_mapdl p')) p',
         inr out)
    | (p', inl e) => (p', inl e)
    end.
Proof.
  unfold supress_logging, quieted, bind, get, _set_log_level, modify, ret.
  destruct (String.eqb (current_log_level p) "CRITICAL"); simpl;
    fold (silenced p); destruct (func _) as [p' [e|out]]; reflexivity.
Qed.

Lemma supress_logging_traffic {A} (func : M A) p :
  (supress_logging func p).2 = (func (quieted p)).2
  /\ exchanges (_mapdl (supress_logging func p).1)
     = exchanges (_mapdl (func (quieted p)).1)
  /\ write_array_calls (supress_logging func p).1
     = write_array_calls (func (quieted p)).1.
Proof.
  rewrite supress_logging_run.
  destruct (func (quieted p)) as [p' [e|out]]; simpl; [done|].
  by destruct (String.eqb _ _).
Qed.

Lemma try_formats_cons parm_name n ns p s' reply :
  respond (mwrite_request parm_name n) (session (_mapdl p)) = (s', reply) ->
  try_formats parm_name (n :: ns) p
  = let p1 := set_mapdl (record_exchange (mwrite_request parm_name n) s'
                           reply (_mapdl p)) p in
    match reply with
    | inl e => (p1, inl e)
    | inr text =>
        if overflows text (format_str n) then try_formats parm_name ns p1
        else (p1, inr (Some (n, start_after text (format_str n))))
    end.
Proof.
  intros Hr. cbn [try_formats]. unfold bind at 1. unfold send. rewrite Hr.
  destruct reply as [e|text]; [reflexivity|].
  unfold bind, get, overflows, after_tag. cbn.
  by destruct (contains "**" _).
Qed.

(** The loop over the format numbers: the dumps requested, in order, are
    those of a prefix of the list; every reply but the last showed the
    marker; the last one decides the outcome. *)
Lemma try_formats_spec parm_name numbers : forall p,
  exists tried : list (nat * result string),
    exchanges (_mapdl (try_formats parm_name numbers p).1)
    = exchanges (_mapdl p) ++ map (probe parm_name) tried
    /\ map fst tried `prefix_of` numbers
    /\ match (try_formats parm_name numbers p).2 with
       | inr (Some (n, st)) =>
           exists before text,
             tried = before ++ [(n, inr text)]
             /\ Forall overflowed before
             /\ overflows text (format_str n) = false
             /\ st = start_after text (format_str n)
             /\ last_response (_mapdl (try_formats parm_name numbers p).1)
                = text
       | inr None => map fst tried = numbers /\ Forall overflowed tried
       | inl e =>
           exists before n,
             tried = before ++ [(n, inl e)] /\ Forall overflowed before
       end.
Proof.
  induction numbers as [|n ns IH]; intros p.
  - exists []. simpl. rewrite app_nil_r. split; [reflexivity|].
    split; [apply prefix_nil|]. split; [reflexivity | constructor].
  - destruct (respond (mwrite_request parm_name n) (session (_mapdl p)))
      as [s' reply] eqn:Hr.
    rewrite (try_formats_cons _ _ _ _ _ _ Hr). cbv zeta.
    set (p1 := set_mapdl _ p).
    destruct reply as [e|text].
    + exists [(n, inl e)]. simpl. split; [reflexivity|].
      split; [apply prefix_cons, prefix_nil|].
      exists [], n. split; [reflexivity | constructor].
    + destruct (overflows text (format_str n)) eqn:Hov.
      * destruct (IH p1) as (tried & Hx & Hpre & Hout).
        exists ((n, inr text) :: tried). split; [|split].
        -- rewrite Hx. subst p1. simpl. by rewrite <- app_assoc.
        -- simpl. by apply prefix_cons.
        -- assert (overflowed (n, inr text)) as Hfirst by (by exists text).
           destruct (try_formats parm_name ns p1).2 as [e|[[n' st]|]].
           ++ destruct Hout as (before & n' & -> & Hall).
              exists ((n, inr text) :: before), n'. split; [reflexivity|].
              by constructor.
           ++ destruct Hout as (before & text' & -> & Hall & Hrest).
              exists ((n, inr text) :: before), text'.
              split; [reflexivity|]. split; [by constructor | exact Hrest].
           ++ destruct Hout as [<- Hall]. split; [reflexivity|].
              by constructor.
      * exists [(n, inr text)]. simpl. split; [reflexivity|].
        split; [apply prefix_cons, prefix_nil|].
        exists [], text. repeat split; try constructor. exact Hov.
Qed.

Lemma get_parameter_array_body_spec parm_name shape p :
  exists tried : list (nat * result string),
    exchanges (_mapdl (get_parameter_array_body parm_name shape p).1)
    = exchanges (_mapdl p) ++ map (probe parm_name) tried
    /\ map fst tried `prefix_of` format_numbers
    /\ ((exists before n text,
           tried = before ++ [(n, inr text)]
           /\ Forall overflowed before
           /\ overflows text (format_str n) = false
           /\ (get_parameter_array_body parm_name shape p).2
              = parse_array (after_tag text (format_str n)) shape)
        \/ (map fst tried = format_numbers
            /\ Forall overflowed tried
            /\ (get_parameter_array_body parm_name shape p).2
               = inl RuntimeError)
        \/ (exists before n e,
              tried = before ++ [(n, inl e)]
              /\ Forall overflowed before
              /\ (get_parameter_array_body parm_name shape p).2 = inl e)).
Proof.
  destruct (try_formats_spec parm_name format_numbers p)
    as (tried & Hx & Hpre & Hout).
  exists tried. unfold get_parameter_array_body, bind.
  destruct (try_formats parm_name format_numbers p) as [p1 [e|[[n st]|]]];
    simpl in *.
  - split; [exact Hx|]. split; [exact Hpre|]. right. right.
    destruct Hout as (before & n & -> & Hall). by exists before, n, e.
  - split; [exact Hx|]. split; [exact Hpre|]. left.
    destruct Hout as (before & text & -> & Hall & Hov & -> & <-).
    exists before, n, (last_response (_mapdl p1)).
    split; [reflexivity|]. split; [exact Hall|]. split; [exact Hov|].
    reflexivity.
  - split; [exact Hx|]. split; [exact Hpre|]. right. left.
    destruct Hout as [? ?]. by repeat split.
Qed.

(** The run of [_get_parameter_array] in the store's own terms. *)
Lemma get_parameter_array_run parm_name shape (p : Parameters) :
  let run := _get_parameter_array parm_name shape p in
  format_numbers = [20; 30; 40; 64; 100]%nat
  /\ (exists tried : list (nat * result string),
        exchanges_since p run.1 = map (probe parm_name) tried
        /\ map fst tried `prefix_of` format_numbers
        /\ ((exists before n text,
               tried = before ++ [(n, inr text)]
               /\ Forall overflowed before
               /\ overflows text (format_str n) = false
               /\ run.2 = parse_array (after_tag text (format_str n)) shape)
            \/ (map fst tried = format_numbers
                /\ Forall overflowed tried
                /\ run.2 = inl RuntimeError)
            \/ (exists before n e,
                  tried = before ++ [(n, inl e)]
                  /\ Forall overflowed before
                  /\ run.2 = inl e)))
  /\ (forall text fmt, 0 <= rfind text fmt ->
        exists n,
          rfind text fmt = Z.of_nat n
          /\ text = (take_chars n text +:+ fmt
                     +:+ drop_chars (n + String.length fmt) text)
          /\ after_tag text fmt = drop_chars (n + String.length fmt + 1) text
          /\ forall m, (n < m <= String.length text)%nat ->
               String.prefix fmt (drop_chars m text) = false)
  /\ (forall s1 s2 s3 t20 t30 t40,
        respond (mwrite_request parm_name 20) (session (_mapdl p))
        = (s1, inr t20) ->
        respond (mwrite_request parm_name 30) s1 = (s2, inr t30) ->
        respond (mwrite_request parm_name 40) s2 = (s3, inr t40) ->
        overflows t20 (format_str 20) = true ->
        overflows t30 (format_str 30) = true ->
        overflows t40 (format_str 40) = false ->
        exchanges_since p run.1
        = map (probe parm_name) [(20, inr t20); (30, inr t30); (40, inr t40)]%nat
        /\ run.2 = parse_array (after_tag t40 (format_str 40)) shape).
Proof.
  intros run. subst run. unfold _get_parameter_array.
  destruct (supress_logging_traffic
              (get_parameter_array_body parm_name shape) p) as (Hres & Hx & _).
  destruct (quieted_exchanges p) as (Hqx & Hqs & _).
  rewrite Hres. split; [reflexivity|]. split; [|split].
  - destruct (get_parameter_array_body_spec parm_name shape (quieted p))
      as (tried & Hx' & Hpre & Hout).
    exists tried. split; [|split; assumption].
    apply exchanges_since_app. by rewrite Hx, Hx', Hqx.
  - apply after_tag_follows_last_tag.
  - intros s1 s2 s3 t20 t30 t40 H20 H30 H40 Ho20 Ho30 Ho40.
    rewrite <- Hqs in H20.
    assert (get_parameter_array_body parm_name shape (quieted p)
            = (set_mapdl
                 (record_exchange (mwrite_request parm_name 40) s3 (inr t40)
                    (record_exchange (mwrite_request parm_name 30) s2 (inr t30)
                       (record_exchange (mwrite_request parm_name 20) s1
                          (inr t20) (_mapdl (quieted p)))))
                 (quieted p),
               parse_array (after_tag t40 (format_str 40)) shape)) as Hrun.
    { unfold get_parameter_array_body, bind, format_numbers.
      rewrite (try_formats_cons _ _ _ _ _ _ H20). cbv zeta. rewrite Ho20.
      set (p1 := set_mapdl _ (quieted p)).
      rewrite (try_formats_cons parm_name 30 _ p1 s2 _ H30). cbv zeta.
      rewrite Ho30. set (p2 := set_mapdl _ p1).
      rewrite (try_formats_cons parm_name 40 _ p2 s3 _ H40). cbv zeta.
      rewrite Ho40. reflexivity. }
    split.
    + apply exchanges_since_app. rewrite Hx, Hrun. simpl. rewrite Hqx.
      by rewrite <- !app_assoc.
    + by rewrite Hrun.
Qed.

Lemma probe_is_dump parm_name (tried : list (nat * result string)) :
  map (probe parm_name) tried
  = map (fun x => (dump_request parm_name x.1, x.2)) tried.
Proof. reflexivity. Qed.

Lemma parse_array_is_parsed_as text shape :
  parse_array text shape = parsed_as text shape.
Proof.
  unfold parse_array, parsed_as.
  destruct (np_fromstring text) as [e|flat]; [reflexivity|].
  destruct (reshape _ shape) as [e|a]; [reflexivity|].
  destruct shape as [|x [|y [|z l]]]; try reflexivity.
  destruct z as [|[z|z|]|z], l; reflexivity.
Qed.

(** C2.  [_get_parameter_array] asks for the dump at the widths 20, 30, 40,
    64 and 100, in that order and no further than needed; the request for
    a width is one block: the dump of the upper-cased name with the label
    [kji], then the tag [(1F<width>.12)].  Every reply before the last
    showed the marker ["**"] in the text after the last occurrence of the
    tag of its width; the first reply without the marker there is the one
    parsed, and only that text of it: the result is what NumPy reads in
    that text, in the listed shape.  When all five replies show the marker
    the call raises [RuntimeError].  The text after the tag starts one
    character after the end of the last occurrence of the tag.  In
    particular, when the replies for 20 and 30 show the marker and the
    reply for 40 does not, three dumps are requested and the text after the
    tag [(1F40.12)] of the third reply is parsed. *)
Theorem get_parameter_array_escalates parm_name shape (p : Parameters) :
  let run := _get_parameter_array parm_name shape p in
  (exists tried : list (nat * result string),
      exchanges_since p run.1
      = map (fun x => (dump_request parm_name x.1, x.2)) tried
      /\ map fst tried `prefix_of` [20; 30; 40; 64; 100]%nat
      /\ ((exists before n text,
             tried = before ++ [(n, inr text)]
             /\ Forall still_marked before
             /\ marker_after_tag text n = false
             /\ run.2 = parsed_as (post_tag text n) shape)
          \/ (map fst tried = [20; 30; 40; 64; 100]%nat
              /\ Forall still_marked tried
              /\ run.2 = inl RuntimeError)
          \/ (exists before n e,
                tried = before ++ [(n, inl e)]
                /\ Forall still_marked before
                /\ run.2 = inl e)))
  /\ (forall text n, 0 <= rfind text (width_tag n) ->
        exists m,
          rfind text (width_tag n) = Z.of_nat m
          /\ text = (take_chars m text +:+ width_tag n
                     +:+ drop_chars (m + String.length (width_tag n)) text)
          /\ post_tag text n
             = drop_chars (m + String.length (width_tag n) + 1) text
          /\ forall k, (m < k <= String.length text)%nat ->
               String.prefix (width_tag n) (drop_chars k text) = false)
  /\ (forall s1 s2 s3 t20 t30 t40,
        respond (dump_request parm_name 20) (session (_mapdl p))
        = (s1, inr t20) ->
        respond (dump_request parm_name 30) s1 = (s2, inr t30) ->
        respond (dump_request parm_name 40) s2 = (s3, inr t40) ->
        marker_after_tag t20 20 = true ->
        marker_after_tag t30 30 = true ->
        marker_after_tag t40 40 = false ->
        exchanges_since p run.1
        = [(dump_request parm_name 20, inr t20);
           (dump_request parm_name 30, inr t30);
           (dump_request parm_name 40, inr t40)]
        /\ run.2 = parsed_as (post_tag t40 40) shape).
Proof.
  intros run. subst run.
  destruct (get_parameter_array_run parm_name shape p)
    as (Hnumbers & (tried & Hx & Hpre & Hout) & Htag & Hsample).
  split; [|split].
  - exists tried. rewrite <- probe_is_dump. split; [exact Hx|].
    split; [exact Hpre|].
    destruct Hout as [(before & n & text & Ht & Hall & Hov & Hres)
                     |[(Hall & Hm & Hres)
                      |(before & n & e & Ht & Hall & Hres)]].
    + left. exists before, n, text. rewrite <- parse_array_is_parsed_as.
      repeat split; assumption.
    + right. left. repeat split; assumption.
    + right. right. exists before, n, e. repeat split; assumption.
  - intros text n. apply (Htag text (width_tag n)).
  - intros s1 s2 s3 t20 t30 t40 H20 H30 H40 Ho20 Ho30 Ho40.
    rewrite <- parse_array_is_parsed_as.
    apply (Hsample s1 s2 s3 t20 t30 t40); assumption.
Qed.

Lemma attempts_app key (d1 d2 : list (request scalar * result string)) :
  fetch_attempts key (d1 ++ d2)
  = (fetch_attempts key d1 + fetch_attempts key d2)%nat.
Proof. unfold fetch_attempts. by rewrite filter_app, length_app. Qed.

Lemma attempts_probe key tried :
  fetch_attempts key (map (probe key) tried)
  = length (filter (fun n => String.eqb (format_str n) (format_str 20) = true)
              (map fst tried)).
Proof.
  unfold fetch_attempts. induction tried as [|x xs IH]; [reflexivity|].
  cbn [map]. rewrite !filter_cons.
  assert (is_first_probe key (probe key x).1
          = String.eqb (format_str x.1) (format_str 20)) as ->.
  { cbn. by rewrite String.eqb_refl. }
  destruct (decide _); simpl; by rewrite IH.
Qed.

Lemma prefix_attempts (l : list nat) :
  l `prefix_of` format_numbers -> l <> [] ->
  length (filter (fun n => String.eqb (format_str n) (format_str 20) = true) l)
  = 1%nat.
Proof.
  intros [k Hk] Hne. unfold format_numbers in Hk.
  destruct l as [|a [|b [|c [|d [|e [|f l]]]]]]; simplify_eq/=;
    vm_compute; reflexivity.
Qed.

(** A fetch of an array starts with the dump at width 20 and asks for it
    once. *)
Lemma get_parameter_array_attempts key shape p :
  exists d,
    exchanges (_mapdl (_get_parameter_array key shape p).1)
    = exchanges (_mapdl p) ++ d
    /\ fetch_attempts key d = 1%nat.
Proof.
  unfold _get_parameter_array.
  destruct (supress_logging_traffic (get_parameter_array_body key shape) p)
    as (_ & Hx & _).
  destruct (quieted_exchanges p) as (Hqx & _).
  destruct (get_parameter_array_body_spec key shape (quieted p))
    as (tried & Hx' & Hpre & Hout).
  exists (map (probe key) tried). split; [by rewrite Hx, Hx', Hqx|].
  rewrite attempts_probe. apply prefix_attempts; [exact Hpre|].
  intros Hnil. apply map_eq_nil in Hnil. subst tried.
  destruct Hout as [(b & n & t & Ht & _)|[(Hn & _)|(b & n & e & Ht & _)]];
    try discriminate; by destruct b.
Qed.

Lemma fetch_array_attempts key parm p :
  exists d,
    exchanges (_mapdl (fetch_array key parm p).1) = exchanges (_mapdl p) ++ d
    /\ (fetch_attempts key d <= 1)%nat
    /\ ((exists shape, parm_shape parm = inr shape) ->
        fetch_attempts key d = 1%nat).
Proof.
  unfold fetch_array, bind, lift.
  destruct (parm_shape parm) as [e|shape] eqn:Hs.
  - exists []. simpl. rewrite app_nil_r. repeat split; auto.
    intros [? ?]; discriminate.
  - destruct (get_parameter_array_attempts key shape p) as (d & Hx & Hd).
    exists d. destruct (_get_parameter_array key shape p) as [p1 [e|a]];
      simpl in *; repeat split; auto; lia.
Qed.

Lemma fetch_array_ok_has_shape key parm p :
  (forall e, (fetch_array key parm p).2 = inl e -> is_ValueError e = true ->
     exists shape, parm_shape parm = inr shape)
  /\ (forall v, (fetch_array key parm p).2 = inr v ->
        exists shape, parm_shape parm = inr shape).
Proof.
  unfold fetch_array, bind, lift.
  destruct (parm_shape parm) as [e|shape] eqn:Hs; simpl.
  - destruct parm as [? ?|? [[? ?] ?]]; simpl in Hs; simplify_eq.
    split; [intros e [= <-]; discriminate | discriminate].
  - split; eauto.
Qed.

(** C7.  In a lookup of a name listed as [ARRAY] or [TABLE]: when the
    first fetch returns, its array is the result and no second fetch is
    made; when it raises a [ValueError], the fetch is made once more and
    the outcome of that second fetch, array or exception, is the outcome of
    the lookup; any other exception of the first fetch is the outcome at
    once.  The fetches started are counted by their dumps at width 20: one
    in the first case, two in the second, never more. *)
Theorem getitem_retries_once k (p : Parameters) parameters parm :
  let listed := with_scope (full_parameters_output p) _parm p in
  listed.2 = inr parameters ->
  parameters !! upper k = Some parm ->
  is_array_or_table parm = true ->
  let first := fetch_array (upper k) parm listed.1 in
  let final := __getitem__ (PyStr k) p in
  (forall v, first.2 = inr v ->
     final = first
     /\ fetch_attempts (upper k) (exchanges_since listed.1 final.1) = 1%nat)
  /\ (forall e, first.2 = inl e -> is_ValueError e = true ->
        final = fetch_array (upper k) parm first.1
        /\ fetch_attempts (upper k) (exchanges_since listed.1 final.1)
           = 2%nat)
  /\ (forall e, first.2 = inl e -> is_ValueError e = false ->
        final = first
        /\ (fetch_attempts (upper k) (exchanges_since listed.1 final.1)
            <= 1)%nat).
Proof.
  intros listed Hlist Hparm Harr first final. subst listed.
  destruct (with_scope (full_parameters_output p) _parm p) as [p0 r0]
    eqn:Hlisted.
  cbn [fst snd] in *. subst r0.
  assert (final = getitem_lookup (upper k) parameters p0) as Hfinal.
  { subst final. unfold __getitem__, bind, get. cbn beta iota.
    by rewrite Hlisted. }
  assert (getitem_lookup (upper k) parameters p0
          = try_except_ValueError (fetch_array (upper k) parm)
              (fetch_array (upper k) parm) p0) as Hlook.
  { unfold getitem_lookup. by rewrite Hparm, Harr. }
  rewrite Hfinal, Hlook. unfold try_except_ValueError. fold first.
  destruct (fetch_array_attempts (upper k) parm p0) as (d1 & Hx1 & Hle1 & H1).
  destruct (fetch_array_ok_has_shape (upper k) parm p0) as [HshapeE HshapeV].
  fold first in Hx1, HshapeE, HshapeV.
  destruct first as [p1 r1] eqn:Hfirst; cbn [fst snd] in *.
  split; [|split].
  - intros v ->. split; [reflexivity|]. cbn [fst].
    rewrite (exchanges_since_app p0 p1 d1 Hx1).
    apply H1. by apply (HshapeV v).
  - intros e -> He. rewrite He. split; [reflexivity|].
    destruct (fetch_array_attempts (upper k) parm p1)
      as (d2 & Hx2 & _ & H2).
    pose proof (HshapeE e eq_refl He) as Hshape.
    rewrite (exchanges_since_app p0 _ (d1 ++ d2)).
    + rewrite attempts_app, (H1 Hshape), (H2 Hshape). reflexivity.
    + rewrite Hx2, Hx1. by rewrite <- app_assoc.
  - intros e -> He. rewrite He. split; [reflexivity|]. cbn [fst].
    by rewrite (exchanges_since_app p0 p1 d1).
Qed.

End FetchFacts.

(** ** Writing a parameter *)

Section WriteFacts.
Import PyStr PyNum Listing Np.
Context `{E : Externals}.

Lemma no_traffic_quieted p : no_traffic p (quieted p).
Proof. unfold no_traffic, quieted. by destruct (String.eqb _ _). Qed.

(** When the wrapped function raises without traffic, so does the wrapped
    call. *)
Lemma supress_logging_rejects {A} (func : M A) p e :
  func (quieted p) = (quieted p, inl e) ->
  (supress_logging func p).2 = inl e
  /\ no_traffic p (supress_logging func p).1.
Proof.
  intros H. rewrite supress_logging_run, H. simpl.
  split; [reflexivity | apply no_traffic_quieted].
Qed.

Lemma set_parameter_array_rejects name arr p :
  non_numeric_buffer arr \/ rank_above_3 arr \/ non_string name ->
  exists e, (_set_parameter_array name arr p).2 = inl e
            /\ no_traffic p (_set_parameter_array name arr p).1.
Proof.
  intros H. unfold _set_parameter_array.
  assert (exists e, set_parameter_array_body name arr (quieted p)
                    = (quieted p, inl e)) as [e He];
    [| exists e; by apply supress_logging_rejects].
  unfold set_parameter_array_body, bind, lift.
  destruct (np_array arr) as [e|a] eqn:Hnp; [by eexists|].
  destruct (issubdtype_number (dtype a)) eqn:Hnum; simpl; [|by eexists].
  destruct (3 <? ndim a)%nat eqn:Hrank; [by eexists|].
  destruct H as [(a' & Ha & Hn)|[(a' & Ha & Hr)|Hname]].
  - congruence.
  - assert (a' = a) as -> by congruence. apply Nat.ltb_ge in Hrank. lia.
  - destruct name; try (by eexists). by destruct (Hname s).
Qed.

(** C5.  [_set_parameter_array] rejects a non-numeric buffer, a buffer of
    rank above 3 and a name that is not a string with an exception of its
    own, before anything is sent to the session or handed to the file
    writer.  A write of an array, which goes through [__setitem__], rejects
    those three, and a name longer than 32 characters as well, before
    anything is sent: the name goes through [_check_parameter_name] before
    the value is routed to either way of writing. *)
Theorem array_write_validation :
  (forall name arr (p : Parameters),
      non_numeric_buffer arr \/ rank_above_3 arr \/ non_string name ->
      exists e, (_set_parameter_array name arr p).2 = inl e
                /\ no_traffic p (_set_parameter_array name arr p).1)
  /\ (rejects_long_names ->
      forall key value (p : Parameters),
        array_like value ->
        non_numeric_buffer value \/ rank_above_3 value \/ non_string key
        \/ longer_than_32 key ->
        exists e, (__setitem__ key value p).2 = inl e
                  /\ no_traffic p (__setitem__ key value p).1).
Proof.
  split; [apply set_parameter_array_rejects|].
  intros Hlong key value p Hv H. unfold __setitem__.
  destruct (_check_parameter_name key) as [e|] eqn:Hcheck.
  - exists e. by repeat split.
  - assert (match value with
            | PyNdarray _ | PyList _ => _set_parameter_array key value
            | _ => _set_parameter key value
            end = _set_parameter_array key value) as ->
      by (by destruct value).
    apply set_parameter_array_rejects.
    destruct H as [?|[?|[?|(s & -> & Hs)]]]; auto.
    by destruct (Hlong s Hs).
Qed.

Lemma sends_ret P {A} (a : A) : sends_only P (ret a).
Proof. intros p. exists []. simpl. by rewrite app_nil_r. Qed.

Lemma sends_raise P {A} e : sends_only P (raise (A := A) e).
Proof. intros p. exists []. simpl. by rewrite app_nil_r. Qed.

Lemma sends_lift P {A} (r : result A) : sends_only P (lift r).
Proof. intros p. exists []. simpl. by rewrite app_nil_r. Qed.

Lemma sends_get P {A} (f : Parameters -> A) : sends_only P (get f).
Proof. intros p. exists []. simpl. by rewrite app_nil_r. Qed.

Lemma sends_modify P (f : Parameters -> Parameters) :
  (forall p, exchanges (_mapdl (f p)) = exchanges (_mapdl p)) ->
  sends_only P (modify f).
Proof. intros H p. exists []. simpl. by rewrite app_nil_r. Qed.

Lemma sends_send (P : request scalar -> Prop) r : P r -> sends_only P (send r).
Proof.
  intros H p. unfold send. destruct (respond r _) as [s' reply].
  exists [(r, reply)]. split; [reflexivity|]. by constructor.
Qed.

Lemma sends_bind P {A B} (m : M A) (k : A -> M B) :
  sends_only P m -> (forall a, sends_only P (k a)) -> sends_only P (bind m k).
Proof.
  intros Hm Hk p. unfold bind. destruct (Hm p) as (d & Hx & Hd).
  destruct (m p) as [p' [e|a]]; simpl in *; [by exists d|].
  destruct (Hk a p') as (d' & Hx' & Hd'). exists (d ++ d').
  split; [by rewrite Hx', Hx, app_assoc | by apply Forall_app].
Qed.

Lemma sends_supress_logging P {A} (func : M A) :
  sends_only P func -> sends_only P (supress_logging func).
Proof.
  intros H p. destruct (supress_logging_traffic func p) as (_ & Hx & _).
  destruct (quieted_exchanges p) as (Hq & _).
  destruct (H (quieted p)) as (d & Hd & HP). exists d.
  split; [by rewrite Hx, Hd, Hq | exact HP].
Qed.

Ltac sends :=
  repeat match goal with
    | |- sends_only _ (ret _) => apply sends_ret
    | |- sends_only _ (raise _) => apply sends_raise
    | |- sends_only _ (lift _) => apply sends_lift
    | |- sends_only _ (get _) => apply sends_get
    | |- sends_only _ (modify _) => apply sends_modify; intros ?; reflexivity
    | |- sends_only _ (set_mute _) => apply sends_modify; intros ?; reflexivity
    | |- sends_only _ (send _) => apply sends_send; exact I
    | |- sends_only _ (bind _ _) => apply sends_bind; [| intros ?]
    | |- sends_only _ (supress_logging _) => apply sends_supress_logging
    | |- sends_only _ (if ?b then _ else _) => destruct b
    | |- sends_only _ (match ?x with _ => _ end) => destruct x
    | |- sends_only _ (let '(_, _) := ?x in _) => destruct x
    end.

(** An array write sends nothing but the upload of the scratch file and
    blocks that open with the declaration of the dimensions. *)
Lemma set_parameter_array_sends name arr :
  sends_only array_write_request (_set_parameter_array name arr).
Proof.
  unfold _set_parameter_array, set_parameter_array_body, _set_array_chain,
    _write_numpy_array.
  sends.
Qed.

(** On an array with as many items as its dimensions ask for, every index
    of the three loops is in range: the assignments are all there. *)
Lemma chain_commands_total name (its : list scalar) idim jdim kdim :
  length its = (idim * jdim * kdim)%nat ->
  is_Some (chain_commands name its idim jdim kdim).
Proof.
  intros Hlen. unfold chain_commands. apply mapM_is_Some, Forall_forall.
  intros [[i j] k] Hin.
  apply list_elem_of_bind in Hin as (i' & Hin & Hi).
  apply list_elem_of_bind in Hin as (j' & Hin & Hj).
  apply list_elem_of_bind in Hin as (k' & Hin & Hk).
  apply list_elem_of_singleton in Hin. injection Hin as -> -> ->.
  apply elem_of_seq in Hi, Hj, Hk. simpl.
  destruct (nth_error its ((i' * jdim + j') * kdim + k')) eqn:Hnth; [done|].
  apply nth_error_None in Hnth.
  assert (i' * jdim + j' + 1 <= idim * jdim)%nat as Hrow by nia.
  pose proof (Nat.mul_le_mono_r _ _ kdim Hrow). nia.
Qed.

Lemma jdim_nth (l : list nat) :
  (if (2 <=? length l)%nat then nth 1 l 1%nat else 1%nat) = nth 1 l 1%nat.
Proof. by destruct l as [|x [|y l]]. Qed.

Lemma kdim_nth (l : list nat) :
  (length l <= 3)%nat ->
  (if (length l =? 3)%nat then nth 2 l 1%nat else 1%nat) = nth 2 l 1%nat.
Proof. destruct l as [|x [|y [|z [|w l]]]]; simpl; intros; try done; lia. Qed.

Lemma requests_since p p' d :
  exchanges (_mapdl p') = exchanges (_mapdl p) ++ d ->
  map fst (exchanges_since p p') = map fst d.
Proof. intros H. by rewrite (exchanges_since_app _ _ _ H). Qed.

(** The chain strategy: one block, the declaration of the dimensions
    followed by the assignments. *)
Lemma set_parameter_array_chain s arr a p idim rest cmds :
  np_array arr = inr a ->
  issubdtype_number (dtype a) = true ->
  (ndim a <= 3)%nat ->
  shape a = idim :: rest ->
  (arr_size a < 1000)%nat ->
  chain_commands (upper s) (items a) idim (nth 1 (shape a) 1%nat)
    (nth 2 (shape a) 1%nat) = Some cmds ->
  map fst (exchanges_since p (_set_parameter_array (PyStr s) arr p).1)
  = [NonInteractive
       (Dim (upper s) idim (nth 1 (shape a) 1%nat) (nth 2 (shape a) 1%nat)
          :: cmds)].
Proof.
  intros Hnp Hnum Hrank Hshape Hsize Hcmds.
  unfold _set_parameter_array.
  destruct (supress_logging_traffic
              (set_parameter_array_body (PyStr s) arr) p) as (_ & Hx & _).
  destruct (quieted_exchanges p) as (Hq & _).
  apply Nat.ltb_lt in Hsize.
  assert ((3 <? ndim a)%nat = false) as Hr by (apply Nat.ltb_ge; lia).
  match goal with
  | |- map fst (exchanges_since p ?r.1) = [?b] =>
      assert (exists reply, exchanges (_mapdl r.1)
                            = exchanges (_mapdl p) ++ [(b, reply)])
        as [reply Hrun]
  end.
  { rewrite Hx, <- Hq.
    unfold set_parameter_array_body, bind, lift. rewrite Hnp, Hnum.
    cbn [negb]. rewrite Hr. unfold ndim in *.
    rewrite jdim_nth, (kdim_nth _ Hrank).
    set (j := nth 1 (shape a) 1%nat) in *.
    set (k := nth 2 (shape a) 1%nat) in *.
    rewrite Hshape, Hsize.
    unfold _set_array_chain, bind, get, set_mute, modify, send.
    rewrite Hcmds.
    destruct (mute (_mapdl (quieted p))); cbn;
      destruct (respond _ _) as [s' [e|text]]; cbn; by eexists. }
  by rewrite (requests_since _ _ _ Hrun).
Qed.

(** The file strategy on a session that shares the client's disk: the
    scratch file is written and one block is sent, the declaration of the
    dimensions, the bulk read and its format. *)
Lemma set_parameter_array_file s arr a p idim rest :
  np_array arr = inr a ->
  issubdtype_number (dtype a) = true ->
  (ndim a <= 3)%nat ->
  shape a = idim :: rest ->
  (1000 <= arr_size a)%nat ->
  _local (_mapdl p) = true ->
  let jdim := nth 1 (shape a) 1%nat in
  let kdim := nth 2 (shape a) 1%nat in
  map fst (exchanges_since p (_set_parameter_array (PyStr s) arr p).1)
  = [NonInteractive
       [Dim (upper s) idim jdim kdim;
        Vread (vread_cmd (upper s) "_tmp.dat" idim jdim kdim);
        Run "(1F20.12)"]].
Proof.
  intros Hnp Hnum Hrank Hshape Hsize Hlocal jdim kdim.
  unfold _set_parameter_array.
  destruct (supress_logging_traffic
              (set_parameter_array_body (PyStr s) arr) p) as (_ & Hx & _).
  destruct (quieted_exchanges p) as (Hq & _).
  assert (_local (_mapdl (quieted p)) = true) as Hlq.
  { unfold quieted. by destruct (String.eqb _ _). }
  apply Nat.ltb_ge in Hsize.
  assert ((3 <? ndim a)%nat = false) as Hr by (apply Nat.ltb_ge; lia).
  match goal with
  | |- map fst (exchanges_since p ?r.1) = [?b] =>
      assert (exists reply, exchanges (_mapdl r.1)
                            = exchanges (_mapdl p) ++ [(b, reply)])
        as [reply Hrun]
  end.
  { rewrite Hx, <- Hq. subst jdim kdim.
    unfold set_parameter_array_body, bind, lift. rewrite Hnp, Hnum.
    cbn [negb]. rewrite Hr. unfold ndim in *.
    rewrite jdim_nth, (kdim_nth _ Hrank).
    set (j := nth 1 (shape a) 1%nat) in *.
    set (k := nth 2 (shape a) 1%nat) in *.
    rewrite Hshape, Hsize.
    unfold _write_numpy_array, bind, get, modify, send. rewrite Hlq.
    destruct (dims3 _) as [[i' j'] k']. cbn.
    destruct (respond _ _) as [s' [e|text]]; cbn; by eexists. }
  by rewrite (requests_since _ _ _ Hrun).
Qed.

(** The scalar write under a name that the listing shows as an [ARRAY]:
    the first request after the listing is the [starset] of the name with
    no value. *)
Lemma set_parameter_clears s value p p1 parm info :
  scalar_like value ->
  len s <= 32 ->
  _parm (quieted p) = (p1, inr parm) ->
  parm !! s = Some info ->
  info_type info = "ARRAY" ->
  exists reply rest,
    exchanges_since p1 (_set_parameter (PyStr s) value p).1
    = (Direct (Starset s None), reply) :: rest.
Proof.
  intros Hv Hlen Hparm Hs Htype.
  unfold _set_parameter.
  destruct (supress_logging_traffic (set_parameter_body (PyStr s) value) p)
    as (_ & Hx & _).
  assert ((32 <? len s) = false) as Hl by (apply Z.ltb_ge; lia).
  assert (exists reply rest,
             exchanges (_mapdl (set_parameter_body (PyStr s) value
                                  (quieted p)).1)
             = exchanges (_mapdl p1) ++ (Direct (Starset s None), reply) :: rest)
    as (reply & rest & Hrun).
  { unfold set_parameter_body.
    assert (forall body : M unit,
               bind _parm (fun parm' =>
                 bind (match parm' !! s with
                       | Some info' =>
                           if String.eqb (info_type info') "ARRAY"
                           then bind (send (Direct (Starset s None)))
                                  (fun _ => ret tt)
                           else ret tt
                       | None => ret tt
                       end) (fun _ => body)) (quieted p)
               = bind (send (Direct (Starset s None))) (fun _ => body) p1)
      as Hstep.
    { intros body. unfold bind at 1. rewrite Hparm, Hs, Htype. cbn.
      unfold bind, ret. by destruct (send _ p1) as [? [?|?]]. }
    destruct value; try done; rewrite Hl, Hstep;
      unfold bind, send;
      destruct (respond (Direct (Starset s None)) _) as [s1 [e|text]]; cbn;
      try (by eexists _, []);
      repeat match goal with
        | |- context [if ?b then _ else _] => destruct b; cbn
        | |- context [respond ?r ?x] =>
            destruct (respond r x) as [? [?|?]]; cbn
        end;
      try (by eexists _, []);
      rewrite <- app_assoc; by eexists _, [_]. }
  rewrite (exchanges_since_app p1 _ _ (eq_trans Hx Hrun)). by eexists _, _.
Qed.

(** C6.  What the code does where a clear of the prior value is asked
    for.  A write of a numeric buffer sends no clear and asks for no
    listing, whatever the session holds under the name: all it sends is
    the upload of the scratch file and
    blocks that open with the declaration of the dimensions, one block with
    the assignments after it in the chain strategy and one block with the
    bulk read after it in the file strategy.  The clear of a prior array
    value belongs to the scalar write: when the listing shows the name with
    type [ARRAY], [_set_parameter] sends a [starset] of the name with no
    value before the assignment. *)
Theorem write_clears_only_in_scalar_path :
  (forall name arr,
      sends_only array_write_request (_set_parameter_array name arr))
  /\ (forall s arr a (p : Parameters) idim rest cmds,
        np_array arr = inr a ->
        issubdtype_number (dtype a) = true ->
        (ndim a <= 3)%nat ->
        shape a = idim :: rest ->
        (arr_size a < 1000)%nat ->
        chain_commands (upper s) (items a) idim (nth 1 (shape a) 1%nat)
          (nth 2 (shape a) 1%nat) = Some cmds ->
        map fst (exchanges_since p (_set_parameter_array (PyStr s) arr p).1)
        = [NonInteractive
             (Dim (upper s) idim (nth 1 (shape a) 1%nat)
                (nth 2 (shape a) 1%nat) :: cmds)])
  /\ (forall s arr a (p : Parameters) idim rest,
        np_array arr = inr a ->
        issubdtype_number (dtype a) = true ->
        (ndim a <= 3)%nat ->
        shape a = idim :: rest ->
        (1000 <= arr_size a)%nat ->
        _local (_mapdl p) = true ->
        map fst (exchanges_since p (_set_parameter_array (PyStr s) arr p).1)
        = [NonInteractive
             [Dim (upper s) idim (nth 1 (shape a) 1%nat)
                (nth 2 (shape a) 1%nat);
              Vread (vread_cmd (upper s) "_tmp.dat" idim
                       (nth 1 (shape a) 1%nat) (nth 2 (shape a) 1%nat));
              Run "(1F20.12)"]])
  /\ (forall s value (p p1 : Parameters) parm info,
        scalar_like value ->
        len s <= 32 ->
        _parm (quieted p) = (p1, inr parm) ->
        parm !! s = Some info ->
        info_type info = "ARRAY" ->
        exists reply rest,
          exchanges_since p1 (_set_parameter (PyStr s) value p).1
          = (Direct (Starset s None), reply) :: rest).
Proof.
  split; [apply set_parameter_array_sends|].
  split; [apply set_parameter_array_chain|].
  split; [apply set_parameter_array_file | apply set_parameter_clears].
Qed.

End WriteFacts.

Section StoreRuns.
Import PyStr PyNum Listing Np Scripted.
Existing Instance externals.

Lemma get_parameter_array_escalates_witness :
  exchanges_since escalating_store
    (_get_parameter_array "arr" [3; 1; 1] escalating_store).1
  = [(NonInteractive [Mwrite "ARR" "kji"; Run "(1F20.12)"], inr reply_20);
     (NonInteractive [Mwrite "ARR" "kji"; Run "(1F30.12)"], inr reply_30);
     (NonInteractive [Mwrite "ARR" "kji"; Run "(1F40.12)"], inr reply_40)]
  /\ (_get_parameter_array "arr" [3; 1; 1] escalating_store).2
     = parsed_as (post_tag reply_40 40) [3; 1; 1].
Proof.
  change (exchanges_since escalating_store
            (_get_parameter_array "arr" [3; 1; 1] escalating_store).1
          = [(dump_request "arr" 20, inr reply_20);
             (dump_request "arr" 30, inr reply_30);
             (dump_request "arr" 40, inr reply_40)]
          /\ (_get_parameter_array "arr" [3; 1; 1] escalating_store).2
             = parsed_as (post_tag reply_40 40) [3; 1; 1]).
  apply (proj2 (proj2
           (get_parameter_array_escalates "arr" [3; 1; 1] escalating_store))
           [inr reply_30; inr reply_40] [inr reply_40] []
           reply_20 reply_30 reply_40);
    vm_compute; reflexivity.
Defined.

(** What is parsed in that run: the three numbers after the tag of the
    third reply, as an array of shape (3, 1). *)
Lemma get_parameter_array_escalates_value :
  (_get_parameter_array "arr" [3; 1; 1] escalating_store).2
  = inr (NdArray dt_float [3; 1]%nat
           [S754_finite false 5960464477539062 24;
            S754_finite true 5960464477539062 24;
            S754_finite false 5629499534213120 (-51)]).
Proof. vm_compute. reflexivity. Qed.

Lemma getitem_retries_once_witness :
  __getitem__ (PyStr "arr") retry_store
  = fetch_array (upper "arr") array_info
      (fetch_array (upper "arr") array_info retry_listed).1
  /\ fetch_attempts (upper "arr")
       (exchanges_since retry_listed
          (__getitem__ (PyStr "arr") retry_store).1) = 2%nat.
Proof.
  unfold retry_listed.
  apply (proj1 (proj2 (getitem_retries_once "arr" retry_store
                         array_parameters array_info
                         ltac:(vm_compute; reflexivity)
                         ltac:(vm_compute; reflexivity)
                         ltac:(vm_compute; reflexivity))) ValueError);
    vm_compute; reflexivity.
Defined.

(** In that run the first fetch raises [ValueError] and the second one
    returns the array. *)
Lemma getitem_retries_once_run :
  (fetch_array (upper "arr") array_info retry_listed).2 = inl ValueError
  /\ (__getitem__ (PyStr "arr") retry_store).2
     = inr (FetchedArray
              (NdArray dt_float [3; 1]%nat
                 [S754_finite false 4503599627370496 (-52);
                  S754_finite false 4503599627370496 (-51);
                  S754_finite false 6755399441055744 (-51)])).
Proof. vm_compute. split; reflexivity. Qed.

Lemma scripted_rejects_long_names : rejects_long_names.
Proof.
  intros s Hs. cbn. unfold check_name.
  destruct (32 <? len s) eqn:Hc; [discriminate|].
  apply Z.ltb_ge in Hc. lia.
Qed.

Lemma array_write_validation_witness :
  (exists e,
      (_set_parameter_array (PyStr "arr") (PyList [PyStr "a"]) (store [])).2
      = inl e
      /\ no_traffic (store [])
           (_set_parameter_array (PyStr "arr") (PyList [PyStr "a"])
              (store [])).1)
  /\ (exists e,
        (__setitem__ (PyStr long_name) two_ints (store [])).2 = inl e
        /\ no_traffic (store [])
             (__setitem__ (PyStr long_name) two_ints (store [])).1).
Proof.
  split.
  - apply (proj1 (array_write_validation (E := externals))). left.
    exists (NdArray dt_str [1%nat] [0]). split; reflexivity.
  - apply (proj2 (array_write_validation (E := externals))
             scripted_rejects_long_names);
      [exact I|].
    right. right. right. exists long_name. split; [reflexivity|].
    vm_compute. reflexivity.
Defined.

(** [_set_parameter_array] called on its own, not through [__setitem__],
    with a name of 33 characters and a list of two ints: it has no check
    of the length of the name, it returns, and the block that declares and
    fills the array under that name has been sent. *)
Lemma set_parameter_array_accepts_long_name :
  32 < len long_name
  /\ (_set_parameter_array (PyStr long_name) two_ints (store [])).2 = inr tt
  /\ requests (_set_parameter_array (PyStr long_name) two_ints (store [])).1
     = [NonInteractive
          [Dim long_name 2 1 1;
           Run (long_name +:+ "(1,1,1)=1");
           Run (long_name +:+ "(2,1,1)=2")]].
Proof. vm_compute. repeat split; reflexivity. Qed.

Lemma write_clears_only_in_scalar_path_witness :
  map fst (exchanges_since array_store
             (_set_parameter_array (PyStr "arr") two_ints array_store).1)
  = [NonInteractive
       [Dim "ARR" 2 1 1; Run "ARR(1,1,1)=1"; Run "ARR(2,1,1)=2"]].
Proof.
  apply (proj1 (proj2 (write_clears_only_in_scalar_path (E := externals)))
           "arr" two_ints (NdArray dt_int [2%nat] [1; 2]) array_store
           2%nat []);
    try reflexivity; vm_compute; lia.
Defined.

(** The session lists [ARR] as an array of shape (3, 1, 1); an array of
    two ints is written under that name: the one request sent is the block
    that opens with the declaration of the dimensions, and no [starset]
    that clears the name comes before it. *)
Lemma set_parameter_array_sends_no_clear :
  (_parm array_store).2 = inr array_parameters
  /\ requests (_set_parameter_array (PyStr "arr") two_ints array_store).1
     = [NonInteractive
          [Dim "ARR" 2 1 1; Run "ARR(1,1,1)=1"; Run "ARR(2,1,1)=2"]].
Proof. vm_compute. split; reflexivity. Qed.

(** The scalar write under the same name does clear it first. *)
Lemma set_parameter_sends_clear :
  requests (_set_parameter (PyStr "ARR") (PyInt 5) array_store).1
  = [Direct (Starstatus ""); Direct (Starset "ARR" None);
     Direct (Starset "ARR" (Some (PyInt 5)))].
Proof. vm_compute. reflexivity. Qed.

End StoreRuns.

(** ** More on the listing parser *)

Section EntryFacts.
Import PyStr PyNum Listing Entries.

Lemma interp_line_adds line parameters :
  line_raises line = false ->
  interp_line parameters line = inr (add_entry parameters line).
Proof.
  unfold interp_line, line_raises, add_entry, line_entry, rejected.
  destruct (split line) as [|a [|b [|c [|d [|e' [|f r]]]]]]; simpl;
    repeat case_match; simpl; intros Hl; try discriminate; reflexivity.
Qed.

Lemma interp_lines_adds lines : forall parameters,
  Forall (fun l => line_raises l = false) lines ->
  interp_lines lines parameters = inr (foldl add_entry parameters lines).
Proof.
  induction lines as [|l ls IH]; intros parameters Hall; [reflexivity|].
  apply Forall_cons in Hall as [Hl Hls]. simpl.
  rewrite (interp_line_adds _ _ Hl). by apply IH.
Qed.

Lemma add_entry_other parameters line name :
  line_name line <> Some name ->
  add_entry parameters line !! name = parameters !! name.
Proof.
  unfold add_entry, line_name. destruct (line_entry line) as [[n i]|]; [|done].
  simpl. intros Hn. apply lookup_insert_ne. congruence.
Qed.

Lemma foldl_add_entry_other lines : forall parameters name,
  Forall (fun l => line_name l <> Some name) lines ->
  foldl add_entry parameters lines !! name = parameters !! name.
Proof.
  induction lines as [|l ls IH]; intros parameters name Hall; [reflexivity|].
  apply Forall_cons in Hall as [Hl Hls]. simpl.
  rewrite (IH _ _ Hls). by apply add_entry_other.
Qed.

(** When no row of a listing raises, the dict holds for each name the
    entry of the last row listed under it, and holds nothing for a name no
    row is listed under. *)
Theorem interp_star_status_last_row_wins status :
  Forall (fun l => line_raises l = false) (records status) ->
  exists parameters,
    interp_star_status status = inr parameters
    /\ (forall before line after name info,
          records status = before ++ line :: after ->
          line_entry line = Some (name, info) ->
          Forall (fun l => line_name l <> Some name) after ->
          parameters !! name = Some info)
    /\ (forall name,
          Forall (fun l => line_name l <> Some name) (records status) ->
          parameters !! name = None).
Proof.
  intros Hall. exists (foldl add_entry ∅ (records status)).
  split; [by apply interp_lines_adds|]. split.
  - intros before line after name info -> Hline Hafter.
    rewrite foldl_app. simpl. rewrite (foldl_add_entry_other _ _ _ Hafter).
    unfold add_entry at 1. rewrite Hline. apply lookup_insert_eq.
  - intros name Hnone. by rewrite (foldl_add_entry_other _ _ _ Hnone).
Qed.

End EntryFacts.

(** ** The lines of [__repr__] *)

Section ReprFacts.
Import PyStr PyNum Listing.
Variable str_float : spec_float -> string.

Lemma repr_item_raises item e :
  repr_item str_float item = inl e <-> e = KeyError /\ repr_raises item = true.
Proof.
  unfold repr_item, repr_raises. destruct item as [key [t v|t sh]]; simpl;
    destruct (String.eqb t "ARRAY") eqn:Ha; simpl;
    try (apply String.eqb_eq in Ha; subst t; simpl);
    repeat case_match; simpl;
    repeat match goal with
      | H : String.eqb _ _ = true |- _ => apply String.eqb_eq in H; subst
      end;
    (split; [intros Hl; try discriminate; inversion Hl; auto
            | intros [-> Hl]; try discriminate; auto]).
Qed.

Lemma repr_item_line item line :
  repr_item str_float item = inr line ->
  match line with
  | Some l => repr_shown item = true
              /\ l = ljust32 item.1 +:+ " : " +:+ value_text str_float item.2
  | None => repr_shown item = false
  end.
Proof.
  unfold repr_item, repr_shown, value_text, str_shape, dquote.
  destruct item as [key [t v|t [[i j] k]]]; simpl;
    repeat case_match; simpl; intros Hl; simplify_eq;
    repeat match goal with
      | H : String.eqb _ _ = true |- _ => apply String.eqb_eq in H; subst
      end;
    try discriminate; split; reflexivity.
Qed.

Lemma repr_items_spec items :
  match repr_items str_float items with
  | inl e => e = KeyError /\ Exists (fun i => repr_raises i = true) items
  | inr lines =>
      Forall (fun i => repr_raises i = false) items
      /\ Forall2 (fun i l =>
                      l = ljust32 i.1 +:+ " : " +:+ value_text str_float i.2)
           (filter (fun i => repr_shown i = true) items) lines
  end.
Proof.
  induction items as [|item rest IH]; simpl; [by repeat constructor|].
  destruct (repr_item str_float item) as [e|line] eqn:Hitem.
  - apply repr_item_raises in Hitem as [-> Hr]. split; [done | by left].
  - assert (repr_raises item = false) as Hno.
    { destruct (repr_raises item) eqn:Hr; [|done].
      assert (repr_item str_float item = inl KeyError) as Hc
        by (by apply repr_item_raises).
      congruence. }
    apply repr_item_line in Hitem.
    destruct (repr_items str_float rest) as [e|lines].
    + destruct IH as [-> Hex]. split; [done | by right].
    + destruct IH as [Hall Hlines]. split; [by constructor|].
      rewrite filter_cons. destruct line as [l|].
      * destruct Hitem as [Hs Hl]. rewrite decide_True by done.
        by constructor.
      * by rewrite decide_False by congruence.
Qed.

Lemma length_append_chars (a b : string) :
  String.length (a +:+ b) = (String.length a + String.length b)%nat.
Proof.
  induction a as [|c a IH]; [reflexivity|].
  change (S (String.length (a +:+ b))
          = S (String.length a + String.length b)).
  by rewrite IH.
Qed.

Lemma ljust32_length key :
  String.length (ljust32 key) = Nat.max 32 (String.length key).
Proof.
  unfold ljust32. rewrite length_append_chars.
  assert (forall n, String.length (of_chars (repeat " "%char n)) = n) as ->.
  { induction n as [|n IH]; [done|]. simpl. by rewrite IH. }
  lia.
Qed.

(** The text of [__repr__] raises [KeyError] exactly when the listing has
    an entry of type [ARRAY] or [TABLE] without a shape or of type
    [CHARACTER] without a value.  Otherwise it has the two header lines
    and one line for every entry that has a value or is an array or a
    table, in the order of the entries: the name, filled up with spaces to
    32 columns, then [" : "] and the text of the value, which is the type
    and the dimensions for an array or a table, the value between double
    quotes for a [CHARACTER] entry, and the value itself otherwise.  An
    entry with a shape and another type gets no line. *)
Theorem repr_lines_spec (items : list (string * param_info)) :
  (forall e, repr_lines str_float items = inl e <->
     e = KeyError /\ Exists (fun i => repr_raises i = true) items)
  /\ (forall lines, repr_lines str_float items = inr lines ->
        exists body,
          lines = "MAPDL Parameters" :: "----------------" :: body
          /\ Forall2 (fun i l =>
                         l = ljust32 i.1 +:+ " : "
                             +:+ value_text str_float i.2)
               (filter (fun i => repr_shown i = true) items) body)
  /\ (forall key, String.length (ljust32 key) = Nat.max 32 (String.length key)).
Proof.
  pose proof (repr_items_spec items) as H. unfold repr_lines.
  destruct (repr_items str_float items) as [e|body].
  - destruct H as [-> Hex]. split; [|split].
    + intros e. split; [by intros [= <-] | by intros [-> _]].
    + discriminate.
    + apply ljust32_length.
  - destruct H as [Hall Hbody]. split; [|split].
    + intros e. split; [discriminate|]. intros [_ Hex].
      apply Exists_exists in Hex as (i & Hin & Hr).
      rewrite Forall_forall in Hall. rewrite (Hall i Hin) in Hr. discriminate.
    + intros lines [= <-]. by exists body.
    + apply ljust32_length.
Qed.

End ReprFacts.

(** ** Helpers of misc.py *)

Section MiscFacts.
Import PyStr PyNum Misc.

Lemma py_slice_chunk {A} (l : list A) (k N : nat) :
  py_slice l (Z.of_nat (k * N)) (Z.of_nat (k * N) + Z.of_nat N)
  = firstn N (skipn (k * N) l).
Proof.
  unfold py_slice, clamp.
  destruct (Z.of_nat (k * N) <? 0) eqn:H1; [apply Z.ltb_lt in H1; lia|].
  destruct (Z.of_nat (k * N) + Z.of_nat N <? 0) eqn:H2;
    [apply Z.ltb_lt in H2; lia|].
  destruct (decide (k * N + N <= length l)%nat) as [Hle|Hgt].
  - replace (Z.to_nat (Z.min (Z.of_nat (k * N) + Z.of_nat N)
                         (Z.of_nat (length l)))
             - Z.to_nat (Z.min (Z.of_nat (k * N)) (Z.of_nat (length l))))%nat
      with N by lia.
    f_equal. f_equal. lia.
  - rewrite (take_ge (skipn (k * N) l) N) by (rewrite length_drop; lia).
    destruct (decide (k * N <= length l)%nat) as [Hk|Hk].
    + replace (Z.to_nat (Z.min (Z.of_nat (k * N)) (Z.of_nat (length l))))
        with (k * N)%nat by lia.
      apply take_ge. rewrite length_drop. lia.
    + replace (Z.to_nat (Z.min (Z.of_nat (k * N)) (Z.of_nat (length l))))
        with (length l) by lia.
      rewrite !drop_ge by lia. by destruct (_ - _)%nat.
Qed.

Lemma concat_blocks {A} (N : nat) : forall (cnt : nat) (l : list A),
  (length l <= cnt * N)%nat ->
  concat (map (fun k => firstn N (skipn (k * N) l)) (seq 0 cnt)) = l.
Proof.
  induction cnt as [|cnt IH]; intros l Hlen.
  - destruct l; [reflexivity | simpl in Hlen; lia].
  - change (seq 0 (S cnt)) with (0%nat :: seq 1 cnt). rewrite <- seq_shift.
    cbn [map concat]. rewrite map_map. cbn [Nat.mul skipn].
    transitivity (firstn N l ++ skipn N l); [|apply take_drop].
    f_equal.
    rewrite <- (IH (skipn N l)) by (rewrite length_drop; simpl in Hlen; lia).
    f_equal. apply map_ext. intros k. f_equal.
    rewrite drop_drop. f_equal; lia.
Qed.

Lemma chunks_blocks {A} (l : list A) (n : Z) :
  0 < n ->
  chunks l n
  = inr (map (fun k => firstn (Z.to_nat n) (skipn (k * Z.to_nat n) l))
           (seq 0 (Z.to_nat ((Z.of_nat (length l) + n - 1) / n)))).
Proof.
  intros Hn. unfold chunks, py_range, range_count, rbind.
  destruct (n =? 0) eqn:H0; [apply Z.eqb_eq in H0; lia|].
  destruct (0 <? n) eqn:Hp; [|apply Z.ltb_ge in Hp; lia].
  rewrite map_map. f_equal.
  replace (Z.of_nat (length l) - 0 + n - 1) with (Z.of_nat (length l) + n - 1)
    by lia.
  rewrite Z.max_r by (apply Z.div_pos; lia).
  apply map_ext. intros k.
  replace (0 + Z.of_nat k * n) with (Z.of_nat (k * Z.to_nat n)) by lia.
  rewrite <- (py_slice_chunk l k (Z.to_nat n)). f_equal. lia.
Qed.

(** [chunks(l, n)] with a positive [n] cuts [l] into consecutive pieces:
    put together again they give [l]; the piece of index [i] starts at
    [i * n], is not empty and has [n] elements, but for the last one, which
    has what is left. *)
Theorem chunks_partition {A} (l : list A) (n : Z) :
  0 < n ->
  exists cs,
    chunks l n = inr cs
    /\ concat cs = l
    /\ (forall i c, cs !! i = Some c ->
          c = firstn (Z.to_nat n) (skipn (i * Z.to_nat n) l)
          /\ (i * Z.to_nat n < length l)%nat
          /\ length c = Nat.min (Z.to_nat n) (length l - i * Z.to_nat n))
    /\ (length l <= length cs * Z.to_nat n)%nat.
Proof.
  intros Hn. rewrite (chunks_blocks l n Hn).
  set (N := Z.to_nat n). set (L := Z.of_nat (length l)).
  set (cnt := Z.to_nat ((L + n - 1) / n)).
  assert (n * ((L + n - 1) / n) <= L + n - 1) as Hlo
    by (apply Z.mul_div_le; lia).
  assert (L + n - 1 < n * Z.succ ((L + n - 1) / n)) as Hhi
    by (apply Z.mul_succ_div_gt; lia).
  assert (0 <= (L + n - 1) / n) as Hpos by (apply Z.div_pos; lia).
  assert (length l <= cnt * N)%nat as Hcover by (subst cnt N L; nia).
  eexists. split; [reflexivity|]. split; [by apply concat_blocks|].
  split.
  - intros i c Hc. apply list_lookup_fmap_Some in Hc as (k & -> & Hk).
    apply lookup_seq in Hk as [-> Hi]. simpl.
    split; [reflexivity|].
    assert (i * N < length l)%nat as Hin by (subst cnt N L; nia).
    split; [exact Hin|]. rewrite length_take, length_drop. reflexivity.
  - by rewrite length_map, length_seq.
Qed.

(** [chunks] with a size that is not positive: zero raises [ValueError],
    whatever the list; a negative size yields no piece at all, whatever the
    list holds. *)
Theorem chunks_nonpositive {A} (l : list A) (n : Z) :
  n <= 0 ->
  chunks l n = if n =? 0 then inl ValueError else inr [].
Proof.
  intros Hn. unfold chunks, py_range, range_count, rbind.
  destruct (n =? 0) eqn:H0; [reflexivity|]. apply Z.eqb_neq in H0.
  destruct (0 <? n) eqn:Hp; [apply Z.ltb_lt in Hp; lia|].
  assert ((0 - Z.of_nat (length l) - n - 1) / - n <= 0) as Hc.
  { apply Z.lt_succ_r. apply Z.div_lt_upper_bound; lia. }
  rewrite Z.max_l by exact Hc. reflexivity.
Qed.

(** [check_valid_port] accepts exactly the ints strictly between the two
    bounds: the bounds themselves are rejected, and so is what is not an
    int; a bool counts as the int 0 or 1. *)
Theorem check_valid_port_accepts {scalar} (port : pyvalue scalar)
  (lower_bound high_bound : Z) :
  (check_valid_port port lower_bound high_bound = inr tt <->
     exists z, int_of port = Some z /\ lower_bound < z < high_bound)
  /\ (check_valid_port port lower_bound high_bound <> inr tt ->
      check_valid_port port lower_bound high_bound = inl ValueError)
  /\ check_valid_port (scalar := scalar) (PyInt lower_bound)
       lower_bound high_bound = inl ValueError
  /\ check_valid_port (scalar := scalar) (PyInt high_bound)
       lower_bound high_bound = inl ValueError.
Proof.
  unfold check_valid_port. split; [|split; [|split]].
  - destruct (int_of port) as [z|].
    + destruct (lower_bound <? z) eqn:H1; simpl.
      * destruct (z <? high_bound) eqn:H2.
        -- apply Z.ltb_lt in H1, H2. split; [|done]. intros _. by exists z.
        -- apply Z.ltb_ge in H2. split; [discriminate|].
           intros (z' & [= <-] & ?). lia.
      * apply Z.ltb_ge in H1. split; [discriminate|].
        intros (z' & [= <-] & ?). lia.
    + split; [discriminate | by intros (? & ? & _)].
  - destruct (int_of port) as [z|]; [|done].
    destruct (_ && _); [by intros [] | done].
  - simpl. by rewrite Z.ltb_irrefl.
  - simpl. rewrite Z.ltb_irrefl. by rewrite andb_false_r.
Qed.

Lemma lower_upper_char c : lower_char (upper_char c) = lower_char c.
Proof.
  destruct c as [[] [] [] [] [] [] [] []]; reflexivity.
Qed.

Lemma lower_lower_char c : lower_char (lower_char c) = lower_char c.
Proof.
  destruct c as [[] [] [] [] [] [] [] []]; reflexivity.
Qed.

Lemma chars_of_chars l : chars (of_chars l) = l.
Proof. apply list_ascii_of_string_of_list_ascii. Qed.

Lemma lower_upper s : lower (upper s) = lower s.
Proof.
  unfold lower, upper, lower_chars. rewrite chars_of_chars, map_map.
  f_equal. apply map_ext, lower_upper_char.
Qed.

Lemma lower_lower s : lower (lower s) = lower s.
Proof.
  unfold lower, lower_chars. rewrite chars_of_chars, map_map.
  f_equal. apply map_ext, lower_lower_char.
Qed.

(** [check_valid_start_instance] does not look at the case of a string:
    the answer for a string is the answer for its upper-case and for its
    lower-case form.  It answers [True] for a string exactly when the
    string is ["true"] in some casing, and what it answers it accepts
    again unchanged. *)
Theorem check_valid_start_instance_ignores_case {scalar} (s : string) :
  is_ascii s = true ->
  check_valid_start_instance (scalar := scalar) (PyStr (upper s))
  = check_valid_start_instance (scalar := scalar) (PyStr s)
  /\ check_valid_start_instance (scalar := scalar) (PyStr (lower s))
     = check_valid_start_instance (scalar := scalar) (PyStr s)
  /\ (check_valid_start_instance (scalar := scalar) (PyStr s) = inr true
      <-> lower s = "true")
  /\ (forall b, check_valid_start_instance (scalar := scalar) (PyStr s) = inr b
        -> check_valid_start_instance (scalar := scalar) (PyBool b) = inr b).
Proof.
  intros _.
  unfold check_valid_start_instance. rewrite lower_upper, lower_lower.
  split; [reflexivity|]. split; [reflexivity|]. split; [|reflexivity].
  destruct (String.eqb (lower s) "true") eqn:Ht; simpl.
  - apply String.eqb_eq in Ht. by split.
  - apply String.eqb_neq in Ht.
    destruct (String.eqb (lower s) "false"); simpl;
      (split; [intros [=] | intros ?; contradiction]).
Qed.

End MiscFacts.

Section LastCreatedFacts.
Import Misc.
Variable time : Type.
Variable time_eqb time_ltb : time -> time -> bool.
Variable creation_time : string -> result time.

Lemma creation_times_length filenames ctimes :
  creation_times time creation_time filenames = inr ctimes ->
  length ctimes = length filenames.
Proof.
  revert ctimes. induction filenames as [|f fs IH]; intros ctimes; simpl.
  - by intros [= <-].
  - unfold rbind. destruct (creation_time f); [discriminate|].
    destruct (creation_times time creation_time fs) as [|ts]; [discriminate|].
    intros [= <-]. simpl. f_equal. by apply IH.
Qed.

Lemma distinct_nonempty t ts : distinct time time_eqb (t :: ts) <> [].
Proof.
  revert t. induction ts as [|u us IH]; intros t; simpl.
  - discriminate.
  - specialize (IH u). simpl in IH.
    destruct (existsb (time_eqb t) _); [exact IH | discriminate].
Qed.

(** [last_created] gives back the last name of a list that is not empty,
    whatever the creation times are, as soon as all of them can be read;
    the index of the newest file is computed and not used.  On the empty
    list it raises [ValueError]. *)
Theorem last_created_returns_last_name (filenames : list string) :
  (forall ctimes f,
      creation_times time creation_time filenames = inr ctimes ->
      last filenames = Some f ->
      last_created time time_eqb time_ltb creation_time filenames = inr f)
  /\ last_created time time_eqb time_ltb creation_time [] = inl ValueError.
Proof.
  split; [|reflexivity].
  intros ctimes f Htimes Hlast. unfold last_created, rbind.
  rewrite Htimes. pose proof (creation_times_length _ _ Htimes) as Hlen.
  destruct ctimes as [|t ts].
  - destruct filenames; [discriminate | discriminate].
  - simpl argmax. pose proof (distinct_nonempty t ts) as Hne.
    destruct (distinct time time_eqb (t :: ts)) as [|d ds]; [done|].
    simpl. by rewrite Hlast.
Qed.

End LastCreatedFacts.

(** ** The order of the elements of an array on its way out *)

Section LayoutFacts.
Import PyStr PyNum Listing Np.

Lemma nth_error_is_lookup {A} (l : list A) i : nth_error l i = l !! i.
Proof. revert i. induction l as [|x l IH]; intros [|i]; simpl; auto. Qed.

Lemma bind_is_concat {A B} (f : A -> list B) (l : list A) :
  l ≫= f = concat (map f l).
Proof.
  induction l as [|x l IH]; [reflexivity|]. rewrite bind_cons, IH. reflexivity.
Qed.

Lemma flat_map_is_concat {A B} (f : A -> list B) (l : list A) :
  flat_map f l = concat (map f l).
Proof. induction l as [|x l IH]; simpl; by rewrite ?IH. Qed.

Lemma blocks_length {A} (f : nat -> list A) (m : nat) : forall n s,
  (forall y, (s <= y < s + n)%nat -> length (f y) = m) ->
  length (concat (map f (seq s n))) = (n * m)%nat.
Proof.
  induction n as [|n IH]; intros s Hf; [reflexivity|].
  simpl. rewrite length_app, Hf by lia. f_equal. apply IH.
  intros y Hy. apply Hf. lia.
Qed.

Lemma blocks_lookup {A} (f : nat -> list A) (m : nat) : forall n s x r,
  (forall y, (s <= y < s + n)%nat -> length (f y) = m) ->
  (x < n)%nat -> (r < m)%nat ->
  concat (map f (seq s n)) !! (x * m + r)%nat = f (s + x)%nat !! r.
Proof.
  induction n as [|n IH]; intros s x r Hf Hx Hr; [lia|].
  simpl. destruct x as [|x].
  - rewrite lookup_app_l by (rewrite Hf; lia). simpl.
    by rewrite Nat.add_0_r.
  - rewrite lookup_app_r by (rewrite Hf; lia).
    rewrite Hf by lia.
    replace (S x * m + r - m)%nat with (x * m + r)%nat by lia.
    rewrite IH; [| intros y Hy; apply Hf; lia | lia | lia].
    f_equal. f_equal. lia.
Qed.

Lemma inner_loop_length (kdim i' j' : nat) :
  length (k' ← seq 0 kdim; [(i', j', k')]) = kdim.
Proof. rewrite bind_is_concat, (blocks_length _ 1) by done. lia. Qed.

Lemma middle_loop_length (jdim kdim i' : nat) :
  length (j' ← seq 0 jdim; k' ← seq 0 kdim; [(i', j', k')])
  = (jdim * kdim)%nat.
Proof.
  rewrite bind_is_concat.
  by rewrite (blocks_length _ kdim) by (intros; apply inner_loop_length).
Qed.

Lemma loop_indices_length (idim jdim kdim : nat) :
  length (i' ← seq 0 idim; j' ← seq 0 jdim; k' ← seq 0 kdim; [(i', j', k')])
  = (idim * jdim * kdim)%nat.
Proof.
  rewrite bind_is_concat.
  rewrite (blocks_length _ (jdim * kdim))
    by (intros; apply middle_loop_length).
  lia.
Qed.

(** The indices of the three nested loops, in the order they are run
    through. *)
Lemma loop_indices idim jdim kdim i j k :
  (i < idim)%nat -> (j < jdim)%nat -> (k < kdim)%nat ->
  (i' ← seq 0 idim; j' ← seq 0 jdim; k' ← seq 0 kdim; [(i', j', k')])
    !! ((i * jdim + j) * kdim + k)%nat = Some (i, j, k).
Proof.
  intros Hi Hj Hk. rewrite bind_is_concat.
  replace ((i * jdim + j) * kdim + k)%nat
    with (i * (jdim * kdim) + (j * kdim + k))%nat by lia.
  rewrite (blocks_lookup _ (jdim * kdim));
    [| intros; apply middle_loop_length | lia | nia].
  simpl. rewrite bind_is_concat.
  rewrite (blocks_lookup _ kdim);
    [| intros; apply inner_loop_length | lia | lia].
  simpl. rewrite bind_is_concat.
  replace k with (k * 1 + 0)%nat at 1 by lia.
  rewrite (blocks_lookup _ 1); [| done | lia | lia]. reflexivity.
Qed.

Lemma ravel_F_inner {A} (its : list A) idim jdim kdim j k :
  length its = (idim * jdim * kdim)%nat ->
  (j < jdim)%nat -> (k < kdim)%nat ->
  forall y, (0 <= y < 0 + idim)%nat ->
    length (match nth_error its ((y * jdim + j) * kdim + k) with
            | Some x => [x]
            | None => []
            end) = 1%nat.
Proof.
  intros Hlen Hj Hk y Hy.
  destruct (nth_error its ((y * jdim + j) * kdim + k)) eqn:Hn; [done|].
  apply nth_error_None in Hn.
  assert (y * jdim + j + 1 <= idim * jdim)%nat as Hrow by nia.
  pose proof (Nat.mul_le_mono_r _ _ kdim Hrow). nia.
Qed.

(** [ravel("F")] puts the element of index [(i, j, k)] at the place
    [i + idim * (j + jdim * k)]. *)
Lemma ravel_F_lookup {A} (its : list A) idim jdim kdim :
  length its = (idim * jdim * kdim)%nat ->
  length (ravel_F idim jdim kdim its) = (idim * jdim * kdim)%nat
  /\ forall i j k, (i < idim)%nat -> (j < jdim)%nat -> (k < kdim)%nat ->
       ravel_F idim jdim kdim its !! ((k * jdim + j) * idim + i)%nat
       = its !! ((i * jdim + j) * kdim + k)%nat.
Proof.
  intros Hlen. unfold ravel_F.
  assert (forall j k, (j < jdim)%nat -> (k < kdim)%nat ->
            length (flat_map (fun i =>
                      match nth_error its ((i * jdim + j) * kdim + k) with
                      | Some x => [x]
                      | None => []
                      end) (seq 0 idim)) = idim) as Hinner.
  { intros j k Hj Hk. rewrite flat_map_is_concat.
    rewrite (blocks_length _ 1) by (by apply ravel_F_inner). lia. }
  assert (forall k, (k < kdim)%nat ->
            length (flat_map (fun j => flat_map (fun i =>
                      match nth_error its ((i * jdim + j) * kdim + k) with
                      | Some x => [x]
                      | None => []
                      end) (seq 0 idim)) (seq 0 jdim))
            = (jdim * idim)%nat) as Hmid.
  { intros k Hk. rewrite flat_map_is_concat.
    by rewrite (blocks_length _ idim) by (intros; apply Hinner; lia). }
  split.
  - rewrite flat_map_is_concat.
    rewrite (blocks_length _ (jdim * idim)) by (intros; apply Hmid; lia). lia.
  - intros i j k Hi Hj Hk. rewrite flat_map_is_concat.
    replace ((k * jdim + j) * idim + i)%nat
      with (k * (jdim * idim) + (j * idim + i))%nat by lia.
    rewrite (blocks_lookup _ (jdim * idim));
      [| intros; apply Hmid; lia | lia | nia].
    simpl. rewrite flat_map_is_concat.
    rewrite (blocks_lookup _ idim);
      [| intros; apply Hinner; lia | lia | lia].
    simpl. rewrite flat_map_is_concat.
    replace i with (i * 1 + 0)%nat at 1 by lia.
    rewrite (blocks_lookup _ 1); [| by apply ravel_F_inner | lia | lia].
    simpl. pose proof (ravel_F_inner its idim jdim kdim j k Hlen Hj Hk i
                         ltac:(lia)) as Hone.
    rewrite <- (nth_error_is_lookup its).
    destruct (nth_error its ((i * jdim + j) * kdim + k)); [done|].
    simpl in Hone. lia.
Qed.

End LayoutFacts.

Section ArrayWriteFacts.
Import PyStr PyNum Listing Np.
Context `{E : Externals}.

(** The block of the inline-chain strategy: after the declaration of the
    dimensions it has one assignment for every element, and the element
    [arr[i, j, k]] is assigned to the index [(i + 1, j + 1, k + 1)] of the
    array in the session. *)
Theorem chain_commands_assign_each_element
  (name : string) (its : list scalar) (idim jdim kdim : nat) cmds :
  chain_commands name its idim jdim kdim = Some cmds ->
  length cmds = (idim * jdim * kdim)%nat
  /\ forall i j k, (i < idim)%nat -> (j < jdim)%nat -> (k < kdim)%nat ->
       exists x,
         nth_error its ((i * jdim + j) * kdim + k) = Some x
         /\ cmds !! ((i * jdim + j) * kdim + k)%nat
            = Some (assignment name i j k x).
Proof.
  unfold chain_commands. intros Hcmds. apply mapM_Some_1 in Hcmds.
  split.
  - rewrite <- (Forall2_length _ _ _ Hcmds). apply loop_indices_length.
  - intros i j k Hi Hj Hk.
    pose proof (loop_indices idim jdim kdim i j k Hi Hj Hk) as Hidx.
    destruct (Forall2_lookup_l _ _ _ _ _ Hcmds Hidx) as (c & Hc & Hf).
    simpl in Hf.
    destruct (nth_error its ((i * jdim + j) * kdim + k)) as [x|];
      [|discriminate].
    exists x. split; [reflexivity|]. injection Hf as <-. exact Hc.
Qed.

Lemma dims3_product (sh : list nat) :
  (1 <= length sh <= 3)%nat ->
  product sh = (let '(i, j, k) := dims3 sh in i * j * k)%nat.
Proof.
  unfold product, dims3.
  destruct sh as [|a [|b [|c [|d sh]]]]; simpl; intros; lia.
Qed.

(** What [_write_numpy_array] hands to the file writer, and when: the one
    call of [write_array] comes before anything is sent; its array holds
    one double for every element, the conversion of that element, and the
    element [arr[i, j, k]] is at the place [i + idim * (j + jdim * k)], the
    order that the bulk read is told with [IJK].  The path is in the
    directory of the session when the session shares the client's disk,
    and in the temporary directory otherwise.  A session that shares the
    disk is sent nothing; another one is sent the upload of that path and
    nothing else.  How the writer formats the doubles is not part of this
    statement. *)
Theorem write_numpy_array_column_major
  (filename : string) (arr : ndarray scalar) (p : Parameters) :
  well_formed arr ->
  (1 <= ndim arr <= 3)%nat ->
  let '(idim, jdim, kdim) := dims3 (shape arr) in
  let run := _write_numpy_array filename arr p in
  let path := if _local (_mapdl p)
              then path_join (directory (_mapdl p)) filename
              else path_join gettempdir filename in
  exists data,
    write_array_calls run.1 = write_array_calls p ++ [(path, data)]
    /\ length data = (idim * jdim * kdim)%nat
    /\ (forall i j k, (i < idim)%nat -> (j < jdim)%nat -> (k < kdim)%nat ->
          data !! ((k * jdim + j) * idim + i)%nat
          = as_double <$> items arr !! ((i * jdim + j) * kdim + k)%nat)
    /\ map fst (exchanges_since p run.1)
       = (if _local (_mapdl p) then [] else [Direct (Upload path)]).
Proof.
  intros Hwf Hrank. unfold well_formed, arr_size, ndim in *.
  pose proof (dims3_product (shape arr) Hrank) as Hprod.
  unfold _write_numpy_array, bind, get, modify.
  destruct (dims3 (shape arr)) as [[idim jdim] kdim] eqn:Hdims.
  cbn beta iota zeta.
  set (path := if _local (_mapdl p) then _ else _).
  assert (length (map as_double (items arr)) = (idim * jdim * kdim)%nat)
    as Hlen by (rewrite length_map; lia).
  destruct (ravel_F_lookup _ idim jdim kdim Hlen) as [Hl Hidx].
  exists (ravel_F idim jdim kdim (map as_double (items arr))).
  assert (forall i j k, (i < idim)%nat -> (j < jdim)%nat -> (k < kdim)%nat ->
            ravel_F idim jdim kdim (map as_double (items arr))
              !! ((k * jdim + j) * idim + i)%nat
            = as_double <$> items arr !! ((i * jdim + j) * kdim + k)%nat)
    as Hdata.
  { intros i j k Hi Hj Hk. rewrite (Hidx i j k Hi Hj Hk).
    apply list_lookup_fmap. }
  destruct (_local (_mapdl p)) eqn:Hloc; cbn.
  - repeat split; try assumption.
    unfold exchanges_since. cbn. by rewrite drop_all.
  - unfold send. cbn.
    destruct (respond (Direct (Upload path)) (session (_mapdl p)))
      as [s' [e|text]]; cbn; repeat split; try assumption;
      unfold exchanges_since; cbn; by rewrite drop_app_length.
Qed.

(** What is made of the numbers of an accepted dump for a shape of three
    dimensions: an array exactly when there are as many numbers as the
    shape asks for, with the numbers in the order of the dump; a last
    dimension of 1 is dropped, so that a shape [(n, 1, 1)] comes back as
    [(n, 1)]; any other count of numbers is a [ValueError]. *)
Theorem parse_array_shape (text : string) (i j k : nat) :
  parse_array text [Z.of_nat i; Z.of_nat j; Z.of_nat k]
  = match np_fromstring text with
    | inl e => inl e
    | inr flat =>
        if (length flat =? i * j * k)%nat
        then inr (NdArray dt_float
                    (if (k =? 1)%nat then [i; j] else [i; j; k]) flat)
        else inl ValueError
    end.
Proof.
  unfold parse_array. destruct (np_fromstring text) as [e|flat]; [done|].
  unfold reshape. cbn [items dtype existsb].
  assert (forall x : nat, (Z.of_nat x <? -1) = false) as Hlt
    by (intros; apply Z.ltb_ge; lia).
  assert (forall x : nat, (Z.of_nat x =? -1) = false) as Hne
    by (intros; apply Z.eqb_neq; lia).
  rewrite !Hlt. cbn [orb].
  rewrite !filter_cons, filter_nil. rewrite !Hne. cbn [negb].
  rewrite !decide_True by done. cbn [length Nat.sub].
  unfold productZ. cbn [fold_right map].
  rewrite !Nat2Z.id.
  destruct (Z.of_nat i * (Z.of_nat j * (Z.of_nat k * 1))
            =? Z.of_nat (length flat)) eqn:Hsize.
  - apply Z.eqb_eq in Hsize.
    rewrite (proj2 (Nat.eqb_eq (length flat) (i * j * k))) by lia.
    cbn [length Nat.eqb nth andb].
    destruct (Z.of_nat k =? 1) eqn:Hk.
    + apply Z.eqb_eq in Hk. assert (k = 1%nat) as -> by lia. reflexivity.
    + apply Z.eqb_neq in Hk.
      rewrite (proj2 (Nat.eqb_neq k 1)) by lia. reflexivity.
  - apply Z.eqb_neq in Hsize.
    rewrite (proj2 (Nat.eqb_neq (length flat) (i * j * k))) by lia.
    reflexivity.
Qed.

End ArrayWriteFacts.

(** ** The log level around the decorated calls *)

Section LevelFacts.
Import PyStr PyNum Listing Np.
Context `{E : Externals}.

Lemma stays_ret {A} (a : A) : stays_critical (ret a).
Proof. by intros p. Qed.

Lemma stays_raise {A} e : stays_critical (raise (A := A) e).
Proof. by intros p. Qed.

Lemma stays_lift {A} (r : result A) : stays_critical (lift r).
Proof. by intros p. Qed.

Lemma stays_get {A} (f : Parameters -> A) : stays_critical (get f).
Proof. by intros p. Qed.

Lemma stays_send r : stays_critical (send r).
Proof. intros p H. unfold send. destruct (respond r _). exact H. Qed.

Lemma stays_set_mute b : stays_critical (set_mute b).
Proof. by intros p. Qed.

Lemma stays_write_array f : stays_critical (modify (write_array f)).
Proof. by intros p. Qed.

Lemma stays_bind {A B} (m : M A) (k : A -> M B) :
  stays_critical m -> (forall a, stays_critical (k a)) ->
  stays_critical (bind m k).
Proof.
  intros Hm Hk p H. unfold bind. specialize (Hm p H).
  destruct (m p) as [p' [e|a]]; simpl in *; [assumption|]. by apply Hk.
Qed.

Lemma stays_try_except {A} (m h : M A) :
  stays_critical m -> stays_critical h ->
  stays_critical (try_except_ValueError m h).
Proof.
  intros Hm Hh p H. unfold try_except_ValueError. specialize (Hm p H).
  destruct (m p) as [p' [e|a]]; simpl in *; [|assumption].
  destruct (is_ValueError e); simpl; [by apply Hh | assumption].
Qed.

Lemma stays_supress_logging {A} (func : M A) :
  stays_critical func -> stays_critical (supress_logging func).
Proof.
  intros Hf p H. rewrite supress_logging_run. unfold quieted.
  rewrite H, String.eqb_refl. specialize (Hf p H).
  destruct (func p) as [p' [e|out]]; simpl in *; assumption.
Qed.

Ltac stays :=
  repeat match goal with
    | |- stays_critical (ret _) => apply stays_ret
    | |- stays_critical (raise _) => apply stays_raise
    | |- stays_critical (lift _) => apply stays_lift
    | |- stays_critical (get _) => apply stays_get
    | |- stays_critical (send _) => apply stays_send
    | |- stays_critical (set_mute _) => apply stays_set_mute
    | |- stays_critical (modify (write_array _)) => apply stays_write_array
    | |- stays_critical (bind _ _) => apply stays_bind; [| intros ?]
    | |- stays_critical (try_except_ValueError _ _) => apply stays_try_except
    | |- stays_critical (supress_logging _) => apply stays_supress_logging
    | |- stays_critical (if ?b then _ else _) => destruct b
    | |- stays_critical (match ?x with _ => _ end) => destruct x
    | |- stays_critical _ => assumption
    end.

Lemma stays_parm : stays_critical _parm.
Proof. unfold _parm, starstatus. stays. Qed.

Lemma stays_try_formats parm_name numbers :
  stays_critical (try_formats parm_name numbers).
Proof. induction numbers as [|n ns IH]; simpl; stays. Qed.

Lemma stays_get_parameter_array_body parm_name shape :
  stays_critical (get_parameter_array_body parm_name shape).
Proof.
  unfold get_parameter_array_body. pose proof stays_try_formats. stays; auto.
Qed.

Lemma stays_set_parameter_array_body name arr :
  stays_critical (set_parameter_array_body name arr).
Proof.
  unfold set_parameter_array_body, _set_array_chain, _write_numpy_array.
  stays.
Qed.

Lemma stays_set_parameter_body name value :
  stays_critical (set_parameter_body name value).
Proof. pose proof stays_parm. unfold set_parameter_body. stays. Qed.

Lemma quieted_level p : current_log_level (quieted p) = "CRITICAL".
Proof.
  unfold quieted. destruct (String.eqb _ _) eqn:H; [|reflexivity].
  by apply String.eqb_eq in H.
Qed.

Lemma decorated_restores {A} (func : M A) :
  stays_critical func -> restores_level_on_return (supress_logging func).
Proof.
  intros Hf p. rewrite supress_logging_run.
  pose proof (Hf (quieted p) (quieted_level p)) as Hq.
  destruct (func (quieted p)) as [p' [e|out]]; simpl in *; [assumption|].
  destruct (String.eqb (current_log_level p) "CRITICAL") eqn:Hb;
    [|reflexivity].
  apply String.eqb_eq in Hb. congruence.
Qed.

(** Each of the four decorated calls of the store leaves the log level of
    the session at the level it found when it returns, and at [CRITICAL]
    when it raises: nothing that they call sets another level, and the
    decorator puts the prior level back only after a return. *)
Theorem decorated_calls_log_level :
  restores_level_on_return _parm
  /\ (forall parm_name shape,
        restores_level_on_return (_get_parameter_array parm_name shape))
  /\ (forall name value, restores_level_on_return (_set_parameter name value))
  /\ (forall name arr,
        restores_level_on_return (_set_parameter_array name arr)).
Proof.
  split; [| split; [| split]]; intros.
  - unfold _parm, starstatus. apply decorated_restores. stays.
  - apply decorated_restores, stays_get_parameter_array_body.
  - apply decorated_restores, stays_set_parameter_body.
  - apply decorated_restores, stays_set_parameter_array_body.
Qed.

Lemma listed_level c p parameters :
  (with_scope c _parm p).2 = inr parameters ->
  current_log_level (with_scope c _parm p).1 = current_log_level p.
Proof.
  rewrite with_scope_run.
  assert (restores_level_on_return _parm) as Hp.
  { unfold _parm, starstatus. apply decorated_restores. stays. }
  specialize (Hp (__enter__ c p).1).
  destruct (_parm _) as [p2 r]. simpl in *. intros ->. exact Hp.
Qed.

Lemma fetch_array_level key parm p :
  stays_critical (fetch_array key parm)
  /\ (forall a, (fetch_array key parm p).2 = inr a ->
        current_log_level (fetch_array key parm p).1 = current_log_level p)
  /\ ((fetch_array key parm p).2 = inl ValueError ->
        current_log_level (fetch_array key parm p).1 = "CRITICAL").
Proof.
  split.
  { unfold fetch_array, _get_parameter_array.
    pose proof stays_get_parameter_array_body. stays; auto. }
  unfold fetch_array, bind, lift.
  destruct parm as [t v|t [[i j] k]]; simpl; [split; [intros a|]; discriminate|].
  pose proof (decorated_restores _
                (stays_get_parameter_array_body key [i; j; k]) p) as Hd.
  fold (_get_parameter_array key [i; j; k]) in Hd.
  destruct (_get_parameter_array key [i; j; k] p) as [p' [e|a]];
    simpl in *; split; try discriminate; intros; assumption.
Qed.

(** The log level after a lookup of an array or table: when the first
    fetch returns, it is the level from before the lookup; when the first
    fetch raises [ValueError], the second one starts at [CRITICAL], takes
    that for the prior level, and the lookup ends at [CRITICAL] whether
    the second fetch returns the array or raises. *)
Theorem getitem_level_after_retry k (p : Parameters) parameters parm :
  let listed := with_scope (full_parameters_output p) _parm p in
  let first := fetch_array (upper k) parm listed.1 in
  let run := __getitem__ (PyStr k) p in
  listed.2 = inr parameters ->
  parameters !! upper k = Some parm ->
  is_array_or_table parm = true ->
  (forall a, first.2 = inr a ->
     current_log_level run.1 = current_log_level p)
  /\ (first.2 = inl ValueError -> current_log_level run.1 = "CRITICAL").
Proof.
  intros listed first run Hlisted Hparm Harr.
  pose proof (listed_level _ p parameters Hlisted) as Hlevel.
  subst run first listed. unfold __getitem__, bind, get. cbn beta iota.
  destruct (with_scope _ _parm p) as [p1 r]. simpl in *. subst r.
  unfold getitem_lookup. rewrite Hparm, Harr. unfold try_except_ValueError.
  destruct (fetch_array_level (upper k) parm p1) as (_ & Hret & Hval).
  destruct (fetch_array (upper k) parm p1) as [p2 [e|x]]; simpl in *.
  - split; [intros a; discriminate|]. intros [= ->]. simpl.
    destruct (fetch_array_level (upper k) parm p2) as (Hstay & _).
    apply Hstay. by apply Hval.
  - split; [|discriminate]. intros a _. rewrite (Hret x eq_refl). exact Hlevel.
Qed.

End LevelFacts.

(** ** The requests of a listing and the lookups that need no fetch *)

Section ListingRequestFacts.
Import PyStr PyNum Listing Np.
Context `{E : Externals}.

Lemma quieted_flags p :
  show_leading_underscore_parameters (quieted p)
  = show_leading_underscore_parameters p
  /\ show_trailing_underscore_parameters (quieted p)
     = show_trailing_underscore_parameters p.
Proof. unfold quieted. by destruct (String.eqb _ _). Qed.

Lemma parm_listing_run (p : Parameters) params :
  (_parm p).2 = inr params ->
  exists texts dicts,
    exchanges_since p (_parm p).1
    = zip (listing_requests (show_leading_underscore_parameters p)
             (show_trailing_underscore_parameters p)) (inr <$> texts)
    /\ length texts
       = length (listing_requests (show_leading_underscore_parameters p)
                   (show_trailing_underscore_parameters p))
    /\ Forall2 (fun text d => interp_star_status text = inr d) texts dicts
    /\ params = merged dicts.
Proof.
  unfold _parm.
  match goal with
  | |- context [supress_logging ?b] =>
      destruct (supress_logging_traffic b p) as (Hr & Hx & _);
      set (body := b) in *
  end.
  rewrite Hr. intros Hret.
  destruct (quieted_exchanges p) as (Hq & _).
  destruct (quieted_flags p) as (Hl & Ht).
  assert (exists texts dicts,
            exchanges (_mapdl (body (quieted p)).1)
            = exchanges (_mapdl (quieted p))
              ++ zip (listing_requests
                        (show_leading_underscore_parameters (quieted p))
                        (show_trailing_underscore_parameters (quieted p)))
                   (inr <$> texts)
            /\ length texts
               = length (listing_requests
                           (show_leading_underscore_parameters (quieted p))
                           (show_trailing_underscore_parameters (quieted p)))
            /\ Forall2 (fun text d => interp_star_status text = inr d)
                 texts dicts
            /\ params = merged dicts) as (texts & dicts & Hrun & Hrest).
  { revert Hret. generalize (quieted p) as q. intros q. subst body.
    unfold listing_requests, merged, bind, starstatus, send, lift, get, ret.
    destruct (truthy (show_leading_underscore_parameters q)) eqn:Hlead;
      destruct (truthy (show_trailing_underscore_parameters q)) eqn:Htrail;
      destruct (respond (Direct (Starstatus "")) (session (_mapdl q)))
        as [s1 [e1|t1]]; cbn -[truthy interp_star_status];
      try discriminate;
      destruct (interp_star_status t1) as [e|d1] eqn:Hd1;
      cbn -[truthy interp_star_status]; try discriminate;
      rewrite ?Hlead, ?Htrail; cbn -[truthy interp_star_status];
      repeat match goal with
        | |- context [respond ?r ?x] =>
            destruct (respond r x) as [? [?|?]];
            cbn -[truthy interp_star_status]; try discriminate
        | |- context [match interp_star_status ?t with _ => _ end] =>
            destruct (interp_star_status t) eqn:?;
            cbn -[truthy interp_star_status]; try discriminate
        | |- context [truthy _] =>
            rewrite ?Hlead, ?Htrail; cbn -[truthy interp_star_status]
        end;
      intros [= <-];
      first
        [ solve [ eexists [_], [_]; cbn; split_and!;
                  [ rewrite <- ?app_assoc; reflexivity | reflexivity
                  | repeat constructor; eassumption
                  | by rewrite (right_id_L ∅ (∪)) ] ]
        | solve [ eexists [_; _], [_; _]; cbn; split_and!;
                  [ rewrite <- ?app_assoc; reflexivity | reflexivity
                  | repeat constructor; eassumption
                  | by rewrite (right_id_L ∅ (∪)) ] ]
        | solve [ eexists [_; _; _], [_; _; _]; cbn; split_and!;
                  [ rewrite <- ?app_assoc; reflexivity | reflexivity
                  | repeat constructor; eassumption
                  | by rewrite (right_id_L ∅ (∪)) ] ] ]. }
  rewrite Hl, Ht in *. exists texts, dicts. split; [|exact Hrest].
  apply exchanges_since_app. rewrite Hx, Hrun, Hq. reflexivity.
Qed.

(** What [_parm] asks the session and what it makes of the replies, when
    it returns: one listing request, then the one for the names with a
    leading underscore when that flag is set, then the one for the names
    with a trailing underscore when that flag is set, and nothing else; the
    result is the dicts parsed from the replies, merged in that order, so
    that an entry of a later listing replaces the entry of an earlier one
    under the same name. *)
Theorem parm_listing (p : Parameters) params :
  (_parm p).2 = inr params ->
  exists texts dicts,
    exchanges_since p (_parm p).1
    = zip (listing_requests (show_leading_underscore_parameters p)
             (show_trailing_underscore_parameters p)) (inr <$> texts)
    /\ length texts
       = length (listing_requests (show_leading_underscore_parameters p)
                   (show_trailing_underscore_parameters p))
    /\ Forall2 (fun text d => interp_star_status text = inr d) texts dicts
    /\ params = merged dicts.
Proof. apply parm_listing_run. Qed.

(** The lookups of [__getitem__] that end without a fetch.  The listing is
    asked with the three requests, whatever the flags of the store are.
    Then a name that is not listed raises [IndexError]; an entry of another
    type than [ARRAY] or [TABLE] gives its value, or [KeyError] when the
    row has a shape and no value; an [ARRAY] or [TABLE] entry that has a
    value and no shape raises [KeyError]; in all these cases nothing more
    is sent to the session. *)
Theorem getitem_lookups_without_fetch k (p : Parameters) parameters :
  let listed := with_scope (full_parameters_output p) _parm p in
  let run := __getitem__ (PyStr k) p in
  listed.2 = inr parameters ->
  map fst (exchanges_since p listed.1)
  = [Direct (Starstatus ""); Direct (Starstatus "_PRM");
     Direct (Starstatus "PRM_")]
  /\ (parameters !! upper k = None ->
      run.2 = inl IndexError /\ no_traffic listed.1 run.1)
  /\ (forall parm,
        parameters !! upper k = Some parm ->
        is_array_or_table parm = false ->
        run.2 = match parm_value parm with
                | inr v => inr (FetchedValue v)
                | inl e => inl e
                end
        /\ no_traffic listed.1 run.1)
  /\ (forall parm,
        parameters !! upper k = Some parm ->
        is_array_or_table parm = true ->
        parm_shape parm = inl KeyError ->
        run.2 = inl KeyError /\ no_traffic listed.1 run.1).
Proof.
  intros listed run Hlisted. split.
  { subst listed. rewrite with_scope_run in *.
    pose proof (parm_listing_run (__enter__ (full_parameters_output p) p).1)
      as Hrun.
    destruct (_parm _) as [p2 r]. simpl in *. subst r.
    destruct (Hrun parameters eq_refl) as (texts & dicts & Hx & Hlen & _).
    unfold exchanges_since in *. simpl in *. rewrite Hx.
    destruct texts as [|t1 [|t2 [|t3 [|t4 texts]]]]; try discriminate.
    reflexivity. }
  subst run listed. unfold __getitem__, bind, get. cbn beta iota.
  destruct (with_scope _ _parm p) as [p1 r]. simpl in *. subst r.
  unfold getitem_lookup.
  split; [| split].
  - intros ->. by repeat split.
  - intros parm -> ->. unfold bind, lift, ret.
    destruct (parm_value parm); by repeat split.
  - intros parm -> -> Hshape.
    unfold try_except_ValueError, fetch_array, bind, lift. rewrite Hshape.
    by repeat split.
Qed.

End ListingRequestFacts.

(** ** The scalar write *)

Section ScalarWriteFacts.
Import PyStr PyNum Listing Np.
Context `{E : Externals}.

(** The checks of [_set_parameter] that run before anything is sent: a
    value that is not a string, an int or a float is a [TypeError],
    whatever the name is; then a name that is not a string is a
    [TypeError]; then a name longer than 32 characters is a [ValueError].
    In all three cases the session is sent nothing. *)
Theorem set_parameter_validation name value (p : Parameters) :
  let run := _set_parameter name value p in
  (~ scalar_like value -> run.2 = inl TypeError /\ no_traffic p run.1)
  /\ (scalar_like value -> non_string name ->
      run.2 = inl TypeError /\ no_traffic p run.1)
  /\ (scalar_like value -> longer_than_32 name ->
      run.2 = inl ValueError /\ no_traffic p run.1).
Proof.
  intros run. subst run. unfold _set_parameter.
  split; [| split].
  - intros Hv. apply supress_logging_rejects.
    destruct value; try reflexivity; by destruct Hv.
  - intros Hv Hname. apply supress_logging_rejects.
    destruct value; try (by destruct Hv);
      destruct name; try reflexivity; exfalso; by eapply Hname.
  - intros Hv (s & -> & Hlen). apply supress_logging_rejects.
    assert ((32 <? len s) = true) as Hl by (apply Z.ltb_lt; lia).
    destruct value; try (by destruct Hv); simpl; by rewrite Hl.
Qed.

Lemma set_parameter_run s value p p1 parm :
  scalar_like value ->
  len s <= 32 ->
  _parm (quieted p) = (p1, inr parm) ->
  let run := _set_parameter (PyStr s) value p in
  (run.2 = inr tt ->
   has_space value = false
   /\ map fst (exchanges_since p1 run.1) = scalar_write_requests parm s value)
  /\ (has_space value = true ->
      if listed_as_array parm s
      then exists reply,
             exchanges_since p1 run.1 = [(Direct (Starset s None), reply)]
             /\ run.2 = match reply with
                        | inl e => inl e
                        | inr _ => inl ValueError
                        end
      else exchanges_since p1 run.1 = [] /\ run.2 = inl ValueError).
Proof.
  intros Hv Hlen Hparm run. subst run. unfold _set_parameter.
  destruct (supress_logging_traffic (set_parameter_body (PyStr s) value) p)
    as (Hr & Hx & _).
  rewrite Hr. unfold exchanges_since. rewrite Hx. clear Hr Hx.
  assert ((32 <? len s) = false) as Hl by (apply Z.ltb_ge; lia).
  unfold scalar_write_requests, listed_as_array, set_parameter_body.
  assert (forall l, skipn (length (exchanges (_mapdl p1)))
                      (exchanges (_mapdl p1) ++ l) = l) as Hdrop
    by (intros; apply drop_app_length).
  assert (skipn (length (exchanges (_mapdl p1))) (exchanges (_mapdl p1)) = [])
    as Hall by apply drop_all.
  destruct value; try (by destruct Hv); rewrite Hl;
    unfold bind, send, ret; rewrite Hparm; cbn beta iota;
    (destruct (parm !! s) as [info|];
     [destruct (String.eqb (info_type info) "ARRAY")|]); cbn;
    repeat match goal with
      | |- context [respond ?r ?x] =>
          destruct (respond r x) as [? [?|?]]; cbn
      | |- context [if contains ?a ?b then _ else _] =>
          destruct (contains a b) eqn:?; cbn
      end;
    rewrite <- ?app_assoc, ?Hdrop, ?Hall;
    (split; [intros; try discriminate; by split
            | intros; try discriminate; try (by eexists); by split]).
Qed.

(** The requests of a scalar write that returns.  The value holds no
    space, and after the listing the session was sent the clear of the
    name, when the listing shows the name as given (it is not upper-cased
    here) with the type [ARRAY], and then the assignment, with a string
    value between single quotes; nothing else. *)
Theorem set_parameter_requests s value (p : Parameters) parm :
  scalar_like value ->
  len s <= 32 ->
  let listed := _parm (quieted p) in
  let run := _set_parameter (PyStr s) value p in
  listed.2 = inr parm ->
  run.2 = inr tt ->
  has_space value = false
  /\ map fst (exchanges_since listed.1 run.1)
     = scalar_write_requests parm s value.
Proof.
  intros Hv Hlen listed run Hlisted. subst listed run.
  destruct (_parm (quieted p)) as [p1 r] eqn:Hparm. simpl in *. subst r.
  apply (set_parameter_run s value p p1 parm Hv Hlen Hparm).
Qed.

(** A string value with a space in it is rejected late: the listing has
    been asked for by then, and when it shows the name as an [ARRAY] the
    clear of that name has been sent too.  The write then raises
    [ValueError] (or what the clear raised) with the old array cleared and
    nothing assigned. *)
Theorem set_parameter_space_check_after_clear s v (p : Parameters) parm :
  len s <= 32 ->
  contains " " v = true ->
  let listed := _parm (quieted p) in
  let run := _set_parameter (PyStr s) (PyStr v) p in
  listed.2 = inr parm ->
  if listed_as_array parm s
  then exists reply,
         exchanges_since listed.1 run.1 = [(Direct (Starset s None), reply)]
         /\ run.2 = match reply with
                    | inl e => inl e
                    | inr _ => inl ValueError
                    end
  else exchanges_since listed.1 run.1 = [] /\ run.2 = inl ValueError.
Proof.
  intros Hlen Hsp listed run Hlisted. subst listed run.
  destruct (_parm (quieted p)) as [p1 r] eqn:Hparm. simpl in *. subst r.
  apply (set_parameter_run s (PyStr v) p p1 parm I Hlen Hparm). exact Hsp.
Qed.

(** The mute switch around the block of the inline-chain strategy: a
    session that has the switch gets it back as it was when the block
    returns; when the block raises, the switch stays on, as nothing puts
    it back on that path.  A session without the switch is left without
    it. *)
Theorem set_array_chain_mute name arr idim jdim kdim (p : Parameters) :
  let run := _set_array_chain name arr idim jdim kdim p in
  mute (_mapdl run.1)
  = match run.2 with
    | inr _ => mute (_mapdl p)
    | inl _ => if has_attr (mute (_mapdl p)) then Some true else None
    end.
Proof.
  unfold _set_array_chain, bind, get, set_mute, modify, send, ret, raise.
  destruct (mute (_mapdl p)) as [b|] eqn:Hm; cbn;
    destruct (chain_commands name (items arr) idim jdim kdim); cbn;
    rewrite ?Hm; try reflexivity;
    destruct (respond _ _) as [s' [e|text]]; cbn; by rewrite ?Hm.
Qed.

End ScalarWriteFacts.

(** ** A listing that is short or has no header *)

Section HeaderFacts.
Import PyStr PyNum Listing.

Lemma find_from_range sub s : forall pos,
  0 <= pos -> find_from sub s pos = -1 \/ pos <= find_from sub s pos.
Proof.
  induction s as [|c s IH]; intros pos Hpos; cbn [find_from].
  - destruct (String.prefix sub ""); [right; lia | by left].
  - destruct (String.prefix sub (String c s)); [right; lia|].
    destruct (IH (pos + 1) ltac:(lia)) as [H|H]; [by left | right; lia].
Qed.

Lemma drop_chars_all s : forall n,
  (String.length s <= n)%nat -> drop_chars n s = "".
Proof.
  induction s as [|c s IH]; intros [|n] Hn; simpl in *; try reflexivity;
    [lia | apply IH; lia].
Qed.

(** The parser on a reply that is short or has no header line.  A text of
    at most 79 characters, the empty reply among them, gives the empty
    dict and no error, with or without the header in it.  When the header
    is not in the text, [find] is [-1] and the text is read from its 80th
    character on, whatever stands before it. *)
Theorem interp_star_status_without_header status :
  (len status <= 79 -> interp_star_status status = inr ∅)
  /\ (contains header status = false ->
      interp_star_status status
      = interp_lines (splitlines (slice_from status 79)) ∅).
Proof.
  unfold interp_star_status, records, contains, find, len.
  destruct (find_from_range header status 0 ltac:(lia)) as [H|H].
  - rewrite H. split; [|reflexivity]. intros Hlen.
    change (-1 + 80) with 79. unfold slice_from.
    change (79 <? 0) with false. cbn beta iota. by rewrite drop_chars_all by lia.
  - split.
    + intros Hlen. unfold slice_from.
      destruct (find_from header status 0 + 80 <? 0) eqn:Hneg;
        [apply Z.ltb_lt in Hneg; lia|].
      by rewrite drop_chars_all by lia.
    + intros Hc. apply Z.leb_gt in Hc. lia.
Qed.

End HeaderFacts.

(** ** Runs on sample inputs *)

Section SampleRuns.
Import PyStr PyNum Listing Np Scripted Entries Misc Samples.
Existing Instance externals.

Lemma interp_star_status_last_row_wins_witness :
  exists parameters,
    interp_star_status relisted = inr parameters
    /\ (forall before line after name info,
          records relisted = before ++ line :: after ->
          line_entry line = Some (name, info) ->
          Forall (fun l => line_name l <> Some name) after ->
          parameters !! name = Some info)
    /\ (forall name,
          Forall (fun l => line_name l <> Some name) (records relisted) ->
          parameters !! name = None).
Proof.
  apply (interp_star_status_last_row_wins relisted).
  assert (records relisted
          = ["X 1.0 SCALAR"; "Y 2.0 SCALAR"; "X ARRAY 3 1 1"]) as ->
    by (vm_compute; reflexivity).
  repeat (apply List.Forall_cons; [vm_compute; reflexivity|]).
  apply List.Forall_nil.
Defined.

(** In that listing [X] ends up as the array of its second row. *)
Lemma relisted_parameters :
  interp_star_status relisted
  = inr {[ "X" := InfoShape "ARRAY" (3, 1, 1);
           "Y" := InfoValue "SCALAR"
                    (VFloat (S754_finite false 4503599627370496 (-51))) ]}.
Proof. vm_compute. reflexivity. Qed.

Lemma repr_lines_spec_witness :
  exists body,
    ["MAPDL Parameters"; "----------------";
     ljust32 "PARM_FLOAT" +:+ " : 20.0";
     ljust32 "PARM_STR" +:+ " : " +:+ dquote +:+ "string" +:+ dquote;
     ljust32 "ARR" +:+ " : ARRAY DIM (3, 1, 1)"]
    = "MAPDL Parameters" :: "----------------" :: body
    /\ Forall2 (fun i l =>
                   l = ljust32 i.1 +:+ " : " +:+ value_text str_float_20 i.2)
         (filter (fun i => repr_shown i = true) shown_items) body.
Proof.
  apply (proj1 (proj2 (repr_lines_spec str_float_20 shown_items))).
  vm_compute. reflexivity.
Defined.

Lemma chunks_partition_witness :
  exists cs,
    chunks [1; 2; 3; 4; 5] 2 = inr cs
    /\ concat cs = [1; 2; 3; 4; 5]
    /\ (forall i c, cs !! i = Some c ->
          c = firstn (Z.to_nat 2) (skipn (i * Z.to_nat 2) [1; 2; 3; 4; 5])
          /\ (i * Z.to_nat 2 < length [1; 2; 3; 4; 5])%nat
          /\ length c
             = Nat.min (Z.to_nat 2) (length [1; 2; 3; 4; 5] - i * Z.to_nat 2))
    /\ (length [1; 2; 3; 4; 5] <= length cs * Z.to_nat 2)%nat.
Proof. apply (chunks_partition [1; 2; 3; 4; 5] 2). lia. Defined.

(** The chunks of that run. *)
Lemma chunks_of_five : chunks [1; 2; 3; 4; 5] 2 = inr [[1; 2]; [3; 4]; [5]].
Proof. vm_compute. reflexivity. Qed.

Lemma chunks_nonpositive_witness :
  chunks [1; 2; 3] 0 = inl ValueError /\ chunks [1; 2; 3] (-2) = inr [].
Proof.
  split.
  - apply (chunks_nonpositive [1; 2; 3] 0). lia.
  - apply (chunks_nonpositive [1; 2; 3] (-2)). lia.
Defined.

Lemma check_valid_port_accepts_witness :
  check_valid_port (scalar := Z) (PyInt 50052) 1000 60000 = inr tt
  /\ check_valid_port (scalar := Z) (PyStr "50052") 1000 60000
     = inl ValueError.
Proof.
  split.
  - apply (proj1 (check_valid_port_accepts (PyInt 50052) 1000 60000)).
    exists 50052. split; [reflexivity | lia].
  - apply (proj1 (proj2 (check_valid_port_accepts (PyStr "50052") 1000 60000))).
    discriminate.
Defined.

Lemma check_valid_start_instance_ignores_case_witness :
  check_valid_start_instance (scalar := Z) (PyStr (upper "tRuE"))
  = check_valid_start_instance (scalar := Z) (PyStr "tRuE")
  /\ check_valid_start_instance (scalar := Z) (PyStr (lower "tRuE"))
     = check_valid_start_instance (scalar := Z) (PyStr "tRuE")
  /\ (check_valid_start_instance (scalar := Z) (PyStr "tRuE") = inr true
      <-> lower "tRuE" = "true")
  /\ (forall b,
        check_valid_start_instance (scalar := Z) (PyStr "tRuE") = inr b
        -> check_valid_start_instance (scalar := Z) (PyBool b) = inr b).
Proof.
  apply (check_valid_start_instance_ignores_case (scalar := Z) "tRuE").
  reflexivity.
Defined.

(** The file that was created first is returned, as it is the last of
    the list. *)
Lemma last_created_returns_last_name_witness :
  last_created Z Z.eqb Z.ltb sample_creation_time ["new.rst"; "old.rst"]
  = inr "old.rst".
Proof.
  apply (proj1 (last_created_returns_last_name Z Z.eqb Z.ltb
                  sample_creation_time ["new.rst"; "old.rst"])
           [200; 100]); reflexivity.
Defined.

Lemma chain_commands_assign_each_element_witness :
  length [Run (scalar := Z) "ARR(1,1,1)=1"; Run "ARR(2,1,1)=2"]
  = (2 * 1 * 1)%nat
  /\ forall i j k, (i < 2)%nat -> (j < 1)%nat -> (k < 1)%nat ->
       exists x,
         nth_error [1; 2] ((i * 1 + j) * 1 + k) = Some x
         /\ [Run (scalar := Z) "ARR(1,1,1)=1"; Run "ARR(2,1,1)=2"]
              !! ((i * 1 + j) * 1 + k)%nat
            = Some (assignment "ARR" i j k x).
Proof.
  apply (chain_commands_assign_each_element (E := externals)
           "ARR" [1; 2] 2 1 1).
  vm_compute. reflexivity.
Defined.

Lemma write_numpy_array_column_major_witness :
  let '(idim, jdim, kdim) := dims3 (shape grid) in
  let run := _write_numpy_array "_tmp.dat" grid (store []) in
  let path := if _local (_mapdl (store []))
              then path_join (directory (_mapdl (store []))) "_tmp.dat"
              else path_join gettempdir "_tmp.dat" in
  exists data,
    write_array_calls run.1 = write_array_calls (store []) ++ [(path, data)]
    /\ length data = (idim * jdim * kdim)%nat
    /\ (forall i j k, (i < idim)%nat -> (j < jdim)%nat -> (k < kdim)%nat ->
          data !! ((k * jdim + j) * idim + i)%nat
          = as_double <$> items grid !! ((i * jdim + j) * kdim + k)%nat)
    /\ map fst (exchanges_since (store []) run.1)
       = (if _local (_mapdl (store [])) then []
          else [Direct (Upload path)]).
Proof.
  apply (write_numpy_array_column_major (E := externals)
           "_tmp.dat" grid (store [])).
  - reflexivity.
  - vm_compute. lia.
Defined.

(** What the writer is handed in that run: the columns of the grid one
    after the other. *)
Lemma grid_write_array_call :
  write_array_calls (_write_numpy_array "_tmp.dat" grid (store [])).1
  = [("/work/_tmp.dat", map to_double [1; 4; 2; 5; 3; 6])].
Proof. vm_compute. reflexivity. Qed.

(** An array of shape (3, 1, 1) is read back with shape (3, 1). *)
Lemma parse_array_column :
  parse_array (after_tag clean_reply (format_str 20)) [3; 1; 1]
  = inr (NdArray dt_float [3; 1]%nat
           [S754_finite false 4503599627370496 (-52);
            S754_finite false 4503599627370496 (-51);
            S754_finite false 6755399441055744 (-51)]).
Proof. vm_compute. reflexivity. Qed.

(** After the lookup that needed a second fetch, the level is [CRITICAL],
    though the store started at [ERROR] and the lookup returned. *)
Lemma getitem_level_after_retry_witness :
  current_log_level retry_store = "ERROR"
  /\ current_log_level (__getitem__ (PyStr "arr") retry_store).1 = "CRITICAL".
Proof.
  split; [reflexivity|].
  apply (proj2 (getitem_level_after_retry (E := externals)
                  "arr" retry_store array_parameters array_info
                  ltac:(vm_compute; reflexivity)
                  ltac:(vm_compute; reflexivity)
                  ltac:(vm_compute; reflexivity))).
  vm_compute. reflexivity.
Defined.

Lemma parm_listing_witness :
  exists texts dicts,
    exchanges_since array_store (_parm array_store).1
    = zip (listing_requests (show_leading_underscore_parameters array_store)
             (show_trailing_underscore_parameters array_store))
        (inr <$> texts)
    /\ length texts
       = length (listing_requests
                   (show_leading_underscore_parameters array_store)
                   (show_trailing_underscore_parameters array_store))
    /\ Forall2 (fun text d => interp_star_status text = inr d) texts dicts
    /\ array_parameters = merged dicts.
Proof.
  apply (parm_listing (E := externals) array_store array_parameters).
  vm_compute. reflexivity.
Defined.

Lemma getitem_lookups_without_fetch_witness :
  (__getitem__ (PyStr "nope") array_store).2 = inl IndexError
  /\ no_traffic
       (with_scope (full_parameters_output array_store) _parm array_store).1
       (__getitem__ (PyStr "nope") array_store).1.
Proof.
  apply (proj1 (proj2 (getitem_lookups_without_fetch (E := externals)
                         "nope" array_store array_parameters
                         ltac:(vm_compute; reflexivity)))).
  vm_compute. reflexivity.
Defined.

(** A scalar is read with the three listing requests and nothing else. *)
Lemma getitem_scalar_run :
  (__getitem__ (PyStr "x") listed_store).2
  = inr (FetchedValue (VFloat (S754_finite false 5629499534213120 (-50))))
  /\ requests (__getitem__ (PyStr "x") listed_store).1
     = [Direct (Starstatus ""); Direct (Starstatus "_PRM");
        Direct (Starstatus "PRM_")].
Proof. vm_compute. split; reflexivity. Qed.

Lemma set_parameter_validation_witness :
  ((_set_parameter (PyStr "X") PyNone (store [])).2 = inl TypeError
   /\ no_traffic (store []) (_set_parameter (PyStr "X") PyNone (store [])).1)
  /\ ((_set_parameter (PyStr long_name) (PyInt 1) (store [])).2
      = inl ValueError
      /\ no_traffic (store [])
           (_set_parameter (PyStr long_name) (PyInt 1) (store [])).1).
Proof.
  split.
  - apply (proj1 (set_parameter_validation (E := externals)
                    (PyStr "X") PyNone (store []))).
    intros H. exact H.
  - apply (proj2 (proj2 (set_parameter_validation (E := externals)
                           (PyStr long_name) (PyInt 1) (store []))));
      [exact I|].
    exists long_name. split; [reflexivity|]. vm_compute. reflexivity.
Defined.

Lemma set_parameter_requests_witness :
  has_space (PyInt 5) = false
  /\ map fst (exchanges_since (_parm (quieted array_store)).1
                (_set_parameter (PyStr "ARR") (PyInt 5) array_store).1)
     = scalar_write_requests array_parameters "ARR" (PyInt 5).
Proof.
  apply (set_parameter_requests (E := externals)
           "ARR" (PyInt 5) array_store array_parameters);
    try exact I; vm_compute; try reflexivity; discriminate.
Defined.

(** The name is looked up as given: written as [arr], the array listed as
    [ARR] is not cleared. *)
Lemma set_parameter_lower_case_run :
  requests (_set_parameter (PyStr "arr") (PyInt 5) array_store).1
  = [Direct (Starstatus ""); Direct (Starset "arr" (Some (PyInt 5)))].
Proof. vm_compute. reflexivity. Qed.

Lemma set_parameter_space_check_after_clear_witness :
  if listed_as_array array_parameters "ARR"
  then exists reply,
         exchanges_since (_parm (quieted array_store)).1
           (_set_parameter (PyStr "ARR") (PyStr "a b") array_store).1
         = [(Direct (Starset "ARR" None), reply)]
         /\ (_set_parameter (PyStr "ARR") (PyStr "a b") array_store).2
            = match reply with
              | inl e => inl e
              | inr _ => inl ValueError
              end
  else exchanges_since (_parm (quieted array_store)).1
         (_set_parameter (PyStr "ARR") (PyStr "a b") array_store).1 = []
       /\ (_set_parameter (PyStr "ARR") (PyStr "a b") array_store).2
          = inl ValueError.
Proof.
  apply (set_parameter_space_check_after_clear (E := externals)
           "ARR" "a b" array_store array_parameters);
    vm_compute; try reflexivity; discriminate.
Defined.

(** In that run the clear is what the session was sent after the listing,
    and the write raised [ValueError]. *)
Lemma set_parameter_space_run :
  requests (_set_parameter (PyStr "ARR") (PyStr "a b") array_store).1
  = [Direct (Starstatus ""); Direct (Starset "ARR" None)]
  /\ (_set_parameter (PyStr "ARR") (PyStr "a b") array_store).2
     = inl ValueError.
Proof. vm_compute. split; reflexivity. Qed.

(** The empty reply, as a muted session gives it, is the empty dict. *)
Lemma interp_star_status_without_header_witness :
  interp_star_status "" = inr ∅
  /\ interp_star_status "no parameters defined"
     = interp_lines (splitlines (slice_from "no parameters defined" 79)) ∅.
Proof.
  split.
  - apply (proj1 (interp_star_status_without_header "")). vm_compute.
    discriminate.
  - apply (proj2 (interp_star_status_without_header "no parameters defined")).
    vm_compute. reflexivity.
Defined.

End SampleRuns.
